(** * Cloud-sync engine of the year planner ([src/hooks/useCloudSync.ts])

    A shallow embedding of the React hook [useCloudSync]: its refs and React
    state become fields of one record, every asynchronous boundary (network
    reply, timer expiry, re-render, change notification) becomes an event of
    a step function, and every outgoing call (fetch, upsert, subscribe,
    removeChannel, setDateCells) is appended to a log. *)

From Stdlib Require Import ZArith Ascii String List Bool Lia.
From stdpp Require Import base option gmap strings list fin_maps.

Local Open Scope string_scope.
Local Open Scope list_scope.

(** ** Data model *)

(** Modelled from the spec: [DateCellData] is declared in [utils/colors],
    which is not among the sources; the spec calls it an opaque per-day
    annotation, "e.g. a color tag", and the tests build it as [{ color }]. *)
Record DateCellData : Type := { color : string }.

Global Instance DateCellData_eq_dec : EqDecision DateCellData.
Proof. solve_decision. Defined.

(** [Map<string, DateCellData>] and [Record<string, DateCellData>]. *)
Abbreviation Cells := (gmap string DateCellData).

(** [Object.entries(obj)], [new Map(entries)], [Object.fromEntries(map)]. *)
Definition Object_entries (obj : Cells) : list (string * DateCellData) :=
  map_to_list obj.
Definition Map_of_entries (entries : list (string * DateCellData)) : Cells :=
  list_to_map entries.
Definition Object_fromEntries (m : Cells) : Cells := m.

(** [export type SyncStatus = "idle" | "pushing" | "pulling" | "error" | "offline"] *)
Inductive SyncStatus : Type := idle | pushing | pulling | error | offline.

(** The string literal each member of the union stands for. *)
Definition SyncStatus_literal (st : SyncStatus) : string :=
  match st with
  | idle => "idle"
  | pushing => "pushing"
  | pulling => "pulling"
  | error => "error"
  | offline => "offline"
  end.

Definition SYNC_TS_KEY : string := "calendar_sync_ts".
Definition DEBOUNCE_MS : nat := 500.

(** ** Browser environment *)

(** [localStorage]: its items, and whether [getItem] / [setItem] throw
    (storage disabled, quota exceeded). *)
Record Storage : Type := {
  items : gmap string string;
  getItem_throws : bool;
  setItem_throws : bool
}.

(** [function getSyncTimestamp(): string | null] *)
Definition getSyncTimestamp (ls : Storage) : option string :=
  if getItem_throws ls then None else items ls !! SYNC_TS_KEY.

(** [function setSyncTimestamp(ts: string): void]; a throwing [setItem] is
    caught and logged, and nothing is stored. *)
Definition setSyncTimestamp (ts : string) (ls : Storage) : Storage :=
  if setItem_throws ls then ls
  else {| items := <[SYNC_TS_KEY := ts]> (items ls);
          getItem_throws := getItem_throws ls;
          setItem_throws := setItem_throws ls |}.

(** Truthiness of a [string | null]: [null] and the empty string are falsy. *)
Definition truthy (o : option string) : bool :=
  match o with
  | None => false
  | Some s => negb (String.eqb s "")
  end.

(** [a > b] on strings: comparison by code units. *)
Definition js_string_gt (a b : string) : bool := String.ltb b a.
Definition js_string_le (a b : string) : bool := String.leb a b.

(** [x === y] on the numbers returned by [getTime()]; [None] stands for
    [NaN], which is equal to nothing. *)
Definition js_number_eq (x y : option Z) : bool :=
  match x, y with
  | Some a, Some b => Z.eqb a b
  | _, _ => false
  end.

(** ** An instance of [new Date(s).getTime()]

    The engine only needs [Date] as a function from strings to instants;
    the development takes it as a parameter.  The instance below reads the
    ECMAScript date-time string format
    [YYYY-MM-DDTHH:mm:ss(.s+)?(Z|+HH:mm|-HH:mm)] and is used to run the
    engine on concrete timestamps. *)
Module IsoDate.

Definition digit (c : ascii) : option Z :=
  let n := Z.of_nat (nat_of_ascii c) in
  if (48 <=? n)%Z && (n <=? 57)%Z then Some (n - 48)%Z else None.

(** Reads exactly [k] digits. *)
Fixpoint digits (k : nat) (acc : Z) (s : string) : option (Z * string) :=
  match k with
  | O => Some (acc, s)
  | S k' =>
      match s with
      | String c rest =>
          match digit c with
          | Some d => digits k' (acc * 10 + d)%Z rest
          | None => None
          end
      | EmptyString => None
      end
  end.

Definition expect (c : ascii) (s : string) : option string :=
  match s with
  | String c' rest => if Ascii.eqb c c' then Some rest else None
  | EmptyString => None
  end.

(** Fraction of a second: the first three digits are the milliseconds,
    further digits are dropped. *)
Fixpoint fraction (fuel : nat) (seen : nat) (acc : Z) (s : string) : Z * string :=
  match fuel with
  | O => (acc, s)
  | S fuel' =>
      match s with
      | String c rest =>
          match digit c with
          | Some d =>
              if (seen <? 3)%nat
              then fraction fuel' (S seen) (acc * 10 + d)%Z rest
              else fraction fuel' seen acc rest
          | None => (acc, s)
          end
      | EmptyString => (acc, s)
      end
  end.

Definition millis (s : string) : option (Z * string) :=
  match s with
  | String "."%char rest =>
      match rest with
      | String c _ =>
          match digit c with
          | Some _ =>
              let '(acc, rest') := fraction (String.length rest) 0 0%Z rest in
              let seen := (String.length rest - String.length rest')%nat in
              Some (match seen with
                    | 1%nat => acc * 100
                    | 2%nat => acc * 10
                    | _ => acc
                    end%Z, rest')
          | None => None
          end
      | EmptyString => None
      end
  | _ => Some (0%Z, s)
  end.

(** Zone designator, as minutes east of UTC. *)
Definition zone (s : string) : option Z :=
  match s with
  | String "Z"%char EmptyString => Some 0%Z
  | String sign rest =>
      let sg := if Ascii.eqb sign "+"%char then Some 1%Z
                else if Ascii.eqb sign "-"%char then Some (-1)%Z else None in
      match sg with
      | Some k =>
          '(h, r1) ← digits 2 0 rest;
          r2 ← expect ":"%char r1;
          '(m, r3) ← digits 2 0 r2;
          match r3 with
          | EmptyString =>
              if (h <=? 23)%Z && (m <=? 59)%Z then Some (k * (h * 60 + m))%Z else None
          | _ => None
          end
      | None => None
      end
  | EmptyString => None
  end.

Definition leap (y : Z) : bool :=
  ((y mod 4 =? 0) && negb (y mod 100 =? 0) || (y mod 400 =? 0))%Z.

Definition days_in_month (y m : Z) : Z :=
  (if m =? 2 then (if leap y then 29 else 28)
   else if (m =? 4) || (m =? 6) || (m =? 9) || (m =? 11) then 30 else 31)%Z.

(** Days from 1970-01-01 to the civil date [y-m-d]. *)
Definition days_from_civil (y m d : Z) : Z :=
  (let y' := if m <=? 2 then y - 1 else y in
   let era := y' / 400 in
   let yoe := y' - era * 400 in
   let mp := (m + 9) mod 12 in
   let doy := (153 * mp + 2) / 5 + d - 1 in
   let doe := yoe * 365 + yoe / 4 - yoe / 100 + doy in
   era * 146097 + doe - 719468)%Z.

Definition getTime (s : string) : option Z :=
  '(y, r) ← digits 4 0 s;
  r ← expect "-"%char r;
  '(mo, r) ← digits 2 0 r;
  r ← expect "-"%char r;
  '(d, r) ← digits 2 0 r;
  r ← expect "T"%char r;
  '(h, r) ← digits 2 0 r;
  r ← expect ":"%char r;
  '(mi, r) ← digits 2 0 r;
  r ← expect ":"%char r;
  '(sec, r) ← digits 2 0 r;
  '(ms, r) ← millis r;
  off ← zone r;
  if ((1 <=? mo) && (mo <=? 12) && (1 <=? d) && (d <=? days_in_month y mo)
      && (h <=? 23) && (mi <=? 59) && (sec <=? 59))%Z
  then Some (days_from_civil y mo d * 86400000
             + h * 3600000 + mi * 60000 + sec * 1000 + ms
             - off * 60000)%Z
  else None.

End IsoDate.

(** ** Remote store and host interfaces *)

(** The row a fetch returns: [{ data, updated_at }]. *)
Record Document : Type := { doc_data : Cells; doc_updated_at : string }.

(** [payload.new] of a change notification. *)
Record Row : Type := { row_year : Z; row_data : Cells; row_updated_at : string }.

(** Reply of [maybeSingle()]: [{ data, error }], or a rejected promise. *)
Inductive FetchResult : Type :=
| FetchOk (data : option Document)
| FetchError
| FetchThrow.

(** Reply of [upsert()]: [{ error }], or a rejected promise. *)
Inductive UpsertResult : Type :=
| UpsertOk
| UpsertError
| UpsertThrow.

(** Channel name [calendar-sync-${year}-${id}], kept structured. *)
Record ChannelName : Type := { cn_year : Z; cn_id : nat }.

(** Calls that leave the hook. *)
Inductive Call : Type :=
| CFetch (user_id : string) (y : Z)
| CUpsert (user_id : string) (y : Z) (data : Cells) (updated_at : string)
| CSubscribe (name : ChannelName) (user_id : string)
| CRemoveChannel (name : ChannelName)
| CSetDateCells (m : Cells).

(** A pending [setTimeout(() => pushToCloud(), DEBOUNCE_MS)]; the callback
    closes over the [user] and [year] of the render that created it. *)
Record Timer : Type := {
  t_id : nat;
  t_deadline : nat;
  t_user : option string;
  t_year : Z
}.

(** A live subscription; its handler closes over [year]. *)
Record Channel : Type := { ch_name : ChannelName; ch_year : Z; ch_user : string }.

(** ** Engine state *)

Record State : Type := {
  supabase : bool;  (** [supabase !== null]: the client is configured (a module constant) *)
  user : option string;  (** [useAuth().user], by its id *)
  year : Z;  (** the [year] argument *)
  dateCells : Cells;  (** the [dateCells] argument of the last render, also [dateCellsRef.current] *)
  syncStatus : SyncStatus;  (** [useState<SyncStatus>] *)
  isPushingRef : bool;
  debounceTimerRef : option nat;
  isFromRealtimeRef : bool;
  initialPullDoneRef : bool;
  channelIdRef : nat;
  autoPushCleanup : bool;  (** the last run of the auto-push effect returned its cleanup *)
  channel : option Channel;  (** the subscription the realtime effect's cleanup will remove *)
  localStorage : Storage;
  time : nat;  (** timer clock, in milliseconds *)
  timers : list Timer;  (** [setTimeout] callbacks not yet fired or cleared *)
  nextTimerId : nat;
  pendingPulls : list bool;  (** fetches awaiting a reply; [true]: started by the mount effect *)
  pendingPushes : list string;  (** upserts awaiting a reply, each with the [now] it sent *)
  calls : list Call  (** outgoing calls, oldest first *)
}.

(** Field updates. *)
Definition set_user (v : option string) (s : State) : State :=
  {| supabase := supabase s; user := v; year := year s;
     dateCells := dateCells s; syncStatus := syncStatus s;
     isPushingRef := isPushingRef s; debounceTimerRef := debounceTimerRef s;
     isFromRealtimeRef := isFromRealtimeRef s;
     initialPullDoneRef := initialPullDoneRef s;
     channelIdRef := channelIdRef s; autoPushCleanup := autoPushCleanup s;
     channel := channel s; localStorage := localStorage s; time := time s;
     timers := timers s; nextTimerId := nextTimerId s;
     pendingPulls := pendingPulls s; pendingPushes := pendingPushes s;
     calls := calls s |}.
Definition set_year (v : Z) (s : State) : State :=
  {| supabase := supabase s; user := user s; year := v;
     dateCells := dateCells s; syncStatus := syncStatus s;
     isPushingRef := isPushingRef s; debounceTimerRef := debounceTimerRef s;
     isFromRealtimeRef := isFromRealtimeRef s;
     initialPullDoneRef := initialPullDoneRef s;
     channelIdRef := channelIdRef s; autoPushCleanup := autoPushCleanup s;
     channel := channel s; localStorage := localStorage s; time := time s;
     timers := timers s; nextTimerId := nextTimerId s;
     pendingPulls := pendingPulls s; pendingPushes := pendingPushes s;
     calls := calls s |}.
Definition set_dateCells (v : Cells) (s : State) : State :=
  {| supabase := supabase s; user := user s; year := year s; dateCells := v;
     syncStatus := syncStatus s; isPushingRef := isPushingRef s;
     debounceTimerRef := debounceTimerRef s;
     isFromRealtimeRef := isFromRealtimeRef s;
     initialPullDoneRef := initialPullDoneRef s;
     channelIdRef := channelIdRef s; autoPushCleanup := autoPushCleanup s;
     channel := channel s; localStorage := localStorage s; time := time s;
     timers := timers s; nextTimerId := nextTimerId s;
     pendingPulls := pendingPulls s; pendingPushes := pendingPushes s;
     calls := calls s |}.
Definition set_syncStatus (v : SyncStatus) (s : State) : State :=
  {| supabase := supabase s; user := user s; year := year s;
     dateCells := dateCells s; syncStatus := v;
     isPushingRef := isPushingRef s; debounceTimerRef := debounceTimerRef s;
     isFromRealtimeRef := isFromRealtimeRef s;
     initialPullDoneRef := initialPullDoneRef s;
     channelIdRef := channelIdRef s; autoPushCleanup := autoPushCleanup s;
     channel := channel s; localStorage := localStorage s; time := time s;
     timers := timers s; nextTimerId := nextTimerId s;
     pendingPulls := pendingPulls s; pendingPushes := pendingPushes s;
     calls := calls s |}.
Definition set_isPushingRef (v : bool) (s : State) : State :=
  {| supabase := supabase s; user := user s; year := year s;
     dateCells := dateCells s; syncStatus := syncStatus s; isPushingRef := v;
     debounceTimerRef := debounceTimerRef s;
     isFromRealtimeRef := isFromRealtimeRef s;
     initialPullDoneRef := initialPullDoneRef s;
     channelIdRef := channelIdRef s; autoPushCleanup := autoPushCleanup s;
     channel := channel s; localStorage := localStorage s; time := time s;
     timers := timers s; nextTimerId := nextTimerId s;
     pendingPulls := pendingPulls s; pendingPushes := pendingPushes s;
     calls := calls s |}.
Definition set_debounceTimerRef (v : option nat) (s : State) : State :=
  {| supabase := supabase s; user := user s; year := year s;
     dateCells := dateCells s; syncStatus := syncStatus s;
     isPushingRef := isPushingRef s; debounceTimerRef := v;
     isFromRealtimeRef := isFromRealtimeRef s;
     initialPullDoneRef := initialPullDoneRef s;
     channelIdRef := channelIdRef s; autoPushCleanup := autoPushCleanup s;
     channel := channel s; localStorage := localStorage s; time := time s;
     timers := timers s; nextTimerId := nextTimerId s;
     pendingPulls := pendingPulls s; pendingPushes := pendingPushes s;
     calls := calls s |}.
Definition set_isFromRealtimeRef (v : bool) (s : State) : State :=
  {| supabase := supabase s; user := user s; year := year s;
     dateCells := dateCells s; syncStatus := syncStatus s;
     isPushingRef := isPushingRef s; debounceTimerRef := debounceTimerRef s;
     isFromRealtimeRef := v; initialPullDoneRef := initialPullDoneRef s;
     channelIdRef := channelIdRef s; autoPushCleanup := autoPushCleanup s;
     channel := channel s; localStorage := localStorage s; time := time s;
     timers := timers s; nextTimerId := nextTimerId s;
     pendingPulls := pendingPulls s; pendingPushes := pendingPushes s;
     calls := calls s |}.
Definition set_initialPullDoneRef (v : bool) (s : State) : State :=
  {| supabase := supabase s; user := user s; year := year s;
     dateCells := dateCells s; syncStatus := syncStatus s;
     isPushingRef := isPushingRef s; debounceTimerRef := debounceTimerRef s;
     isFromRealtimeRef := isFromRealtimeRef s; initialPullDoneRef := v;
     channelIdRef := channelIdRef s; autoPushCleanup := autoPushCleanup s;
     channel := channel s; localStorage := localStorage s; time := time s;
     timers := timers s; nextTimerId := nextTimerId s;
     pendingPulls := pendingPulls s; pendingPushes := pendingPushes s;
     calls := calls s |}.
Definition set_channelIdRef (v : nat) (s : State) : State :=
  {| supabase := supabase s; user := user s; year := year s;
     dateCells := dateCells s; syncStatus := syncStatus s;
     isPushingRef := isPushingRef s; debounceTimerRef := debounceTimerRef s;
     isFromRealtimeRef := isFromRealtimeRef s;
     initialPullDoneRef := initialPullDoneRef s; channelIdRef := v;
     autoPushCleanup := autoPushCleanup s; channel := channel s;
     localStorage := localStorage s; time := time s; timers := timers s;
     nextTimerId := nextTimerId s; pendingPulls := pendingPulls s;
     pendingPushes := pendingPushes s; calls := calls s |}.
Definition set_autoPushCleanup (v : bool) (s : State) : State :=
  {| supabase := supabase s; user := user s; year := year s;
     dateCells := dateCells s; syncStatus := syncStatus s;
     isPushingRef := isPushingRef s; debounceTimerRef := debounceTimerRef s;
     isFromRealtimeRef := isFromRealtimeRef s;
     initialPullDoneRef := initialPullDoneRef s;
     channelIdRef := channelIdRef s; autoPushCleanup := v;
     channel := channel s; localStorage := localStorage s; time := time s;
     timers := timers s; nextTimerId := nextTimerId s;
     pendingPulls := pendingPulls s; pendingPushes := pendingPushes s;
     calls := calls s |}.
Definition set_channel (v : option Channel) (s : State) : State :=
  {| supabase := supabase s; user := user s; year := year s;
     dateCells := dateCells s; syncStatus := syncStatus s;
     isPushingRef := isPushingRef s; debounceTimerRef := debounceTimerRef s;
     isFromRealtimeRef := isFromRealtimeRef s;
     initialPullDoneRef := initialPullDoneRef s;
     channelIdRef := channelIdRef s; autoPushCleanup := autoPushCleanup s;
     channel := v; localStorage := localStorage s; time := time s;
     timers := timers s; nextTimerId := nextTimerId s;
     pendingPulls := pendingPulls s; pendingPushes := pendingPushes s;
     calls := calls s |}.
Definition set_localStorage (v : Storage) (s : State) : State :=
  {| supabase := supabase s; user := user s; year := year s;
     dateCells := dateCells s; syncStatus := syncStatus s;
     isPushingRef := isPushingRef s; debounceTimerRef := debounceTimerRef s;
     isFromRealtimeRef := isFromRealtimeRef s;
     initialPullDoneRef := initialPullDoneRef s;
     channelIdRef := channelIdRef s; autoPushCleanup := autoPushCleanup s;
     channel := channel s; localStorage := v; time := time s;
     timers := timers s; nextTimerId := nextTimerId s;
     pendingPulls := pendingPulls s; pendingPushes := pendingPushes s;
     calls := calls s |}.
Definition set_time (v : nat) (s : State) : State :=
  {| supabase := supabase s; user := user s; year := year s;
     dateCells := dateCells s; syncStatus := syncStatus s;
     isPushingRef := isPushingRef s; debounceTimerRef := debounceTimerRef s;
     isFromRealtimeRef := isFromRealtimeRef s;
     initialPullDoneRef := initialPullDoneRef s;
     channelIdRef := channelIdRef s; autoPushCleanup := autoPushCleanup s;
     channel := channel s; localStorage := localStorage s; time := v;
     timers := timers s; nextTimerId := nextTimerId s;
     pendingPulls := pendingPulls s; pendingPushes := pendingPushes s;
     calls := calls s |}.
Definition set_timers (v : list Timer) (s : State) : State :=
  {| supabase := supabase s; user := user s; year := year s;
     dateCells := dateCells s; syncStatus := syncStatus s;
     isPushingRef := isPushingRef s; debounceTimerRef := debounceTimerRef s;
     isFromRealtimeRef := isFromRealtimeRef s;
     initialPullDoneRef := initialPullDoneRef s;
     channelIdRef := channelIdRef s; autoPushCleanup := autoPushCleanup s;
     channel := channel s; localStorage := localStorage s; time := time s;
     timers := v; nextTimerId := nextTimerId s;
     pendingPulls := pendingPulls s; pendingPushes := pendingPushes s;
     calls := calls s |}.
Definition set_nextTimerId (v : nat) (s : State) : State :=
  {| supabase := supabase s; user := user s; year := year s;
     dateCells := dateCells s; syncStatus := syncStatus s;
     isPushingRef := isPushingRef s; debounceTimerRef := debounceTimerRef s;
     isFromRealtimeRef := isFromRealtimeRef s;
     initialPullDoneRef := initialPullDoneRef s;
     channelIdRef := channelIdRef s; autoPushCleanup := autoPushCleanup s;
     channel := channel s; localStorage := localStorage s; time := time s;
     timers := timers s; nextTimerId := v; pendingPulls := pendingPulls s;
     pendingPushes := pendingPushes s; calls := calls s |}.
Definition set_pendingPulls (v : list bool) (s : State) : State :=
  {| supabase := supabase s; user := user s; year := year s;
     dateCells := dateCells s; syncStatus := syncStatus s;
     isPushingRef := isPushingRef s; debounceTimerRef := debounceTimerRef s;
     isFromRealtimeRef := isFromRealtimeRef s;
     initialPullDoneRef := initialPullDoneRef s;
     channelIdRef := channelIdRef s; autoPushCleanup := autoPushCleanup s;
     channel := channel s; localStorage := localStorage s; time := time s;
     timers := timers s; nextTimerId := nextTimerId s; pendingPulls := v;
     pendingPushes := pendingPushes s; calls := calls s |}.
Definition set_pendingPushes (v : list string) (s : State) : State :=
  {| supabase := supabase s; user := user s; year := year s;
     dateCells := dateCells s; syncStatus := syncStatus s;
     isPushingRef := isPushingRef s; debounceTimerRef := debounceTimerRef s;
     isFromRealtimeRef := isFromRealtimeRef s;
     initialPullDoneRef := initialPullDoneRef s;
     channelIdRef := channelIdRef s; autoPushCleanup := autoPushCleanup s;
     channel := channel s; localStorage := localStorage s; time := time s;
     timers := timers s; nextTimerId := nextTimerId s;
     pendingPulls := pendingPulls s; pendingPushes := v; calls := calls s |}.
Definition set_calls (v : list Call) (s : State) : State :=
  {| supabase := supabase s; user := user s; year := year s;
     dateCells := dateCells s; syncStatus := syncStatus s;
     isPushingRef := isPushingRef s; debounceTimerRef := debounceTimerRef s;
     isFromRealtimeRef := isFromRealtimeRef s;
     initialPullDoneRef := initialPullDoneRef s;
     channelIdRef := channelIdRef s; autoPushCleanup := autoPushCleanup s;
     channel := channel s; localStorage := localStorage s; time := time s;
     timers := timers s; nextTimerId := nextTimerId s;
     pendingPulls := pendingPulls s; pendingPushes := pendingPushes s;
     calls := v |}.

Definition log (c : Call) (s : State) : State := set_calls (calls s ++ [c]) s.

(** [const isEnabled = supabase !== null && user !== null] *)
Definition isEnabled (s : State) : bool :=
  supabase s && match user s with Some _ => true | None => false end.

(** [clearTimeout(id)] *)
Definition clearTimeout (id : nat) (s : State) : State :=
  set_timers (List.filter (fun t => negb (Nat.eqb (t_id t) id)) (timers s)) s.

(** [setTimeout(() => pushToCloud(), ms)], returning the new id in
    [debounceTimerRef.current]. *)
Definition setTimeout_push (ms : nat) (s : State) : State :=
  let id := nextTimerId s in
  let t := {| t_id := id; t_deadline := time s + ms;
              t_user := user s; t_year := year s |} in
  set_debounceTimerRef (Some id)
    (set_nextTimerId (S id) (set_timers (timers s ++ [t]) s)).

(** ** The hook's callbacks *)

(** [pushToCloud], up to its [await]: the guard, the in-flight flag, the
    phase, the local wall-clock reading [now] and the upsert call. *)
Definition pushToCloud_start (u : option string) (y : Z) (now : string)
    (s : State) : State :=
  if negb (supabase s) then s
  else match u with
       | None => s
       | Some uid =>
           let s := set_isPushingRef true s in
           let s := set_syncStatus pushing s in
           let dataObj := Object_fromEntries (dateCells s) in
           let s := log (CUpsert uid y dataObj now) s in
           set_pendingPushes (pendingPushes s ++ [now]) s
       end.

(** [pushToCloud], after its [await]. *)
Definition pushToCloud_resume (now : string) (r : UpsertResult) (s : State) : State :=
  let s :=
    match r with
    | UpsertOk =>
        set_syncStatus idle
          (set_localStorage (setSyncTimestamp now (localStorage s)) s)
    | UpsertError => set_syncStatus error s
    | UpsertThrow => set_syncStatus error s
    end in
  set_isPushingRef false s.

(** [pullFromCloud], up to its [await]; [fromMount] records whether the
    caller chained [.then(() => initialPullDoneRef.current = true)]. *)
Definition pullFromCloud_start (fromMount : bool) (u : option string) (y : Z)
    (s : State) : State :=
  if negb (supabase s) then s
  else match u with
       | None => s
       | Some uid =>
           let s := set_syncStatus pulling s in
           let s := log (CFetch uid y) s in
           set_pendingPulls (pendingPulls s ++ [fromMount]) s
       end.

(** The test of line 117:
    [!localTs || cloudTs > localTs || dateCellsRef.current.size === 0] *)
Definition pull_should_apply (localTs : option string) (cloudTs : string)
    (local : Cells) : bool :=
  negb (truthy localTs)
  || match localTs with
     | Some l => js_string_gt cloudTs l
     | None => false
     end
  || Nat.eqb (size local) 0.

(** [pullFromCloud], after its [await]. *)
Definition pullFromCloud_resume (r : FetchResult) (s : State) : State :=
  match r with
  | FetchError => set_syncStatus error s
  | FetchThrow => set_syncStatus error s
  | FetchOk None => set_syncStatus idle s
  | FetchOk (Some data) =>
      let cloudEntries := Object_entries (doc_data data) in
      let s :=
        if Nat.ltb 0 (length cloudEntries) then
          let localTs := getSyncTimestamp (localStorage s) in
          let cloudTs := doc_updated_at data in
          if pull_should_apply localTs cloudTs (dateCells s) then
            let s := log (CSetDateCells (Map_of_entries cloudEntries)) s in
            set_localStorage (setSyncTimestamp cloudTs (localStorage s)) s
          else s
        else s in
      set_syncStatus idle s
  end.

(** ** The hook's effects *)

(** "Auto-pull on mount and when year changes". *)
Definition pullEffect (s : State) : State :=
  if negb (isEnabled s) then s
  else pullFromCloud_start true (user s) (year s)
         (set_initialPullDoneRef false s).

(** The realtime effect's cleanup: [supabase!.removeChannel(channel)]. *)
Definition realtimeEffect_cleanup (s : State) : State :=
  match channel s with
  | Some ch => log (CRemoveChannel (ch_name ch)) (set_channel None s)
  | None => s
  end.

(** The realtime effect: a channel named with [++channelIdRef.current]. *)
Definition realtimeEffect (s : State) : State :=
  if negb (supabase s) then s
  else match user s with
       | None => s
       | Some uid =>
           if negb (isEnabled s) then s
           else
             let id := S (channelIdRef s) in
             let name := {| cn_year := year s; cn_id := id |} in
             let ch := {| ch_name := name; ch_year := year s; ch_user := uid |} in
             log (CSubscribe name uid)
               (set_channel (Some ch) (set_channelIdRef id s))
       end.

(** The cleanup the auto-push effect returns. *)
Definition autoPushEffect_cleanup (s : State) : State :=
  if autoPushCleanup s then
    let s := match debounceTimerRef s with
             | Some id => clearTimeout id s
             | None => s
             end in
    set_autoPushCleanup false s
  else s.

(** "Auto-push with debounce when dateCells change". *)
Definition autoPushEffect (s : State) : State :=
  if negb (isEnabled s) then s
  else if negb (initialPullDoneRef s) then s
  else if isPushingRef s then s
  else if isFromRealtimeRef s then set_isFromRealtimeRef false s
  else if Nat.eqb (size (dateCells s)) 0 then s
  else
    let s := match debounceTimerRef s with
             | Some id => clearTimeout id s
             | None => s
             end in
    let s := setTimeout_push DEBOUNCE_MS s in
    set_autoPushCleanup true s.

(** A render in which every dependency list changed: React runs the
    cleanups of the previous effects, then the effects, in source order. *)
Definition rerunEffects (s : State) : State :=
  let s := realtimeEffect_cleanup s in
  let s := autoPushEffect_cleanup s in
  let s := pullEffect s in
  let s := realtimeEffect s in
  autoPushEffect s.

(** A render in which only [dateCells] changed. *)
Definition renderCells (cells : Cells) (s : State) : State :=
  autoPushEffect (autoPushEffect_cleanup (set_dateCells cells s)).

(** The timers whose deadline has passed fire, oldest first. *)
Definition due (now : nat) (t : Timer) : bool := Nat.leb (t_deadline t) now.

Definition elapse (dt : nat) (now : string) (s : State) : State :=
  let s := set_time (time s + dt) s in
  let fired := List.filter (due (time s)) (timers s) in
  let s := set_timers (List.filter (fun t => negb (due (time s) t)) (timers s)) s in
  fold_left (fun acc t => pushToCloud_start (t_user t) (t_year t) now acc) fired s.

(** Removes element [i] of a list. *)
Definition remove_nth {A : Type} (i : nat) (l : list A) : list A :=
  firstn i l ++ skipn (S i) l.

(** First mount of the hook. *)
Definition initial (configured : bool) (u : option string) (y : Z)
    (cells : Cells) (ls : Storage) : State :=
  {| supabase := configured; user := u; year := y; dateCells := cells;
     syncStatus := idle; isPushingRef := false; debounceTimerRef := None;
     isFromRealtimeRef := false; initialPullDoneRef := false;
     channelIdRef := 0; autoPushCleanup := false; channel := None;
     localStorage := ls; time := 0; timers := []; nextTimerId := 1;
     pendingPulls := []; pendingPushes := []; calls := [] |}.

Definition mount (configured : bool) (u : option string) (y : Z)
    (cells : Cells) (ls : Storage) : State :=
  autoPushEffect (realtimeEffect (pullEffect (initial configured u y cells ls))).

(** What can happen to a mounted hook. *)
Inductive Event : Type :=
| EvRender (cells : Cells)
    (** Document State changed: a render with a new [dateCells] *)
| EvYear (y : Z)
| EvAuth (u : option string)
| EvElapse (dt : nat) (now : string)
    (** [dt] ms pass; [now] is what [new Date().toISOString()] would read *)
| EvPush (now : string)  (** the host calls [pushToCloud()] *)
| EvPull                 (** the host calls [pullFromCloud()] *)
| EvUpsertDone (i : nat) (r : UpsertResult)
| EvFetchDone (i : nat) (r : FetchResult)
| EvNotify (row : Row)
| EvStalePush (u : option string) (y : Z) (now : string)
    (** the host calls a [pushToCloud] it kept from an earlier render:
        [useCallback(..., [user, year])] closed it over that render's
        [user] and [year] *)
| EvStalePull (u : option string) (y : Z).
    (** the same for [pullFromCloud] *)

Section Engine.

(** [fun s => new Date(s).getTime()], with [None] for [NaN]. *)
Variable Date_getTime : string -> option Z.

(** The handler given to [.on("postgres_changes", ...)]. *)
Definition onChange (ch : Channel) (row : Row) (s : State) : State :=
  if negb (Z.eqb (row_year row) (ch_year ch)) then s
  else
    let localTs := getSyncTimestamp (localStorage s) in
    if truthy localTs
       && js_number_eq (Date_getTime (row_updated_at row))
                       (match localTs with
                        | Some l => Date_getTime l
                        | None => None
                        end)
    then s
    else
      let entries := Object_entries (row_data row) in
      if Nat.eqb (length entries) 0 then s
      else
        let s := set_isFromRealtimeRef true s in
        let s := log (CSetDateCells (Map_of_entries entries)) s in
        set_localStorage (setSyncTimestamp (row_updated_at row) (localStorage s)) s.

Definition step (s : State) (e : Event) : State :=
  match e with
  | EvRender cells => renderCells cells s
  | EvYear y =>
      if Z.eqb y (year s) then s else rerunEffects (set_year y s)
  | EvAuth u =>
      match user s, u with
      | None, None => s
      | _, _ => rerunEffects (set_user u s)
      end
  | EvElapse dt now => elapse dt now s
  | EvPush now => pushToCloud_start (user s) (year s) now s
  | EvPull => pullFromCloud_start false (user s) (year s) s
  | EvUpsertDone i r =>
      match nth_error (pendingPushes s) i with
      | Some now =>
          pushToCloud_resume now r
            (set_pendingPushes (remove_nth i (pendingPushes s)) s)
      | None => s
      end
  | EvFetchDone i r =>
      match nth_error (pendingPulls s) i with
      | Some initial =>
          let s := set_pendingPulls (remove_nth i (pendingPulls s)) s in
          let s := pullFromCloud_resume r s in
          if initial then set_initialPullDoneRef true s else s
      | None => s
      end
  | EvNotify row =>
      match channel s with
      | Some ch => onChange ch row s
      | None => s
      end
  | EvStalePush u y now => pushToCloud_start u y now s
  | EvStalePull u y => pullFromCloud_start false u y s
  end.

Definition run (s : State) (evs : list Event) : State := fold_left step evs s.

End Engine.

(** ** Observations on the call log *)

Definition is_upsert (c : Call) : bool :=
  match c with CUpsert _ _ _ _ => true | _ => false end.

(** Calls that reach the remote store: fetch, upsert, subscribe. *)
Definition is_io (c : Call) : bool :=
  match c with
  | CFetch _ _ => true
  | CUpsert _ _ _ _ => true
  | CSubscribe _ _ => true
  | CRemoveChannel _ => false
  | CSetDateCells _ => false
  end.

Definition upserts (s : State) : list Call := List.filter is_upsert (calls s).
Definition io_calls (s : State) : list Call := List.filter is_io (calls s).

(** At most one debounce timer is pending, and it is the one
    [debounceTimerRef] names, for the current [user], [year] and a
    non-empty [dateCells], with its cleanup registered. *)
Definition timers_tracked (s : State) : Prop :=
  match timers s with
  | [] => True
  | [t] =>
      debounceTimerRef s = Some (t_id t) /\ autoPushCleanup s = true
      /\ t_user t = user s /\ t_year t = year s
      /\ isEnabled s = true /\ size (dateCells s) <> 0
  | _ :: _ :: _ => False
  end.

(** ** Sample inputs, taken from [useCloudSync.test.ts] *)

Definition makeCell (c : string) : DateCellData := {| color := c |}.

Definition emptyStorage : Storage :=
  {| items := ∅; getItem_throws := false; setItem_throws := false |}.

Definition storageWith (ts : string) : Storage :=
  {| items := {[ SYNC_TS_KEY := ts ]};
     getItem_throws := false; setItem_throws := false |}.

(** A browser that refuses access to [localStorage]. *)
Definition blockedStorage : Storage :=
  {| items := ∅; getItem_throws := true; setItem_throws := true |}.

Definition cellsRed : Cells := {[ "2025-01-01" := makeCell "red" ]}.
Definition cellsBlue : Cells := {[ "2025-01-01" := makeCell "blue" ]}.
Definition cellsRedBlue : Cells :=
  <[ "2025-01-02" := makeCell "blue" ]> cellsRed.
Definition cellsRedBlueGreen : Cells :=
  <[ "2025-01-03" := makeCell "green" ]> cellsRedBlue.

(** The hook mounted for user-123 and 2025, after the first pull found no
    remote document. *)
Definition hydrated (cells : Cells) (ls : Storage) : State :=
  step IsoDate.getTime (mount true (Some "user-123") 2025 cells ls)
    (EvFetchDone 0 (FetchOk None)).

(** ** Definitions used by the statements *)

(** The remote document [d] was applied between [s] and [s']: Document
    State was replaced wholesale through [setDateCells], and the document's
    [updated_at] was handed to [setSyncTimestamp]. *)
Definition remote_applied (d : Document) (s s' : State) : Prop :=
  calls s' = calls s ++ [CSetDateCells (doc_data d)]
  /\ localStorage s' = setSyncTimestamp (doc_updated_at d) (localStorage s).

(** Nothing was applied: no call left the hook, storage is as it was. *)
Definition nothing_applied (s s' : State) : Prop :=
  calls s' = calls s /\ dateCells s' = dateCells s
  /\ localStorage s' = localStorage s.

(** Remote documents: from January, from June, and an empty one. *)
Definition docOld : Document :=
  {| doc_data := cellsRed; doc_updated_at := "2025-01-01T00:00:00Z" |}.
Definition docNew : Document :=
  {| doc_data := cellsRed; doc_updated_at := "2025-06-01T00:00:00Z" |}.
Definition docEmpty : Document :=
  {| doc_data := ∅; doc_updated_at := "2025-06-01T00:00:00Z" |}.

(** Freshly mounted, the first fetch still in flight. *)
Definition mounted (cells : Cells) (ls : Storage) : State :=
  mount true (Some "user-123") 2025 cells ls.

(** The subscription opened at mount. *)
Definition channel2025 : Channel :=
  {| ch_name := {| cn_year := 2025; cn_id := 1 |};
     ch_year := 2025; ch_user := "user-123" |}.

(** The notification of the test "ignores own Realtime events". *)
Definition rowEcho : Row :=
  {| row_year := 2025; row_data := cellsRed;
     row_updated_at := "2025-06-01T12:00:00.000+00:00" |}.

(** A device whose storage is blocked, right after its own push of
    [cellsRed] at noon succeeded. *)
Definition afterBlockedPush : State :=
  run IsoDate.getTime (hydrated ∅ blockedStorage)
    [EvRender cellsRed; EvElapse 600 "2025-06-01T12:00:00.000Z";
     EvUpsertDone 0 UpsertOk].

(** States that agree on everything [timers_tracked] reads. *)
Definition same_timer_view (s s' : State) : Prop :=
  timers s' = timers s /\ debounceTimerRef s' = debounceTimerRef s
  /\ autoPushCleanup s' = autoPushCleanup s /\ user s' = user s
  /\ year s' = year s /\ supabase s' = supabase s
  /\ dateCells s' = dateCells s.

(** The auto-push trigger is armed: sync is enabled for user [u], the
    initial pull has completed, no push is in flight, the remote-origin flag
    is down. *)
Definition ready (u : string) (s : State) : Prop :=
  supabase s = true /\ user s = Some u /\ initialPullDoneRef s = true
  /\ isPushingRef s = false /\ isFromRealtimeRef s = false.

(** A burst of edits: each is a render with new cells, followed by a
    pause and the wall-clock reading at its end. *)
Definition burst_events (edits : list (Cells * nat * string)) : list Event :=
  flat_map (fun e => [EvRender (fst (fst e)); EvElapse (snd (fst e)) (snd e)]) edits.

(** Every edit of the burst leaves a non-empty state and is followed by
    less than the debounce window. *)
Definition within_window (edits : list (Cells * nat * string)) : Prop :=
  Forall (fun e => size (fst (fst e)) <> 0 /\ snd (fst e) < DEBOUNCE_MS) edits.

(** The edits of the test "debounces rapid changes": three within 400 ms. *)
Definition rapidEdits : list (Cells * nat * string) :=
  [(cellsRed, 200, "2025-06-01T12:00:00.200Z");
   (cellsRedBlue, 200, "2025-06-01T12:00:00.400Z")].

(** Time passing with no other event: pauses and the clock reading at
    the end of each. *)
Definition waits_events (waits : list (nat * string)) : list Event :=
  List.map (fun w => EvElapse (fst w) (snd w)) waits.

(** Another device's calendar. *)
Definition cellsGreen : Cells := {[ "2025-03-15" := makeCell "green" ]}.

(** The notification of the test "does NOT auto-push data that arrived
    from Realtime". *)
Definition rowGreen : Row :=
  {| row_year := 2025; row_data := cellsGreen;
     row_updated_at := "2025-06-01T12:30:00.000+00:00" |}.

(** Nothing was pushed or scheduled between [s] and [s'], and the initial
    pull is still not marked as completed. *)
Definition still_unhydrated (s s' : State) : Prop :=
  upserts s' = upserts s /\ timers s' = [] /\ initialPullDoneRef s' = false.

(** Events that end the pre-hydration phase or push on request. *)
Definition resolves_initial_pull (s : State) (e : Event) : bool :=
  match e with
  | EvFetchDone i _ =>
      match nth_error (pendingPulls s) i with
      | Some fromMount => fromMount
      | None => false
      end
  | _ => false
  end.

(** The host calling [pushToCloud()] itself, as returned by the current
    render or kept from an earlier one. *)
Definition is_explicit_push (e : Event) : bool :=
  match e with
  | EvPush _ => true
  | EvStalePush _ _ _ => true
  | _ => false
  end.

(** No event of [evs], run from [s], is the reply to a pull started by
    the mount effect, and none is an explicit [pushToCloud()]. *)
Fixpoint before_hydration (getTime : string -> option Z)
    (s : State) (evs : list Event) : Prop :=
  match evs with
  | [] => True
  | e :: evs' =>
      resolves_initial_pull s e = false /\ is_explicit_push e = false
      /\ before_hydration getTime (step getTime s e) evs'
  end.

(** Events other than the appearance of an identity, and other than a
    call of a [pushToCloud] or [pullFromCloud] that was created while an
    identity was present. *)
Definition keeps_identity_absent (e : Event) : bool :=
  match e with
  | EvAuth (Some _) => false
  | EvStalePush (Some _) _ _ => false
  | EvStalePull (Some _) _ => false
  | _ => true
  end.

(** Mounted with the client configured and nobody signed in. *)
Definition signedOut : State := mount true None 2025 cellsRed emptyStorage.

(** The remote document of the pull tests. *)
Definition docJune (data : Cells) : Document :=
  {| doc_data := data; doc_updated_at := "2025-06-01T00:00:00Z" |}.

(** ** Definitions for the further properties *)

(** [handleSyncNow]: [await pullFromCloud(); await pushToCloud()], with
    the fetch answered by [r] and no render in between. *)
Definition handleSyncNow (r : FetchResult) (now : string) (s : State) : list Event :=
  [EvPull; EvFetchDone (length (pendingPulls s)) r; EvPush now].

Definition is_fetch (c : Call) : bool :=
  match c with CFetch _ _ => true | _ => false end.

(** The upsert's payload is not empty. *)
Definition has_cells (c : Call) : Prop :=
  match c with
  | CUpsert _ _ d _ => size d <> 0
  | _ => True
  end.

(** States that agree on the hook's arguments and on the upserts sent. *)
Definition same_static_view (s s' : State) : Prop :=
  supabase s' = supabase s /\ user s' = user s /\ year s' = year s
  /\ dateCells s' = dateCells s /\ upserts s' = upserts s.

(** The phase tells the truth about requests in flight. *)
Definition phase_ok (s : State) : Prop :=
  syncStatus s <> offline
  /\ (syncStatus s = pulling -> pendingPulls s <> [])
  /\ (syncStatus s = pushing -> pendingPushes s <> []).

(** The three fields [phase_ok] reads. *)
Definition same_phase_view (s s' : State) : Prop :=
  syncStatus s' = syncStatus s /\ pendingPulls s' = pendingPulls s
  /\ pendingPushes s' = pendingPushes s.

(** [renderSyncIndicator] of the Save/Load panel: what it shows, or
    nothing. *)
Inductive IconStatus : Type := IconIdle | IconSyncing | IconError.

Record Indicator : Type := {
  tooltipText : string;
  iconStatus : IconStatus;
  label : string
}.

Definition isSyncing (st : SyncStatus) : bool :=
  match st with pushing | pulling => true | _ => false end.

Definition renderSyncIndicator (u : option string) (st : SyncStatus)
    : option Indicator :=
  let isAuthenticated := match u with Some _ => true | None => false end in
  if negb isAuthenticated
     || match st with offline => true | _ => false end
  then None
  else
    let '(tooltip, icon) :=
      match st with
      | idle => ("Synced to cloud", IconIdle)
      | _ =>
          if isSyncing st then ("Syncing...", IconSyncing)
          else match st with
               | error => ("Sync failed", IconError)
               | _ => ("", IconIdle)
               end
      end in
    Some {| tooltipText := tooltip; iconStatus := icon;
            label := String.append (if isSyncing st then "Syncing..." else "")
                       (match st with error => "Sync failed" | _ => "" end) |}.

(** A hook without a configured client, as it is at mount and stays:
    nothing sent, nothing pending, storage [ls] untouched. *)
Definition unconfigured (ls : Storage) (s : State) : Prop :=
  supabase s = false /\ calls s = [] /\ syncStatus s = idle
  /\ pendingPulls s = [] /\ pendingPushes s = [] /\ timers s = []
  /\ channel s = None /\ localStorage s = ls.

Definition ChannelName_eqb (a b : ChannelName) : bool :=
  Z.eqb (cn_year a) (cn_year b) && Nat.eqb (cn_id a) (cn_id b).

(** The channels subscribed and not yet removed, replayed from the log. *)
Definition track_channel (live : list ChannelName) (c : Call) : list ChannelName :=
  match c with
  | CSubscribe n _ => live ++ [n]
  | CRemoveChannel n => List.filter (fun m => negb (ChannelName_eqb m n)) live
  | _ => live
  end.

Definition live_channels (cs : list Call) : list ChannelName :=
  fold_left track_channel cs [].

(** The numeric suffixes of all channels ever subscribed. *)
Definition subscribed_ids (cs : list Call) : list nat :=
  flat_map (fun c => match c with CSubscribe n _ => [cn_id n] | _ => [] end) cs.

Definition is_channel_call (c : Call) : bool :=
  match c with
  | CSubscribe _ _ => true
  | CRemoveChannel _ => true
  | _ => false
  end.

Definition channels_ok (s : State) : Prop :=
  live_channels (calls s)
  = match channel s with Some ch => [ch_name ch] | None => [] end
  /\ Forall (fun id => id <= channelIdRef s) (subscribed_ids (calls s))
  /\ NoDup (subscribed_ids (calls s)).

Definition same_channel_view (s s' : State) : Prop :=
  List.filter is_channel_call (calls s') = List.filter is_channel_call (calls s)
  /\ channel s' = channel s /\ channelIdRef s' = channelIdRef s.

(** Load Data of the Save/Load panel ([handleFileChange]): merging the
    [dateCells] of a saved file into the calendar. *)
Section LoadDataModel.

(** A cell as a JSON object: field name to value, for any type of values. *)
Context {V : Type}.

(** [{ ...existing, ...cellData }] *)
Definition spread (existing cellData : gmap string V) : gmap string V :=
  cellData ∪ existing.

(** The [forEach] body of [handleFileChange]:
    [newDateCells.set(dateKey, { ...(newDateCells.get(dateKey) || {}), ...cellData })] *)
Definition mergeCell (acc : gmap string (gmap string V))
    (entry : string * gmap string V) : gmap string (gmap string V) :=
  <[fst entry := spread (default ∅ (acc !! fst entry)) (snd entry)]> acc.

(** [new Map(dateCells)] with every entry of [loadedData.dateCells]
    merged in. *)
Definition mergeLoadedCells (dateCells loaded : gmap string (gmap string V))
    : gmap string (gmap string V) :=
  fold_left mergeCell (map_to_list loaded) dateCells.

End LoadDataModel.

(** A push of [cellsRed] sent at noon and not yet answered. *)
Definition pushInFlight : State :=
  run IsoDate.getTime (hydrated ∅ emptyStorage)
    [EvRender cellsRed; EvElapse 600 "2025-06-01T12:00:00.000Z"].

(** An edit made 100 ms ago, its push still waiting for the debounce
    window to close. *)
Definition editPending : State :=
  run IsoDate.getTime (hydrated ∅ emptyStorage)
    [EvRender cellsRed; EvElapse 100 "2025-06-01T12:00:00.100Z"].

(** Red local cells synced in June, and a pull requested by the host. *)
Definition pullRequested : State :=
  step IsoDate.getTime (hydrated cellsRed (storageWith "2025-06-01T00:00:00Z")) EvPull.

(** A change from another device applied while this device's push of
    [cellsRed] is in flight: the notification, the render of its cells,
    then the reply to the push. *)
Definition remoteDuringPush : State :=
  run IsoDate.getTime pushInFlight
    [EvNotify rowGreen; EvRender cellsGreen; EvUpsertDone 0 UpsertOk].

(** A local edit on top of the other device's calendar. *)
Definition cellsGreenRed : Cells :=
  <[ "2025-03-16" := makeCell "red" ]> cellsGreen.

(** The year switched to 2026 while the mount's fetch, for 2025, was in
    flight; then that fetch was answered: no document. *)
Definition yearSwitched : State :=
  run IsoDate.getTime (mounted cellsRed emptyStorage)
    [EvYear 2026; EvFetchDone 0 (FetchOk None)].

(** Sync Now clicked while signed in, and a sign-out before the fetch of
    its [await pullFromCloud()] is answered. *)
Definition signedOutDuringSyncNow : State :=
  run IsoDate.getTime (hydrated cellsRed emptyStorage)
    [EvPull; EvAuth None; EvFetchDone 0 (FetchOk None)].

(** Five seconds of waiting. *)
Definition aWhile : list (nat * string) := [(5000, "2025-06-01T12:00:05.000Z")].

(** A day with a color and a note, and a file that changes the color of
    that day and adds another day. *)
Definition tripDay : gmap string (gmap string string) :=
  {[ "2025-01-01" := {[ "color" := "red"; "note" := "trip" ]} ]}.

Definition fileBlueGreen : gmap string (gmap string string) :=
  {[ "2025-01-01" := {[ "color" := "blue" ]};
     "2025-01-02" := {[ "color" := "green" ]} ]}.

(** ** The [IsoDate] instance on sample strings *)

Example IsoDate_Z : IsoDate.getTime "2025-06-01T12:00:00.000Z" = Some 1748779200000%Z.
Proof. reflexivity. Qed.

Example IsoDate_offset :
  IsoDate.getTime "2025-06-01T12:00:00.000+00:00" = Some 1748779200000%Z.
Proof. reflexivity. Qed.

Example IsoDate_epoch : IsoDate.getTime "1970-01-01T00:00:00Z" = Some 0%Z.
Proof. reflexivity. Qed.

Example IsoDate_east : IsoDate.getTime "2025-06-01T14:00:00+02:00" = Some 1748779200000%Z.
Proof. reflexivity. Qed.

Example IsoDate_invalid : IsoDate.getTime "" = None.
Proof. reflexivity. Qed.

(** ** Basic facts *)

Lemma entries_roundtrip (m : Cells) : Map_of_entries (Object_entries m) = m.
Proof. unfold Map_of_entries, Object_entries. apply list_to_map_to_list. Qed.

Lemma entries_length (m : Cells) : length (Object_entries m) = size m.
Proof. unfold Object_entries. apply length_map_to_list. Qed.

Lemma getSyncTimestamp_set (ts : string) (ls : Storage) :
  getItem_throws ls = false -> setItem_throws ls = false ->
  getSyncTimestamp (setSyncTimestamp ts ls) = Some ts.
Proof.
  intros Hg Hs. unfold getSyncTimestamp, setSyncTimestamp.
  rewrite Hs. cbn. rewrite Hg. apply lookup_insert_eq.
Qed.

Lemma js_string_le_not_gt (a b : string) :
  js_string_le a b = true -> js_string_gt a b = false.
Proof.
  unfold js_string_le, js_string_gt, String.leb, String.ltb.
  rewrite (String.compare_antisym a b).
  destruct (String.compare b a); cbn; congruence.
Qed.

Lemma truthy_Some (t : string) : t <> "" -> truthy (Some t) = true.
Proof.
  intros Hne. cbn. destruct (String.eqb_spec t ""); [contradiction | reflexivity].
Qed.

Section Pull.

Variable Date_getTime : string -> option Z.

Lemma pull_resume_cases (d : Document) (s : State) :
  let s' := pullFromCloud_resume (FetchOk (Some d)) s in
  (if Nat.ltb 0 (size (doc_data d))
      && pull_should_apply (getSyncTimestamp (localStorage s))
           (doc_updated_at d) (dateCells s)
   then remote_applied d s s'
   else nothing_applied s s').
Proof.
  unfold pullFromCloud_resume, remote_applied, nothing_applied.
  rewrite entries_length, entries_roundtrip.
  destruct (Nat.ltb 0 (size (doc_data d))); cbn [andb].
  - destruct (pull_should_apply _ _ _); destruct s; cbn; auto.
  - destruct s; cbn; auto.
Qed.

Lemma fetch_done_pending (s : State) (i : nat) (b : bool) (r : FetchResult) :
  nth_error (pendingPulls s) i = Some b ->
  let s1 := pullFromCloud_resume r
              (set_pendingPulls (remove_nth i (pendingPulls s)) s) in
  calls (step Date_getTime s (EvFetchDone i r)) = calls s1
  /\ dateCells (step Date_getTime s (EvFetchDone i r)) = dateCells s1
  /\ localStorage (step Date_getTime s (EvFetchDone i r)) = localStorage s1.
Proof.
  intros Hi. cbn [step]. rewrite Hi.
  destruct b; [| auto].
  destruct (pullFromCloud_resume _ _); cbn; auto.
Qed.

(** C3: for every local Document State, a pull that fetches an absent
    remote document, or one whose payload has no date key, leaves Document
    State as it was: [setDateCells] is not called (no call at all leaves the
    hook), and the stored Sync Timestamp is not touched either. *)
Theorem pull_absent_or_empty_keeps_document
    (s : State) (i : nat) (r : option Document) :
  (r = None \/ exists d, r = Some d /\ size (doc_data d) = 0) ->
  nothing_applied s (step Date_getTime s (EvFetchDone i (FetchOk r))).
Proof.
  intros Hr.
  destruct (nth_error (pendingPulls s) i) as [b|] eqn:Hi.
  - destruct (fetch_done_pending s i b (FetchOk r) Hi) as (Hc & Hd & Hl).
    unfold nothing_applied. rewrite Hc, Hd, Hl. clear Hc Hd Hl.
    destruct Hr as [-> | (d & -> & Hz)].
    + destruct s; cbn; auto.
    + pose proof (pull_resume_cases d
        (set_pendingPulls (remove_nth i (pendingPulls s)) s)) as H.
      cbv zeta in H. rewrite Hz in H. cbn [Nat.ltb Nat.leb andb] in H.
      destruct H as (H1 & H2 & H3). rewrite H1, H2, H3.
      destruct s; cbn; auto.
  - unfold nothing_applied. cbn [step]. rewrite Hi. auto.
Qed.

(** C4, as amended: with a recorded Sync Timestamp [T] and a fetched
    non-empty remote document, the pull applies the document when its
    [updated_at] is greater than [T]; when it is not greater, [T] is not the
    empty string and local Document State is non-empty, the pull applies
    nothing; and when local Document State is empty the document is applied
    whatever the timestamps are. *)
Theorem pull_newer_wins_unless_local_empty
    (s : State) (i : nat) (b : bool) (d : Document) (T : string) :
  nth_error (pendingPulls s) i = Some b ->
  getSyncTimestamp (localStorage s) = Some T ->
  size (doc_data d) <> 0 ->
  (js_string_gt (doc_updated_at d) T = true ->
     remote_applied d s (step Date_getTime s (EvFetchDone i (FetchOk (Some d)))))
  /\ (js_string_le (doc_updated_at d) T = true -> T <> "" ->
      size (dateCells s) <> 0 ->
      nothing_applied s (step Date_getTime s (EvFetchDone i (FetchOk (Some d)))))
  /\ (size (dateCells s) = 0 ->
      remote_applied d s (step Date_getTime s (EvFetchDone i (FetchOk (Some d))))).
Proof.
  intros Hi HT Hne.
  destruct (fetch_done_pending s i b (FetchOk (Some d)) Hi) as (Hc & Hd & Hl).
  pose proof (pull_resume_cases d
    (set_pendingPulls (remove_nth i (pendingPulls s)) s)) as H.
  cbv zeta in H.
  assert (Hpos : Nat.ltb 0 (size (doc_data d)) = true)
    by (apply Nat.ltb_lt; lia).
  rewrite Hpos in H. cbn [andb] in H.
  replace (localStorage (set_pendingPulls (remove_nth i (pendingPulls s)) s))
    with (localStorage s) in H by (destruct s; reflexivity).
  replace (dateCells (set_pendingPulls (remove_nth i (pendingPulls s)) s))
    with (dateCells s) in H by (destruct s; reflexivity).
  replace (calls (set_pendingPulls (remove_nth i (pendingPulls s)) s))
    with (calls s) in H by (destruct s; reflexivity).
  rewrite HT in H. unfold pull_should_apply in H.
  unfold remote_applied, nothing_applied in *.
  rewrite Hc, Hd, Hl. clear Hc Hd Hl.
  split; [| split].
  - intros Hgt. rewrite Hgt in H. rewrite orb_true_r in H. exact H.
  - intros Hle HTne Hloc.
    rewrite (js_string_le_not_gt _ _ Hle), (truthy_Some T HTne) in H.
    destruct (Nat.eqb_spec (size (dateCells s)) 0) as [Hz | _]; [lia |].
    cbn in H. exact H.
  - intros Hz. rewrite Hz in H. cbn [Nat.eqb] in H.
    rewrite orb_true_r in H. exact H.
Qed.

End Pull.

(** C3 at the tests' data: blue local state, an empty remote payload. *)
Lemma pull_absent_or_empty_keeps_document_witness :
  nothing_applied (mounted cellsBlue emptyStorage)
    (step IsoDate.getTime (mounted cellsBlue emptyStorage)
       (EvFetchDone 0 (FetchOk (Some docEmpty)))).
Proof.
  apply (pull_absent_or_empty_keeps_document IsoDate.getTime
           (mounted cellsBlue emptyStorage) 0 (Some docEmpty)).
  right. exists docEmpty. split; reflexivity.
Defined.

(** C4 as first stated fails: the recorded Sync Timestamp is June, the
    remote document is from January (not greater), local Document State is
    empty, and the pull applies the remote document. *)
Lemma pull_older_remote_applied_over_empty_local :
  getSyncTimestamp (localStorage (mounted ∅ (storageWith "2025-06-01T00:00:00Z")))
    = Some "2025-06-01T00:00:00Z"
  /\ size (doc_data docOld) <> 0
  /\ js_string_le (doc_updated_at docOld) "2025-06-01T00:00:00Z" = true
  /\ calls (step IsoDate.getTime (mounted ∅ (storageWith "2025-06-01T00:00:00Z"))
             (EvFetchDone 0 (FetchOk (Some docOld))))
     = calls (mounted ∅ (storageWith "2025-06-01T00:00:00Z"))
       ++ [CSetDateCells (doc_data docOld)].
Proof.
  split; [reflexivity |]. split; [vm_compute; lia |].
  split; [reflexivity |]. vm_compute. reflexivity.
Qed.

(** C4 as amended, at the tests' data: blue local state synced in January,
    a red remote document from June. *)
Lemma pull_newer_wins_unless_local_empty_witness :
  remote_applied docNew (mounted cellsBlue (storageWith "2025-01-01T00:00:00Z"))
    (step IsoDate.getTime (mounted cellsBlue (storageWith "2025-01-01T00:00:00Z"))
       (EvFetchDone 0 (FetchOk (Some docNew)))).
Proof.
  refine (proj1 (pull_newer_wins_unless_local_empty IsoDate.getTime
           (mounted cellsBlue (storageWith "2025-01-01T00:00:00Z"))
           0 true docNew "2025-01-01T00:00:00Z" _ _ _) _).
  - reflexivity.
  - reflexivity.
  - vm_compute. lia.
  - reflexivity.
Defined.

(** The test "does NOT overwrite local data when local timestamp matches
    cloud". *)
Example pull_same_timestamp_keeps_local :
  nothing_applied (mounted cellsBlue (storageWith "2025-06-01T00:00:00Z"))
    (step IsoDate.getTime (mounted cellsBlue (storageWith "2025-06-01T00:00:00Z"))
       (EvFetchDone 0 (FetchOk (Some docNew)))).
Proof. vm_compute. auto. Qed.

Section Realtime.

Variable Date_getTime : string -> option Z.

(** [new Date("")] is an Invalid Date, whose [getTime()] is [NaN]. *)
Hypothesis Date_getTime_empty : Date_getTime "" = None.

Lemma same_instant_true (a b : string) (t : Z) :
  Date_getTime a = Some t -> Date_getTime b = Some t ->
  js_number_eq (Date_getTime a) (Date_getTime b) = true.
Proof. intros -> ->. cbn. apply Z.eqb_refl. Qed.

(** C5: a change notification whose [updated_at] denotes the same instant
    [t] as the recorded Sync Timestamp [T], whatever the two strings look
    like, changes nothing at all: Document State is not written, no Sync
    Timestamp is stored, no flag is set. *)
Theorem echo_notification_is_ignored (s : State) (row : Row) (T : string) (t : Z) :
  getSyncTimestamp (localStorage s) = Some T ->
  Date_getTime T = Some t ->
  Date_getTime (row_updated_at row) = Some t ->
  step Date_getTime s (EvNotify row) = s.
Proof.
  intros HT Ht Hrow. cbn [step].
  destruct (channel s) as [ch |]; [| reflexivity].
  unfold onChange.
  destruct (negb (Z.eqb (row_year row) (ch_year ch))); [reflexivity |].
  rewrite HT, (same_instant_true _ _ t Hrow Ht).
  assert (HTne : T <> "") by (intros ->; congruence).
  rewrite (truthy_Some T HTne). reflexivity.
Qed.

(** C10, as amended: with no Sync Timestamp readable from local storage,
    the handler of the live subscription applies every non-empty change
    notification for the active year, without looking at its [updated_at]:
    it raises the remote-origin flag, replaces Document State with the
    notification's payload and hands its [updated_at] to
    [setSyncTimestamp].  That stores it when the storage accepts the write;
    when the write throws, the storage is left as it was. *)
Theorem notification_without_timestamp_is_applied
    (s : State) (ch : Channel) (row : Row) :
  channel s = Some ch ->
  ch_year ch = year s ->
  row_year row = year s ->
  getSyncTimestamp (localStorage s) = None ->
  size (row_data row) <> 0 ->
  calls (step Date_getTime s (EvNotify row))
    = calls s ++ [CSetDateCells (row_data row)]
  /\ isFromRealtimeRef (step Date_getTime s (EvNotify row)) = true
  /\ localStorage (step Date_getTime s (EvNotify row))
     = setSyncTimestamp (row_updated_at row) (localStorage s)
  /\ (setItem_throws (localStorage s) = false ->
      items (localStorage (step Date_getTime s (EvNotify row))) !! SYNC_TS_KEY
      = Some (row_updated_at row))
  /\ (setItem_throws (localStorage s) = true ->
      localStorage (step Date_getTime s (EvNotify row)) = localStorage s).
Proof.
  intros Hch Hy Hrow Hts Hne. cbn [step]. rewrite Hch. unfold onChange.
  rewrite Hrow, Hy, Z.eqb_refl, Hts. cbn [negb truthy andb].
  rewrite entries_length, entries_roundtrip.
  destruct (Nat.eqb_spec (size (row_data row)) 0) as [Hz | _]; [contradiction |].
  destruct s; cbn. repeat split.
  - intros Hw. unfold setSyncTimestamp. cbn in *. rewrite Hw. cbn.
    apply lookup_insert_eq.
  - intros Hw. unfold setSyncTimestamp. cbn in *. rewrite Hw. reflexivity.
Qed.

End Realtime.

(** C5 at the test's data: the stored timestamp ends in [Z], the
    notification's in [+00:00]. *)
Lemma echo_notification_is_ignored_witness :
  step IsoDate.getTime (hydrated ∅ (storageWith "2025-06-01T12:00:00.000Z"))
    (EvNotify rowEcho)
  = hydrated ∅ (storageWith "2025-06-01T12:00:00.000Z").
Proof.
  apply (echo_notification_is_ignored IsoDate.getTime eq_refl
           (hydrated ∅ (storageWith "2025-06-01T12:00:00.000Z")) rowEcho
           "2025-06-01T12:00:00.000Z" 1748779200000%Z).
  - reflexivity.
  - reflexivity.
  - reflexivity.
Defined.

(** C10 as first stated fails where the storage is blocked: the echo of
    the device's own push is applied, and its [updated_at] is persisted
    nowhere; the storage is as it was and still yields no Sync Timestamp. *)
Lemma blocked_storage_persists_no_timestamp :
  getSyncTimestamp (localStorage afterBlockedPush) = None
  /\ calls (step IsoDate.getTime afterBlockedPush (EvNotify rowEcho))
     = calls afterBlockedPush ++ [CSetDateCells cellsRed]
  /\ localStorage (step IsoDate.getTime afterBlockedPush (EvNotify rowEcho))
     = localStorage afterBlockedPush
  /\ items (localStorage (step IsoDate.getTime afterBlockedPush (EvNotify rowEcho)))
       !! SYNC_TS_KEY = None.
Proof. vm_compute. repeat split. Qed.

(** C10 as amended, twice: a device that never synced receives another
    device's write and stores its timestamp; a device with blocked storage
    receives the echo of its own push and applies it, its storage
    unchanged. *)
Lemma notification_without_timestamp_is_applied_witness :
  (calls (step IsoDate.getTime (hydrated ∅ emptyStorage) (EvNotify rowEcho))
     = calls (hydrated ∅ emptyStorage) ++ [CSetDateCells cellsRed]
   /\ getSyncTimestamp
        (localStorage (step IsoDate.getTime (hydrated ∅ emptyStorage) (EvNotify rowEcho)))
      = Some "2025-06-01T12:00:00.000+00:00")
  /\ (upserts afterBlockedPush
        = [CUpsert "user-123" 2025 cellsRed "2025-06-01T12:00:00.000Z"]
      /\ calls (step IsoDate.getTime afterBlockedPush (EvNotify rowEcho))
         = calls afterBlockedPush ++ [CSetDateCells cellsRed]
      /\ localStorage (step IsoDate.getTime afterBlockedPush (EvNotify rowEcho))
         = localStorage afterBlockedPush).
Proof.
  split.
  - destruct (notification_without_timestamp_is_applied IsoDate.getTime
                (hydrated ∅ emptyStorage) channel2025 rowEcho)
      as (Hc & _ & _ & Hs & _); try reflexivity.
    + vm_compute. lia.
    + split; [exact Hc |]. unfold getSyncTimestamp.
      replace (getItem_throws _) with false by reflexivity.
      apply Hs. reflexivity.
  - split; [reflexivity |].
    destruct (notification_without_timestamp_is_applied IsoDate.getTime
                afterBlockedPush channel2025 rowEcho)
      as (Hc & _ & _ & _ & Hb); try reflexivity.
    + vm_compute. lia.
    + split; [exact Hc | apply Hb; reflexivity].
Defined.

(** ** The debounce timer *)

Ltac view_solve :=
  unfold same_timer_view; intros;
  repeat match goal with
         | |- context [match ?x with _ => _ end] => destruct x
         end;
  match goal with s : State |- _ => destruct s end; cbn; repeat split.

Lemma tracked_frame (s s' : State) :
  same_timer_view s s' -> timers_tracked s -> timers_tracked s'.
Proof.
  unfold same_timer_view, timers_tracked, isEnabled.
  intros (-> & -> & -> & -> & -> & -> & ->). auto.
Qed.

Lemma view_refl (s : State) : same_timer_view s s.
Proof. unfold same_timer_view. repeat split. Qed.

Lemma view_trans (s1 s2 s3 : State) :
  same_timer_view s1 s2 -> same_timer_view s2 s3 -> same_timer_view s1 s3.
Proof.
  unfold same_timer_view.
  intros (-> & -> & -> & -> & -> & -> & ->) (-> & -> & -> & -> & -> & -> & ->).
  repeat split.
Qed.

Lemma view_pushToCloud_start u y now s :
  same_timer_view s (pushToCloud_start u y now s).
Proof. unfold pushToCloud_start, log. view_solve. Qed.

Lemma view_pushToCloud_resume now r s :
  same_timer_view s (pushToCloud_resume now r s).
Proof. unfold pushToCloud_resume. view_solve. Qed.

Lemma view_pullFromCloud_start b u y s :
  same_timer_view s (pullFromCloud_start b u y s).
Proof. unfold pullFromCloud_start, log. view_solve. Qed.

Lemma view_pullFromCloud_resume r s :
  same_timer_view s (pullFromCloud_resume r s).
Proof. unfold pullFromCloud_resume, log. view_solve. Qed.

Lemma view_onChange getTime ch row s :
  same_timer_view s (onChange getTime ch row s).
Proof. unfold onChange, log. view_solve. Qed.

Lemma view_set_pendingPushes l s : same_timer_view s (set_pendingPushes l s).
Proof. view_solve. Qed.

Lemma view_set_pendingPulls l s : same_timer_view s (set_pendingPulls l s).
Proof. view_solve. Qed.

Lemma view_set_initialPullDoneRef b s :
  same_timer_view s (set_initialPullDoneRef b s).
Proof. view_solve. Qed.

Lemma view_set_time n s : same_timer_view s (set_time n s).
Proof. view_solve. Qed.

(** The cleanup leaves no timer behind, whatever render it runs in. *)
Lemma cleanup_clears (s0 s : State) :
  timers_tracked s0 ->
  timers s = timers s0 -> debounceTimerRef s = debounceTimerRef s0 ->
  autoPushCleanup s = autoPushCleanup s0 ->
  timers (autoPushEffect_cleanup s) = [].
Proof.
  unfold timers_tracked, autoPushEffect_cleanup, clearTimeout.
  intros Htr Ht Hr Hc. rewrite Hc, Hr. rewrite <- Ht in Htr.
  destruct (timers s) as [| t [| t' tm]] eqn:Htm.
  - destruct (autoPushCleanup s0); [destruct (debounceTimerRef s0) |];
      destruct s; cbn in *; subst; reflexivity.
  - destruct Htr as (-> & -> & _). destruct s; cbn in *; subst; cbn.
    rewrite Nat.eqb_refl. reflexivity.
  - contradiction.
Qed.

(** The cleanup touches the timers and its own registration only. *)
Lemma cleanup_fields (s : State) :
  let s' := autoPushEffect_cleanup s in
  supabase s' = supabase s /\ user s' = user s /\ year s' = year s
  /\ dateCells s' = dateCells s /\ syncStatus s' = syncStatus s
  /\ isPushingRef s' = isPushingRef s
  /\ isFromRealtimeRef s' = isFromRealtimeRef s
  /\ initialPullDoneRef s' = initialPullDoneRef s
  /\ calls s' = calls s /\ time s' = time s
  /\ localStorage s' = localStorage s
  /\ pendingPushes s' = pendingPushes s /\ pendingPulls s' = pendingPulls s
  /\ channel s' = channel s.
Proof.
  unfold autoPushEffect_cleanup, clearTimeout.
  destruct (autoPushCleanup s); [destruct (debounceTimerRef s) |];
    destruct s; cbn; repeat split.
Qed.

(** Started without a pending timer, the auto-push effect leaves at most
    the one it has just created. *)
Lemma autoPushEffect_tracked (s : State) :
  timers s = [] -> timers_tracked (autoPushEffect s).
Proof.
  unfold timers_tracked, autoPushEffect, setTimeout_push, clearTimeout, isEnabled.
  intros Ht.
  destruct (supabase s) eqn:Hsb; cbn [andb negb];
    [| destruct s; cbn in *; subst; exact I].
  destruct (user s) eqn:Hu; cbn [negb];
    [| destruct s; cbn in *; subst; exact I].
  destruct (initialPullDoneRef s); cbn [negb];
    [| destruct s; cbn in *; subst; exact I].
  destruct (isPushingRef s); [destruct s; cbn in *; subst; exact I |].
  destruct (isFromRealtimeRef s); [destruct s; cbn in *; subst; exact I |].
  destruct (Nat.eqb_spec (size (dateCells s)) 0);
    [destruct s; cbn in *; subst; exact I |].
  destruct (debounceTimerRef s); destruct s; cbn in *; subst; cbn; auto 10.
Qed.

(** The timers after [dt] more milliseconds. *)
Lemma elapse_none (s : State) (dt : nat) (now : string) :
  timers s = [] -> elapse dt now s = set_time (time s + dt) s.
Proof. intros Ht. unfold elapse. destruct s; cbn in *; subst. reflexivity. Qed.

Lemma elapse_wait (s : State) (dt : nat) (now : string) (t : Timer) :
  timers s = [t] -> time s + dt < t_deadline t ->
  elapse dt now s = set_time (time s + dt) s.
Proof.
  intros Ht Hlt. unfold elapse, due.
  replace (timers (set_time (time s + dt) s)) with [t]
    by (destruct s; cbn in *; congruence).
  replace (time (set_time (time s + dt) s)) with (time s + dt)
    by (destruct s; reflexivity).
  cbn [List.filter].
  destruct (Nat.leb_spec (t_deadline t) (time s + dt)); [lia |].
  destruct s; cbn in *; subst; reflexivity.
Qed.

Lemma elapse_fire (s : State) (dt : nat) (now : string) (t : Timer) :
  timers s = [t] -> t_deadline t <= time s + dt ->
  elapse dt now s
  = pushToCloud_start (t_user t) (t_year t) now
      (set_timers [] (set_time (time s + dt) s)).
Proof.
  intros Ht Hle. unfold elapse, due.
  replace (timers (set_time (time s + dt) s)) with [t]
    by (destruct s; cbn in *; congruence).
  replace (time (set_time (time s + dt) s)) with (time s + dt)
    by (destruct s; reflexivity).
  cbn [List.filter].
  destruct (Nat.leb_spec (t_deadline t) (time s + dt)); [| lia].
  destruct s; cbn in *; subst; reflexivity.
Qed.

Lemma timers_pullEffect (s : State) : timers (pullEffect s) = timers s.
Proof.
  unfold pullEffect, pullFromCloud_start, log.
  destruct (negb (isEnabled s)); [reflexivity |].
  destruct (supabase s) eqn:Hsb; [destruct (user s) eqn:Hu |];
    destruct s; cbn in *; subst; reflexivity.
Qed.

Lemma timers_realtimeEffect (s : State) : timers (realtimeEffect s) = timers s.
Proof.
  unfold realtimeEffect, log.
  destruct (negb (supabase s)); [reflexivity |].
  destruct (user s); [| reflexivity].
  destruct (negb (isEnabled s)); [reflexivity |].
  destruct s; reflexivity.
Qed.

Lemma realtimeEffect_cleanup_timer_fields (s : State) :
  timers (realtimeEffect_cleanup s) = timers s
  /\ debounceTimerRef (realtimeEffect_cleanup s) = debounceTimerRef s
  /\ autoPushCleanup (realtimeEffect_cleanup s) = autoPushCleanup s.
Proof.
  unfold realtimeEffect_cleanup, log.
  destruct (channel s); destruct s; cbn; repeat split.
Qed.

(** A render that re-runs every effect leaves a tracked timer at most. *)
Lemma rerunEffects_tracked (s0 s : State) :
  timers_tracked s0 ->
  timers s = timers s0 -> debounceTimerRef s = debounceTimerRef s0 ->
  autoPushCleanup s = autoPushCleanup s0 ->
  timers_tracked (rerunEffects s).
Proof.
  intros Htr Ht Hr Hc. unfold rerunEffects.
  apply autoPushEffect_tracked.
  rewrite timers_realtimeEffect, timers_pullEffect.
  destruct (realtimeEffect_cleanup_timer_fields s) as (Ht' & Hr' & Hc').
  apply (cleanup_clears s0); congruence.
Qed.

Section Invariant.

Variable Date_getTime : string -> option Z.

(** [timers_tracked] holds at mount and is kept by every event. *)
Lemma timers_tracked_mount configured u y cells ls :
  timers_tracked (mount configured u y cells ls).
Proof.
  unfold mount. apply autoPushEffect_tracked.
  rewrite timers_realtimeEffect, timers_pullEffect. reflexivity.
Qed.

Lemma timers_tracked_step (s : State) (e : Event) :
  timers_tracked s -> timers_tracked (step Date_getTime s e).
Proof.
  intros Htr. destruct e
    as [c | y | u | dt now | now | | i r | i r | row | su sy snow | su sy];
    cbn [step].
  - unfold renderCells. apply autoPushEffect_tracked.
    apply (cleanup_clears s); [exact Htr | destruct s; reflexivity ..].
  - destruct (Z.eqb y (year s)); [exact Htr |].
    apply (rerunEffects_tracked s); [exact Htr | destruct s; reflexivity ..].
  - destruct (user s) eqn:Hu, u; try exact Htr;
      apply (rerunEffects_tracked s); try exact Htr; destruct s; reflexivity.
  - unfold timers_tracked in Htr.
    destruct (timers s) as [| t [| t' tm]] eqn:Ht; [| | contradiction].
    + rewrite (elapse_none s dt now Ht).
      apply (tracked_frame s); [apply view_set_time |].
      unfold timers_tracked. rewrite Ht. exact I.
    + destruct (Nat.le_gt_cases (t_deadline t) (time s + dt)) as [Hle | Hgt].
      * rewrite (elapse_fire s dt now t Ht Hle).
        apply (tracked_frame (set_timers [] (set_time (time s + dt) s)));
          [apply view_pushToCloud_start |].
        unfold timers_tracked. destruct s; cbn. exact I.
      * rewrite (elapse_wait s dt now t Ht Hgt).
        apply (tracked_frame s); [apply view_set_time |].
        unfold timers_tracked. rewrite Ht. exact Htr.
  - apply (tracked_frame s); [apply view_pushToCloud_start | exact Htr].
  - apply (tracked_frame s); [apply view_pullFromCloud_start | exact Htr].
  - destruct (nth_error (pendingPushes s) i); [| exact Htr].
    apply (tracked_frame s); [| exact Htr].
    eapply view_trans; [apply view_set_pendingPushes | apply view_pushToCloud_resume].
  - destruct (nth_error (pendingPulls s) i) as [b |]; [| exact Htr].
    apply (tracked_frame s); [| exact Htr].
    eapply view_trans; [apply view_set_pendingPulls |].
    eapply view_trans; [apply view_pullFromCloud_resume |].
    destruct b; [apply view_set_initialPullDoneRef | apply view_refl].
  - destruct (channel s); [| exact Htr].
    apply (tracked_frame s); [apply view_onChange | exact Htr].
  - apply (tracked_frame s); [apply view_pushToCloud_start | exact Htr].
  - apply (tracked_frame s); [apply view_pullFromCloud_start | exact Htr].
Qed.

Lemma timers_tracked_run (evs : list Event) (s : State) :
  timers_tracked s -> timers_tracked (run Date_getTime s evs).
Proof.
  revert s. induction evs as [| e evs IH]; intros s Htr; [exact Htr |].
  cbn. apply IH. apply timers_tracked_step. exact Htr.
Qed.

End Invariant.

(** ** Debounced auto-push *)

(** An edit in a ready state replaces whatever timer was pending by a
    fresh one, due one debounce window later. *)
Lemma renderCells_schedules (s : State) (c : Cells) (u : string) :
  timers_tracked s -> ready u s -> size c <> 0 ->
  timers (renderCells c s)
  = [{| t_id := nextTimerId s; t_deadline := time s + DEBOUNCE_MS;
        t_user := Some u; t_year := year s |}]
  /\ ready u (renderCells c s)
  /\ calls (renderCells c s) = calls s
  /\ dateCells (renderCells c s) = c
  /\ time (renderCells c s) = time s
  /\ year (renderCells c s) = year s.
Proof.
  intros Htr (Hsb & Hu & Hpd & Hip & Hfr) Hc. unfold renderCells, ready.
  pose proof (cleanup_clears s (set_dateCells c s) Htr) as Hclr.
  pose proof (cleanup_fields (set_dateCells c s)) as Hf. cbv zeta in Hf.
  set (X := autoPushEffect_cleanup (set_dateCells c s)) in *.
  assert (Ht : timers X = []) by (apply Hclr; destruct s; reflexivity).
  assert (Hn : nextTimerId X = nextTimerId s).
  { subst X. unfold autoPushEffect_cleanup, clearTimeout.
    destruct (autoPushCleanup (set_dateCells c s));
      [destruct (debounceTimerRef (set_dateCells c s)) |];
      destruct s; reflexivity. }
  clear Hclr.
  destruct Hf as (F1 & F2 & F3 & F4 & F5 & F6 & F7 & F8 & F9 & F10 & _).
  replace (supabase (set_dateCells c s)) with (supabase s) in F1 by (destruct s; reflexivity).
  replace (user (set_dateCells c s)) with (user s) in F2 by (destruct s; reflexivity).
  replace (year (set_dateCells c s)) with (year s) in F3 by (destruct s; reflexivity).
  replace (dateCells (set_dateCells c s)) with c in F4 by (destruct s; reflexivity).
  replace (isPushingRef (set_dateCells c s)) with (isPushingRef s) in F6 by (destruct s; reflexivity).
  replace (isFromRealtimeRef (set_dateCells c s)) with (isFromRealtimeRef s) in F7 by (destruct s; reflexivity).
  replace (initialPullDoneRef (set_dateCells c s)) with (initialPullDoneRef s) in F8 by (destruct s; reflexivity).
  replace (calls (set_dateCells c s)) with (calls s) in F9 by (destruct s; reflexivity).
  replace (time (set_dateCells c s)) with (time s) in F10 by (destruct s; reflexivity).
  rewrite Hsb in F1. rewrite Hu in F2. rewrite Hip in F6. rewrite Hfr in F7.
  rewrite Hpd in F8.
  clearbody X.
  unfold autoPushEffect, isEnabled, setTimeout_push, clearTimeout.
  rewrite F1, F2, F8, F6, F7, F4. cbn [andb negb].
  destruct (Nat.eqb_spec (size c) 0) as [Hz | _]; [contradiction |].
  destruct X; cbn in *; subst.
  match goal with
  | |- context [match ?r with Some _ => _ | None => _ end] => destruct r
  end; cbn; repeat split.
Qed.

(** An edit followed by less than the debounce window: still ready, and
    nothing has left the hook. *)
Lemma edit_within_window (getTime : string -> option Z)
    (s : State) (c : Cells) (dt : nat) (now : string) (u : string) :
  timers_tracked s -> ready u s -> size c <> 0 -> dt < DEBOUNCE_MS ->
  ready u (run getTime s [EvRender c; EvElapse dt now])
  /\ calls (run getTime s [EvRender c; EvElapse dt now]) = calls s
  /\ year (run getTime s [EvRender c; EvElapse dt now]) = year s.
Proof.
  intros Htr Hrd Hc Hdt. cbn [run fold_left step].
  destruct (renderCells_schedules s c u Htr Hrd Hc)
    as (Ht & Hrd' & Hcalls & _ & Htime & Hy).
  rewrite (elapse_wait _ dt now _ Ht) by (cbn; lia).
  unfold ready in *. destruct (renderCells c s); cbn in *. tauto.
Qed.

(** The last edit of a burst, followed by at least the debounce window:
    one upsert, carrying that edit's cells. *)
Lemma edit_then_quiet (getTime : string -> option Z)
    (s : State) (c : Cells) (dt : nat) (now : string) (u : string) :
  timers_tracked s -> ready u s -> size c <> 0 -> DEBOUNCE_MS <= dt ->
  calls (run getTime s [EvRender c; EvElapse dt now])
  = calls s ++ [CUpsert u (year s) (Object_fromEntries c) now]
  /\ timers (run getTime s [EvRender c; EvElapse dt now]) = [].
Proof.
  intros Htr Hrd Hc Hdt. cbn [run fold_left step].
  destruct (renderCells_schedules s c u Htr Hrd Hc)
    as (Ht & Hrd' & Hcalls & Hcells & Htime & Hy).
  rewrite (elapse_fire _ dt now _ Ht) by (cbn; lia).
  destruct Hrd' as (Hsb & _). cbn [t_user t_year].
  unfold pushToCloud_start, log, Object_fromEntries.
  destruct (renderCells c s); cbn in *. subst. cbn. split; reflexivity.
Qed.

Section Debounce.

Variable Date_getTime : string -> option Z.

Lemma run_app (s : State) (evs1 evs2 : list Event) :
  run Date_getTime s (evs1 ++ evs2)
  = run Date_getTime (run Date_getTime s evs1) evs2.
Proof. unfold run. apply fold_left_app. Qed.

(** C6: in a state where sync is enabled, the initial pull has completed,
    no push is in flight and the remote-origin flag is down, a burst of
    N >= 1 edits ([edits] and then [cN]), each leaving a non-empty state and
    each but the last followed by less than the debounce window, then a
    pause of at least the window, sends exactly one call out of the hook: an
    upsert whose payload is the state after the last edit. No timer is left,
    so no second upsert follows however long one waits. *)
Theorem debounce_coalesces_burst
    (s : State) (u : string) (edits : list (Cells * nat * string))
    (cN : Cells) (dt : nat) (now : string) :
  timers_tracked s -> ready u s ->
  within_window edits -> size cN <> 0 -> DEBOUNCE_MS <= dt ->
  calls (run Date_getTime s (burst_events edits ++ [EvRender cN; EvElapse dt now]))
  = calls s ++ [CUpsert u (year s) (Object_fromEntries cN) now]
  /\ (forall dt' now',
        calls (run Date_getTime s
                 (burst_events edits
                  ++ [EvRender cN; EvElapse dt now; EvElapse dt' now']))
        = calls s ++ [CUpsert u (year s) (Object_fromEntries cN) now]).
Proof.
  intros Htr Hrd Hwin HcN Hdt. revert s Htr Hrd.
  induction Hwin as [| [[c d] w] edits (Hc & Hd) Hwin IH]; intros s Htr Hrd.
  - cbn [burst_events flat_map app].
    destruct (edit_then_quiet Date_getTime s cN dt now u Htr Hrd HcN Hdt)
      as (Hcalls & Ht).
    split; [exact Hcalls |]. intros dt' now'.
    change [EvRender cN; EvElapse dt now; EvElapse dt' now']
      with ([EvRender cN; EvElapse dt now] ++ [EvElapse dt' now']).
    rewrite run_app. cbn [run fold_left step] in *.
    rewrite (elapse_none _ dt' now' Ht).
    rewrite <- Hcalls. destruct (elapse dt now (renderCells cN s)); reflexivity.
  - cbn [burst_events flat_map fst snd]. cbn [fst snd] in Hc, Hd.
    change (flat_map _ edits) with (burst_events edits).
    destruct (edit_within_window Date_getTime s c d w u Htr Hrd Hc Hd)
      as (Hrd' & Hcalls & Hy).
    assert (Htr' : timers_tracked (run Date_getTime s [EvRender c; EvElapse d w]))
      by (apply timers_tracked_run; exact Htr).
    specialize (IH _ Htr' Hrd'). rewrite Hcalls, Hy in IH.
    destruct IH as (IH1 & IH2).
    split.
    + rewrite <- app_assoc, run_app. exact IH1.
    + intros dt' now'. rewrite <- app_assoc, run_app. exact (IH2 dt' now').
Qed.

End Debounce.

Lemma debounce_coalesces_burst_witness :
  calls (run IsoDate.getTime (hydrated ∅ emptyStorage)
           (burst_events rapidEdits
            ++ [EvRender cellsRedBlueGreen; EvElapse 600 "2025-06-01T12:00:01.000Z"]))
  = calls (hydrated ∅ emptyStorage)
    ++ [CUpsert "user-123" 2025 cellsRedBlueGreen "2025-06-01T12:00:01.000Z"].
Proof.
  refine (proj1 (debounce_coalesces_burst IsoDate.getTime
                   (hydrated ∅ emptyStorage) "user-123" rapidEdits
                   cellsRedBlueGreen 600 "2025-06-01T12:00:01.000Z" _ _ _ _ _)).
  - vm_compute. exact I.
  - repeat split; reflexivity.
  - repeat constructor; vm_compute; lia.
  - vm_compute. lia.
  - vm_compute. lia.
Defined.

(** ** Remote-origin flag *)

(** With the remote-origin flag up, the auto-push effect creates no timer
    and sends nothing; where its earlier guards let it through, it lowers
    the flag. *)
Lemma autoPushEffect_flagged (s : State) :
  isFromRealtimeRef s = true ->
  timers (autoPushEffect s) = timers s
  /\ calls (autoPushEffect s) = calls s
  /\ supabase (autoPushEffect s) = supabase s
  /\ user (autoPushEffect s) = user s
  /\ year (autoPushEffect s) = year s
  /\ initialPullDoneRef (autoPushEffect s) = initialPullDoneRef s
  /\ isPushingRef (autoPushEffect s) = isPushingRef s
  /\ (isEnabled s = true -> initialPullDoneRef s = true ->
      isPushingRef s = false -> isFromRealtimeRef (autoPushEffect s) = false).
Proof.
  intros Hfr. unfold autoPushEffect. rewrite Hfr.
  destruct (isEnabled s); cbn [negb].
  - destruct (initialPullDoneRef s) eqn:Hpd; cbn [negb].
    + destruct (isPushingRef s) eqn:Hip.
      * repeat split; auto. intros; discriminate.
      * destruct s; cbn in *. repeat split; auto.
    + repeat split; auto. intros; discriminate.
  - repeat split; auto. intros; discriminate.
Qed.

(** What the handler does when it does not return early. *)
Lemma onChange_cases (getTime : string -> option Z)
    (ch : Channel) (row : Row) (s : State) :
  onChange getTime ch row s = s
  \/ onChange getTime ch row s
     = set_localStorage (setSyncTimestamp (row_updated_at row) (localStorage s))
         (log (CSetDateCells (row_data row)) (set_isFromRealtimeRef true s)).
Proof.
  unfold onChange. rewrite entries_roundtrip.
  destruct (negb _); [left; reflexivity |].
  destruct (_ && _); [left; reflexivity |].
  destruct (Nat.eqb _ 0); [left; reflexivity |].
  right. destruct s; reflexivity.
Qed.

Lemma upserts_app (s : State) (l : list Call) :
  List.filter is_upsert (calls s ++ l) = upserts s ++ List.filter is_upsert l.
Proof. unfold upserts. apply List.filter_app. Qed.

Section RemoteOrigin.

Variable Date_getTime : string -> option Z.

(** Without a pending timer, waiting sends nothing. *)
Lemma waiting_is_silent (waits : list (nat * string)) (s : State) :
  timers s = [] ->
  calls (run Date_getTime s (waits_events waits)) = calls s.
Proof.
  revert s. induction waits as [| [dt now] waits IH]; intros s Ht; [reflexivity |].
  cbn [waits_events List.map run fold_left step fst snd].
  rewrite (elapse_none s dt now Ht).
  change (fold_left (step Date_getTime) (List.map _ waits) ?x)
    with (run Date_getTime x (waits_events waits)).
  rewrite IH; destruct s; cbn in *; auto.
Qed.

(** X19: when the handler applies a change notification (it calls
    [setDateCells m]) and the host renders [m], then however long one waits
    without a further edit, no upsert is sent: the log only gains the
    [setDateCells] call.  Where the initial pull has completed and no push
    is in flight, that one render consumes the remote-origin flag: the hook
    is ready again, and the next local edit is pushed after the debounce
    window. *)
Theorem remote_applied_is_not_pushed_back
    (s : State) (row : Row) (m : Cells) (waits : list (nat * string)) :
  timers_tracked s ->
  calls (step Date_getTime s (EvNotify row)) = calls s ++ [CSetDateCells m] ->
  calls (run Date_getTime s ([EvNotify row; EvRender m] ++ waits_events waits))
    = calls s ++ [CSetDateCells m]
  /\ upserts (run Date_getTime s ([EvNotify row; EvRender m] ++ waits_events waits))
     = upserts s
  /\ (forall u, supabase s = true -> user s = Some u ->
        initialPullDoneRef s = true -> isPushingRef s = false ->
        ready u (run Date_getTime s [EvNotify row; EvRender m])
        /\ forall c dt now, size c <> 0 -> DEBOUNCE_MS <= dt ->
             calls (run Date_getTime s
                      [EvNotify row; EvRender m; EvRender c; EvElapse dt now])
             = calls s ++ [CSetDateCells m; CUpsert u (year s) (Object_fromEntries c) now]).
Proof.
  intros Htr Happ.
  set (s1 := step Date_getTime s (EvNotify row)) in *.
  assert (Hview : same_timer_view s s1).
  { subst s1. cbn [step]. destruct (channel s); [apply view_onChange | apply view_refl]. }
  assert (Hs1 : isFromRealtimeRef s1 = true
                /\ initialPullDoneRef s1 = initialPullDoneRef s
                /\ isPushingRef s1 = isPushingRef s).
  { subst s1. cbn [step] in *. destruct (channel s) as [ch |].
    - destruct (onChange_cases Date_getTime ch row s) as [He | He];
        rewrite He in *.
      + exfalso. apply (f_equal (@length Call)) in Happ.
        rewrite length_app in Happ. cbn in Happ. lia.
      + destruct s; cbn. auto.
    - exfalso. apply (f_equal (@length Call)) in Happ.
      rewrite length_app in Happ. cbn in Happ. lia. }
  destruct Hs1 as (Hfl & Hpd1 & Hip1).
  assert (Htr1 : timers_tracked s1) by (apply timers_tracked_step; exact Htr).
  destruct Hview as (Hv1 & Hv2 & Hv3 & Hv4 & Hv5 & Hv6 & Hv7).
  set (X := autoPushEffect_cleanup (set_dateCells m s1)).
  assert (HXt : timers X = [])
    by (apply (cleanup_clears s1); [exact Htr1 | destruct s1; reflexivity ..]).
  pose proof (cleanup_fields (set_dateCells m s1)) as HXf. cbv zeta in HXf.
  fold X in HXf.
  destruct HXf as (F1 & F2 & F3 & _ & _ & F6 & F7 & F8 & F9 & _).
  replace (supabase (set_dateCells m s1)) with (supabase s1) in F1 by (destruct s1; reflexivity).
  replace (user (set_dateCells m s1)) with (user s1) in F2 by (destruct s1; reflexivity).
  replace (year (set_dateCells m s1)) with (year s1) in F3 by (destruct s1; reflexivity).
  replace (isPushingRef (set_dateCells m s1)) with (isPushingRef s1) in F6 by (destruct s1; reflexivity).
  replace (isFromRealtimeRef (set_dateCells m s1)) with (isFromRealtimeRef s1) in F7 by (destruct s1; reflexivity).
  replace (initialPullDoneRef (set_dateCells m s1)) with (initialPullDoneRef s1) in F8 by (destruct s1; reflexivity).
  replace (calls (set_dateCells m s1)) with (calls s1) in F9 by (destruct s1; reflexivity).
  rewrite Hfl in F7.
  destruct (autoPushEffect_flagged X F7)
    as (G1 & G2 & G3 & G4 & G5 & G6 & G7 & G8).
  assert (Hs2 : run Date_getTime s [EvNotify row; EvRender m] = autoPushEffect X)
    by reflexivity.
  assert (Ht2 : timers (autoPushEffect X) = []) by congruence.
  assert (Hc2 : calls (autoPushEffect X) = calls s ++ [CSetDateCells m]) by congruence.
  assert (Hall : calls (run Date_getTime s ([EvNotify row; EvRender m] ++ waits_events waits))
                 = calls s ++ [CSetDateCells m]).
  { rewrite run_app, Hs2, (waiting_is_silent waits _ Ht2). exact Hc2. }
  split; [exact Hall |]. split.
  - unfold upserts at 1. rewrite Hall, upserts_app. cbn. apply app_nil_r.
  - intros u Hsb Hu Hpd Hip.
    assert (Hrd : ready u (autoPushEffect X)).
    { unfold ready. rewrite G3, G4, G6, G7, F1, F2, F8, F6, Hv6, Hv4, Hpd1, Hip1.
      repeat split; auto. apply G8.
      - unfold isEnabled. rewrite F1, F2, Hv6, Hv4, Hsb, Hu. reflexivity.
      - congruence.
      - congruence. }
    rewrite Hs2. split; [exact Hrd |].
    intros c dt now Hc Hdt.
    change [EvNotify row; EvRender m; EvRender c; EvElapse dt now]
      with ([EvNotify row; EvRender m] ++ [EvRender c; EvElapse dt now]).
    rewrite run_app, Hs2.
    assert (Htr2 : timers_tracked (autoPushEffect X))
      by (unfold timers_tracked; rewrite Ht2; exact I).
    destruct (edit_then_quiet Date_getTime _ c dt now u Htr2 Hrd Hc Hdt) as (Hq & _).
    rewrite Hq, Hc2, G5, F3, Hv5, <- app_assoc. reflexivity.
Qed.

End RemoteOrigin.

Lemma remote_applied_is_not_pushed_back_witness :
  upserts (run IsoDate.getTime (hydrated ∅ emptyStorage)
             ([EvNotify rowGreen; EvRender cellsGreen]
              ++ waits_events [(1000, "2025-06-01T12:30:01.000Z")]))
  = upserts (hydrated ∅ emptyStorage).
Proof.
  refine (proj1 (proj2 (remote_applied_is_not_pushed_back IsoDate.getTime
                          (hydrated ∅ emptyStorage) rowGreen cellsGreen
                          [(1000, "2025-06-01T12:30:01.000Z")] _ _))).
  - vm_compute. exact I.
  - vm_compute. reflexivity.
Defined.

(** The test "DOES auto-push user's LOCAL changes made after Realtime data
    was applied". *)
Example local_edit_after_remote_is_pushed :
  upserts (run IsoDate.getTime (hydrated ∅ emptyStorage)
             [EvNotify rowGreen; EvRender cellsGreen;
              EvElapse 600 "2025-06-01T12:30:00.600Z";
              EvRender (<[ "2025-03-16" := makeCell "red" ]> cellsGreen);
              EvElapse 600 "2025-06-01T12:30:01.200Z"])
  = [CUpsert "user-123" 2025 (<[ "2025-03-16" := makeCell "red" ]> cellsGreen)
       "2025-06-01T12:30:01.200Z"].
Proof. vm_compute. reflexivity. Qed.

(** ** Pre-hydration guard *)

Lemma autoPushEffect_unhydrated (s : State) :
  initialPullDoneRef s = false -> autoPushEffect s = s.
Proof.
  intros H. unfold autoPushEffect. rewrite H.
  destruct (negb (isEnabled s)); reflexivity.
Qed.

Lemma cleanup_unhydrated (s : State) :
  timers s = [] ->
  upserts (autoPushEffect_cleanup s) = upserts s
  /\ timers (autoPushEffect_cleanup s) = []
  /\ initialPullDoneRef (autoPushEffect_cleanup s) = initialPullDoneRef s.
Proof.
  intros Ht. unfold autoPushEffect_cleanup, clearTimeout, upserts.
  destruct (autoPushCleanup s); [destruct (debounceTimerRef s) |];
    destruct s; cbn in *; subst; auto.
Qed.

Lemma pullEffect_unhydrated (s : State) :
  initialPullDoneRef s = false ->
  upserts (pullEffect s) = upserts s
  /\ timers (pullEffect s) = timers s
  /\ initialPullDoneRef (pullEffect s) = false.
Proof.
  intros H. unfold pullEffect, pullFromCloud_start, log, upserts.
  destruct (negb (isEnabled s)); [auto |].
  destruct (supabase s) eqn:Hsb; [destruct (user s) eqn:Hu |];
    destruct s; cbn in *; subst; cbn; auto.
  rewrite List.filter_app. cbn. rewrite app_nil_r. auto.
Qed.

Lemma realtimeEffect_unhydrated (s : State) :
  upserts (realtimeEffect s) = upserts s
  /\ timers (realtimeEffect s) = timers s
  /\ initialPullDoneRef (realtimeEffect s) = initialPullDoneRef s.
Proof.
  unfold realtimeEffect, log, upserts.
  destruct (negb (supabase s)); [auto |].
  destruct (user s); [| auto].
  destruct (negb (isEnabled s)); [auto |].
  destruct s; cbn. rewrite List.filter_app. cbn. rewrite app_nil_r. auto.
Qed.

Lemma realtimeEffect_cleanup_unhydrated (s : State) :
  upserts (realtimeEffect_cleanup s) = upserts s
  /\ timers (realtimeEffect_cleanup s) = timers s
  /\ initialPullDoneRef (realtimeEffect_cleanup s) = initialPullDoneRef s.
Proof.
  unfold realtimeEffect_cleanup, log, upserts.
  destruct (channel s); [| auto].
  destruct s; cbn. rewrite List.filter_app. cbn. rewrite app_nil_r. auto.
Qed.

Lemma rerunEffects_unhydrated (s : State) :
  timers s = [] -> initialPullDoneRef s = false ->
  still_unhydrated s (rerunEffects s).
Proof.
  intros Ht Hpd. unfold rerunEffects, still_unhydrated.
  destruct (realtimeEffect_cleanup_unhydrated s) as (A1 & A2 & A3).
  set (s1 := realtimeEffect_cleanup s) in *.
  destruct (cleanup_unhydrated s1) as (B1 & B2 & B3); [congruence |].
  set (s2 := autoPushEffect_cleanup s1) in *.
  destruct (pullEffect_unhydrated s2) as (C1 & C2 & C3); [congruence |].
  set (s3 := pullEffect s2) in *.
  destruct (realtimeEffect_unhydrated s3) as (D1 & D2 & D3).
  set (s4 := realtimeEffect s3) in *.
  rewrite (autoPushEffect_unhydrated s4) by congruence.
  repeat split; congruence.
Qed.

Lemma onChange_unhydrated (getTime : string -> option Z) ch row (s : State) :
  upserts (onChange getTime ch row s) = upserts s
  /\ timers (onChange getTime ch row s) = timers s
  /\ initialPullDoneRef (onChange getTime ch row s) = initialPullDoneRef s.
Proof.
  destruct (onChange_cases getTime ch row s) as [-> | ->]; [auto |].
  unfold log, upserts. destruct s; cbn.
  rewrite List.filter_app. cbn. rewrite app_nil_r. auto.
Qed.

Lemma pullFromCloud_resume_unhydrated (r : FetchResult) (s : State) :
  upserts (pullFromCloud_resume r s) = upserts s
  /\ timers (pullFromCloud_resume r s) = timers s
  /\ initialPullDoneRef (pullFromCloud_resume r s) = initialPullDoneRef s.
Proof.
  unfold pullFromCloud_resume, log, upserts.
  destruct r as [[d |] | |]; try (destruct s; cbn; auto; fail).
  destruct (Nat.ltb _ _); [destruct (pull_should_apply _ _ _) |];
    destruct s; cbn; auto.
  rewrite List.filter_app. cbn. rewrite app_nil_r. auto.
Qed.

Section PreHydration.

Variable Date_getTime : string -> option Z.

Lemma unhydrated_step (s : State) (e : Event) :
  initialPullDoneRef s = false -> timers s = [] ->
  resolves_initial_pull s e = false -> is_explicit_push e = false ->
  still_unhydrated s (step Date_getTime s e).
Proof.
  intros Hpd Ht Hres Hpush. unfold still_unhydrated.
  destruct e
    as [c | y | u | dt now | now | | i r | i r | row | su sy snow | su sy];
    cbn [step]; try discriminate.
  - unfold renderCells.
    destruct (cleanup_unhydrated (set_dateCells c s)) as (A1 & A2 & A3);
      [destruct s; exact Ht |].
    rewrite autoPushEffect_unhydrated
      by (rewrite A3; destruct s; exact Hpd).
    rewrite A1, A2, A3. destruct s; cbn in *; auto.
  - destruct (Z.eqb y (year s)); [auto |].
    destruct (rerunEffects_unhydrated (set_year y s)) as (A1 & A2 & A3);
      [destruct s; assumption .. |].
    rewrite A1, A2, A3. destruct s; cbn; auto.
  - assert (Hre : upserts (rerunEffects (set_user u s)) = upserts s
                  /\ timers (rerunEffects (set_user u s)) = []
                  /\ initialPullDoneRef (rerunEffects (set_user u s)) = false).
    { destruct (rerunEffects_unhydrated (set_user u s)) as (A1 & A2 & A3);
        [destruct s; assumption .. |].
      rewrite A1, A2, A3. destruct s; cbn; auto. }
    destruct (user s), u; auto.
  - rewrite (elapse_none s dt now Ht). destruct s; cbn in *; auto.
  - unfold pullFromCloud_start, log, upserts.
    destruct (supabase s) eqn:Hsb; [destruct (user s) eqn:Hu |];
      destruct s; cbn in *; subst; cbn; auto.
    rewrite List.filter_app. cbn. rewrite app_nil_r. auto.
  - destruct (nth_error (pendingPushes s) i); [| auto].
    unfold pushToCloud_resume, upserts. destruct r; destruct s; cbn in *; auto.
  - cbn in Hres. destruct (nth_error (pendingPulls s) i) as [b |]; [| auto].
    subst b.
    destruct (pullFromCloud_resume_unhydrated r
                (set_pendingPulls (remove_nth i (pendingPulls s)) s))
      as (A1 & A2 & A3).
    rewrite A1, A2, A3. destruct s; cbn in *; auto.
  - destruct (channel s) as [ch |]; [| auto].
    destruct (onChange_unhydrated Date_getTime ch row s) as (A1 & A2 & A3).
    rewrite A1, A2, A3. auto.
  - unfold pullFromCloud_start, log, upserts.
    destruct (supabase s) eqn:Hsb; [destruct su |];
      destruct s; cbn in *; subst; cbn; auto.
    rewrite List.filter_app. cbn. rewrite app_nil_r. auto.
Qed.

(** From a state in which the initial pull is not marked as completed and
    no timer is pending, nothing is pushed or scheduled as long as no pull
    started by the mount effect is answered and the host does not push. *)
Lemma unhydrated_run (evs : list Event) (s : State) :
  initialPullDoneRef s = false -> timers s = [] ->
  before_hydration Date_getTime s evs ->
  still_unhydrated s (run Date_getTime s evs).
Proof.
  revert s. induction evs as [| e evs IH]; intros s Hpd Ht Hb.
  - unfold still_unhydrated. cbn. auto.
  - destruct Hb as (Hres & Hpush & Hb).
    destruct (unhydrated_step s e Hpd Ht Hres Hpush) as (A1 & A2 & A3).
    destruct (IH _ A3 A2 Hb) as (B1 & B2 & B3).
    unfold still_unhydrated.
    change (run Date_getTime s (e :: evs))
      with (run Date_getTime (step Date_getTime s e) evs).
    repeat split; congruence.
Qed.

End PreHydration.

(** The test "does NOT auto-push before initial pull completes". *)
Example test_no_push_before_initial_pull :
  still_unhydrated (mounted cellsRed emptyStorage)
    (run IsoDate.getTime (mounted cellsRed emptyStorage)
       [EvRender cellsRedBlue; EvElapse 1000 "2025-06-01T12:00:01.000Z"]).
Proof. apply unhydrated_run; [reflexivity | reflexivity | cbn; auto]. Qed.

(** C8: every run of the mount effect chains its own
    [.then(() => initialPullDoneRef.current = true)] and none is cancelled.
    After a change of year with the first fetch still in flight, the reply
    to that fetch, for the previous year, raises the flag the effect had
    just reset: the fetch for the new year is unanswered, and an edit made
    now is upserted for the new year when the debounce window closes. *)
Theorem late_pull_reply_ends_pre_hydration :
  List.filter is_fetch (calls yearSwitched)
  = [CFetch "user-123" 2025; CFetch "user-123" 2026]
  /\ pendingPulls yearSwitched = [true]
  /\ initialPullDoneRef yearSwitched = true
  /\ calls (run IsoDate.getTime yearSwitched
              [EvRender cellsRedBlue; EvElapse 600 "2025-06-01T12:00:00.600Z"])
     = calls yearSwitched
       ++ [CUpsert "user-123" 2026 cellsRedBlue "2025-06-01T12:00:00.600Z"]
  /\ pendingPulls (run IsoDate.getTime yearSwitched
                     [EvRender cellsRedBlue; EvElapse 600 "2025-06-01T12:00:00.600Z"])
     = [true].
Proof. vm_compute. repeat split. Qed.

(** ** No identity *)

Lemma isEnabled_no_user (s : State) : user s = None -> isEnabled s = false.
Proof. intros H. unfold isEnabled. rewrite H. apply andb_false_r. Qed.

Lemma autoPushEffect_disabled (s : State) :
  isEnabled s = false -> autoPushEffect s = s.
Proof. intros H. unfold autoPushEffect. rewrite H. reflexivity. Qed.

Lemma no_timer_without_user (s : State) :
  timers_tracked s -> user s = None -> timers s = [].
Proof.
  unfold timers_tracked. intros Htr Hu.
  destruct (timers s) as [| t [| t' tm]]; [reflexivity | | contradiction].
  destruct Htr as (_ & _ & _ & _ & Hen & _).
  rewrite (isEnabled_no_user s Hu) in Hen. discriminate.
Qed.

Lemma rerunEffects_no_user (s : State) :
  user s = None ->
  io_calls (rerunEffects s) = io_calls s /\ user (rerunEffects s) = None.
Proof.
  intros Hu. unfold rerunEffects.
  set (s1 := realtimeEffect_cleanup s).
  assert (H1 : io_calls s1 = io_calls s /\ user s1 = None).
  { subst s1. unfold realtimeEffect_cleanup, log, io_calls.
    destruct (channel s); [| auto]. destruct s; cbn in *.
    rewrite List.filter_app. cbn. rewrite app_nil_r. auto. }
  destruct H1 as (H1 & Hu1).
  pose proof (cleanup_fields s1) as Hf. cbv zeta in Hf.
  set (s2 := autoPushEffect_cleanup s1) in *.
  destruct Hf as (_ & Hu2 & _ & _ & _ & _ & _ & _ & Hc2 & _).
  assert (Hu2' : user s2 = None) by congruence.
  assert (Hp : pullEffect s2 = s2).
  { unfold pullEffect. rewrite (isEnabled_no_user s2 Hu2'). reflexivity. }
  assert (Hr : realtimeEffect s2 = s2).
  { unfold realtimeEffect. rewrite Hu2'. destruct (negb (supabase s2)); reflexivity. }
  rewrite Hp, Hr, (autoPushEffect_disabled s2 (isEnabled_no_user s2 Hu2')).
  split; [| exact Hu2']. unfold io_calls in *. rewrite Hc2. exact H1.
Qed.

Section NoIdentity.

Variable Date_getTime : string -> option Z.

Lemma no_user_step (s : State) (e : Event) :
  timers_tracked s -> user s = None -> keeps_identity_absent e = true ->
  io_calls (step Date_getTime s e) = io_calls s
  /\ user (step Date_getTime s e) = None.
Proof.
  intros Htr Hu Hk.
  destruct e
    as [c | y | u | dt now | now | | i r | i r | row | su sy snow | su sy];
    cbn [step].
  - unfold renderCells.
    pose proof (cleanup_fields (set_dateCells c s)) as Hf. cbv zeta in Hf.
    set (X := autoPushEffect_cleanup (set_dateCells c s)) in *.
    destruct Hf as (_ & Hu2 & _ & _ & _ & _ & _ & _ & Hc2 & _).
    assert (HuX : user X = None) by (rewrite Hu2; destruct s; exact Hu).
    rewrite (autoPushEffect_disabled X (isEnabled_no_user X HuX)).
    split; [| exact HuX]. unfold io_calls. rewrite Hc2. destruct s; reflexivity.
  - destruct (Z.eqb y (year s)); [auto |].
    destruct (rerunEffects_no_user (set_year y s)) as (A1 & A2);
      [destruct s; exact Hu |].
    rewrite A1, A2. destruct s; auto.
  - rewrite Hu. destruct u; [discriminate | auto].
  - rewrite (elapse_none s dt now (no_timer_without_user s Htr Hu)).
    destruct s; auto.
  - unfold pushToCloud_start. rewrite Hu.
    destruct (negb (supabase s)); auto.
  - unfold pullFromCloud_start. rewrite Hu.
    destruct (negb (supabase s)); auto.
  - destruct (nth_error (pendingPushes s) i); [| auto].
    unfold pushToCloud_resume, io_calls. destruct r; destruct s; cbn in *; auto.
  - destruct (nth_error (pendingPulls s) i) as [b |]; [| auto].
    assert (H : io_calls (pullFromCloud_resume r
                  (set_pendingPulls (remove_nth i (pendingPulls s)) s)) = io_calls s
                /\ user (pullFromCloud_resume r
                  (set_pendingPulls (remove_nth i (pendingPulls s)) s)) = None).
    { unfold pullFromCloud_resume, log, io_calls.
      destruct r as [[d |] | |]; try (destruct s; cbn in *; auto; fail).
      destruct (Nat.ltb _ _); [destruct (pull_should_apply _ _ _) |];
        destruct s; cbn in *; auto.
      rewrite List.filter_app. cbn. rewrite app_nil_r. auto. }
    destruct b; [| exact H].
    destruct H as (H1 & H2). unfold io_calls in *.
    destruct (pullFromCloud_resume r _); cbn in *; auto.
  - destruct (channel s) as [ch |]; [| auto].
    destruct (onChange_cases Date_getTime ch row s) as [-> | ->]; [auto |].
    unfold log, io_calls. destruct s; cbn in *.
    rewrite List.filter_app. cbn. rewrite app_nil_r. auto.
  - destruct su; [discriminate |]. unfold pushToCloud_start.
    destruct (negb (supabase s)); auto.
  - destruct su; [discriminate |]. unfold pullFromCloud_start.
    destruct (negb (supabase s)); auto.
Qed.

(** C9, as amended: while no authenticated identity is available the
    hook issues no fetch, no upsert and no subscription call, whatever
    happens short of an identity appearing: renders, year changes, timers,
    late replies, notifications, calls of the [pushToCloud] /
    [pullFromCloud] of the current render or of any earlier render without
    an identity.  A [pushToCloud] or [pullFromCloud] kept from a render
    that had an identity is not covered: [keeps_identity_absent] leaves it
    out.  The phase is one of the five members of [SyncStatus] and so never
    reads "disabled". *)
Theorem no_identity_no_io (s : State) (evs : list Event) :
  timers_tracked s -> user s = None ->
  forallb keeps_identity_absent evs = true ->
  io_calls (run Date_getTime s evs) = io_calls s
  /\ user (run Date_getTime s evs) = None
  /\ SyncStatus_literal (syncStatus (run Date_getTime s evs)) <> "disabled".
Proof.
  intros Htr Hu Hk.
  assert (H : io_calls (run Date_getTime s evs) = io_calls s
              /\ user (run Date_getTime s evs) = None).
  { revert s Htr Hu. induction evs as [| e evs IH]; intros s Htr Hu; [auto |].
    cbn [forallb] in Hk. apply andb_prop in Hk. destruct Hk as (Hk & Hks).
    destruct (no_user_step s e Htr Hu Hk) as (A1 & A2).
    change (run Date_getTime s (e :: evs))
      with (run Date_getTime (step Date_getTime s e) evs).
    destruct (IH Hks (step Date_getTime s e)
                (timers_tracked_step Date_getTime s e Htr) A2) as (B1 & B2).
    split; congruence. }
  destruct H as (H1 & H2). repeat split; auto.
  destruct (syncStatus _); cbn; discriminate.
Qed.

End NoIdentity.

(** C9 as first stated fails: with no identity the phase of a freshly
    mounted hook is [idle]; [SyncStatus] has no member "disabled". *)
Lemma no_identity_phase_is_idle :
  user signedOut = None
  /\ syncStatus signedOut = idle
  /\ SyncStatus_literal (syncStatus signedOut) <> "disabled".
Proof. repeat split. cbn. discriminate. Qed.

(** C9 as amended, signed out: an edit, a wait, a year change, explicit
    push and pull requests, and a sign-out reach the store with nothing. *)
Lemma no_identity_no_io_witness :
  io_calls (run IsoDate.getTime signedOut
              [EvRender cellsRedBlue; EvElapse 1000 "2025-06-01T12:00:01.000Z";
               EvYear 2026; EvPush "2025-06-01T12:00:02.000Z"; EvPull;
               EvAuth None])
  = io_calls signedOut.
Proof.
  refine (proj1 (no_identity_no_io IsoDate.getTime signedOut _ _ _ _)).
  - vm_compute. exact I.
  - reflexivity.
  - reflexivity.
Defined.

(** Callbacks that outlive their render.  [handleSyncNow] holds the
    [pushToCloud] of the render of the click across its
    [await pullFromCloud()]; when the user signs out in between, the push it
    then calls was created with the identity, gets past its [!user] guard
    and upserts.  So does a [pullFromCloud] kept that way. *)
Example stale_push_after_sign_out_upserts :
  user signedOutDuringSyncNow = None
  /\ io_calls (step IsoDate.getTime signedOutDuringSyncNow
                 (EvStalePush (Some "user-123") 2025 "2025-06-01T12:00:00.000Z"))
     = io_calls signedOutDuringSyncNow
       ++ [CUpsert "user-123" 2025 cellsRed "2025-06-01T12:00:00.000Z"]
  /\ io_calls (step IsoDate.getTime signedOutDuringSyncNow
                 (EvStalePull (Some "user-123") 2025))
     = io_calls signedOutDuringSyncNow ++ [CFetch "user-123" 2025]
  /\ io_calls (step IsoDate.getTime signedOutDuringSyncNow
                 (EvPush "2025-06-01T12:00:00.000Z"))
     = io_calls signedOutDuringSyncNow.
Proof. vm_compute. repeat split. Qed.

(** A callback of the current render is the stale one with the current
    [user] and [year]. *)
Lemma current_callbacks_are_stale_ones (getTime : string -> option Z)
    (s : State) (now : string) :
  step getTime s (EvPush now) = step getTime s (EvStalePush (user s) (year s) now)
  /\ step getTime s EvPull = step getTime s (EvStalePull (user s) (year s)).
Proof. split; reflexivity. Qed.

(** Signing out with an edit pending: the subscription is removed, the
    timer is cleared and nothing is pushed afterwards. *)
Example sign_out_cancels_pending_push :
  calls (run IsoDate.getTime (hydrated ∅ emptyStorage)
           [EvRender cellsRed; EvElapse 100 "2025-06-01T12:00:00.100Z";
            EvAuth None; EvElapse 1000 "2025-06-01T12:00:01.100Z"])
  = calls (hydrated ∅ emptyStorage)
    ++ [CRemoveChannel {| cn_year := 2025; cn_id := 1 |}].
Proof. vm_compute. reflexivity. Qed.

(** ** Sync Timestamp *)

Section SyncTimestamp.

Variable Date_getTime : string -> option Z.


End SyncTimestamp.



(** ** Empty pushes *)

(** With no cells the auto-push effect creates no timer. *)
Lemma autoPushEffect_empty (s : State) :
  size (dateCells s) = 0 ->
  timers (autoPushEffect s) = timers s /\ calls (autoPushEffect s) = calls s.
Proof.
  intros Hz. unfold autoPushEffect. rewrite Hz. cbn [Nat.eqb].
  destruct (negb (isEnabled s)); [auto |].
  destruct (negb (initialPullDoneRef s)); [auto |].
  destruct (isPushingRef s); [auto |].
  destruct (isFromRealtimeRef s); [destruct s; auto | auto].
Qed.

(** The guarded path: a render with an empty state, followed by any
    wait, sends nothing. *)
Lemma auto_push_skips_empty_state (getTime : string -> option Z)
    (s : State) (c : Cells) (dt : nat) (now : string) :
  timers_tracked s -> size c = 0 ->
  calls (run getTime s [EvRender c; EvElapse dt now]) = calls s.
Proof.
  intros Htr Hz. cbn [run fold_left step]. unfold renderCells.
  pose proof (cleanup_clears s (set_dateCells c s) Htr) as Hclr.
  pose proof (cleanup_fields (set_dateCells c s)) as Hf. cbv zeta in Hf.
  set (X := autoPushEffect_cleanup (set_dateCells c s)) in *.
  assert (Ht : timers X = []) by (apply Hclr; destruct s; reflexivity).
  destruct Hf as (_ & _ & _ & F4 & _ & _ & _ & _ & F9 & _).
  destruct (autoPushEffect_empty X) as (A1 & A2).
  { rewrite F4. destruct s; exact Hz. }
  rewrite (elapse_none _ dt now) by congruence.
  transitivity (calls (autoPushEffect X)); [destruct (autoPushEffect X); reflexivity |].
  rewrite A2, F9. destruct s; reflexivity.
Qed.

(** C2 fails on the unguarded path: [pushToCloud()] called by the host
    on an empty Document State sends an upsert with an empty payload.  The
    emptiness test of the comment "Never push empty data to cloud" stands in
    the auto-push effect only. *)
Lemma explicit_push_sends_empty_state :
  size (dateCells (hydrated ∅ emptyStorage)) = 0
  /\ calls (step IsoDate.getTime (hydrated ∅ emptyStorage)
             (EvPush "2025-06-01T12:00:00.000Z"))
     = calls (hydrated ∅ emptyStorage)
       ++ [CUpsert "user-123" 2025 ∅ "2025-06-01T12:00:00.000Z"].
Proof. split; vm_compute; reflexivity. Qed.

(** ** The unit tests of [useCloudSync.test.ts], replayed on the model *)

(** "pulls from cloud on mount" *)
Example test_pulls_on_mount :
  calls (step IsoDate.getTime (mounted ∅ emptyStorage)
           (EvFetchDone 0 (FetchOk (Some (docJune cellsRed)))))
  = [CFetch "user-123" 2025;
     CSubscribe {| cn_year := 2025; cn_id := 1 |} "user-123";
     CSetDateCells cellsRed].
Proof. vm_compute. reflexivity. Qed.

(** "does NOT push empty dateCells to cloud" *)
Example test_no_empty_auto_push :
  upserts (run IsoDate.getTime (hydrated ∅ emptyStorage)
             [EvElapse 1000 "2025-06-01T12:00:01.000Z"]) = [].
Proof. vm_compute. reflexivity. Qed.

(** "pushes after initial pull completes and dateCells change" *)
Example test_push_after_pull :
  upserts (run IsoDate.getTime (hydrated ∅ emptyStorage)
             [EvRender cellsRed; EvElapse 600 "2025-06-01T12:00:00.600Z"])
  = [CUpsert "user-123" 2025 cellsRed "2025-06-01T12:00:00.600Z"].
Proof. vm_compute. reflexivity. Qed.

(** "increments channel name suffix when effect re-runs" and "removes
    channel" on the way. *)
Example test_channel_suffix :
  calls (step IsoDate.getTime (hydrated ∅ emptyStorage) (EvYear 2026))
  = [CFetch "user-123" 2025;
     CSubscribe {| cn_year := 2025; cn_id := 1 |} "user-123";
     CRemoveChannel {| cn_year := 2025; cn_id := 1 |};
     CFetch "user-123" 2026;
     CSubscribe {| cn_year := 2026; cn_id := 2 |} "user-123"].
Proof. vm_compute. reflexivity. Qed.

(** "applies Realtime events from OTHER devices" *)
Example test_other_device_applied :
  calls (step IsoDate.getTime (hydrated ∅ emptyStorage) (EvNotify rowGreen))
  = calls (hydrated ∅ emptyStorage) ++ [CSetDateCells cellsGreen].
Proof. vm_compute. reflexivity. Qed.

(** "ignores Realtime events for a different year" and "with empty data" *)
Example test_other_year_and_empty_ignored :
  step IsoDate.getTime (hydrated ∅ emptyStorage)
    (EvNotify {| row_year := 2024; row_data := cellsRed;
                 row_updated_at := "2025-06-01T12:00:00.000+00:00" |})
  = hydrated ∅ emptyStorage
  /\ step IsoDate.getTime (hydrated ∅ emptyStorage)
       (EvNotify {| row_year := 2025; row_data := ∅;
                    row_updated_at := "2025-06-01T12:00:00.000+00:00" |})
     = hydrated ∅ emptyStorage.
Proof. split; vm_compute; reflexivity. Qed.

(** "shows 'pulling' during pull, then 'idle'", "sets 'error' on pull
    failure", "sets 'error' on push failure" *)
Example test_syncStatus :
  syncStatus (mounted ∅ emptyStorage) = pulling
  /\ syncStatus (hydrated ∅ emptyStorage) = idle
  /\ syncStatus (step IsoDate.getTime (mounted ∅ emptyStorage)
                   (EvFetchDone 0 FetchError)) = error
  /\ syncStatus (run IsoDate.getTime (hydrated ∅ emptyStorage)
                   [EvRender cellsRed; EvElapse 600 "2025-06-01T12:00:00.600Z";
                    EvUpsertDone 0 UpsertError]) = error.
Proof. repeat split. Qed.

(** ** Edges of the guards *)

(** [initialPullDoneRef] is raised by any reply to a pull the mount
    effect started, also a late reply to the pull of the year shown
    before. *)
Example late_reply_of_previous_year_raises_flag :
  pendingPulls (step IsoDate.getTime (mounted cellsRed emptyStorage) (EvYear 2026))
  = [true; true]
  /\ initialPullDoneRef
       (run IsoDate.getTime (mounted cellsRed emptyStorage)
          [EvYear 2026; EvFetchDone 0 (FetchOk None)]) = true
  /\ pendingPulls
       (run IsoDate.getTime (mounted cellsRed emptyStorage)
          [EvYear 2026; EvFetchDone 0 (FetchOk None)]) = [true].
Proof. repeat split. Qed.

(** C7: the remote-origin flag is lowered by the first evaluation of the
    auto-push effect that gets past the two guards before it.  When a
    notification is applied while a push is in flight, the evaluation that
    follows it, the render of the remote cells, returns at the
    [isPushingRef] guard: once the push is answered the flag is still up,
    and it is the user's next edit that is suppressed: that edit sends
    nothing and schedules nothing, however long one waits.  By the comment
    on [isFromRealtimeRef] the flag is meant for the change that came from
    Realtime. *)
Theorem remote_flag_outlives_push_in_flight :
  isPushingRef pushInFlight = true
  /\ calls remoteDuringPush = calls pushInFlight ++ [CSetDateCells cellsGreen]
  /\ isPushingRef remoteDuringPush = false
  /\ isFromRealtimeRef remoteDuringPush = true
  /\ calls (run IsoDate.getTime remoteDuringPush
              [EvRender cellsGreenRed; EvElapse 5000 "2025-06-01T12:30:05.000Z"])
     = calls remoteDuringPush
  /\ timers (run IsoDate.getTime remoteDuringPush
               [EvRender cellsGreenRed; EvElapse 5000 "2025-06-01T12:30:05.000Z"])
     = []
  /\ dateCells (run IsoDate.getTime remoteDuringPush
                  [EvRender cellsGreenRed; EvElapse 5000 "2025-06-01T12:30:05.000Z"])
     = cellsGreenRed.
Proof. vm_compute. repeat split. Qed.

(** The same with the other guard: a notification applied before the
    initial pull is answered keeps the flag up past the render of its
    cells. *)
Example flag_stays_up_before_hydration :
  isFromRealtimeRef
    (run IsoDate.getTime (mounted ∅ emptyStorage)
       [EvNotify rowGreen; EvRender cellsGreen; EvFetchDone 0 (FetchOk None)])
  = true
  /\ upserts
       (run IsoDate.getTime (mounted ∅ emptyStorage)
          [EvNotify rowGreen; EvRender cellsGreen; EvFetchDone 0 (FetchOk None);
           EvRender cellsGreenRed; EvElapse 5000 "2025-06-01T12:30:05.000Z"])
     = [].
Proof. vm_compute. repeat split. Qed.

(** * Further properties of the hook and of its callers *)

(** ** Storage and failures *)

(** X1: with a storage that refuses neither reads nor writes, the Sync
    Timestamp read back is the last one written, and writing it leaves every
    other key of [localStorage] as it was. *)
Theorem sync_timestamp_last_write_wins (ls : Storage) (t1 t2 : string) :
  getItem_throws ls = false -> setItem_throws ls = false ->
  getSyncTimestamp (setSyncTimestamp t2 (setSyncTimestamp t1 ls)) = Some t2
  /\ (forall k, k <> SYNC_TS_KEY ->
        items (setSyncTimestamp t2 (setSyncTimestamp t1 ls)) !! k = items ls !! k).
Proof.
  intros Hg Hs. unfold getSyncTimestamp, setSyncTimestamp.
  rewrite Hs. cbn. rewrite ?Hs, ?Hg. cbn. rewrite ?Hg. split.
  - apply lookup_insert_eq.
  - intros k Hk. rewrite !lookup_insert_ne by congruence. reflexivity.
Qed.

Lemma sync_timestamp_last_write_wins_witness :
  getSyncTimestamp
    (setSyncTimestamp "2025-06-02T00:00:00Z"
       (setSyncTimestamp "2025-06-01T00:00:00Z" (storageWith "2025-01-01T00:00:00Z")))
  = Some "2025-06-02T00:00:00Z".
Proof.
  refine (proj1 (sync_timestamp_last_write_wins
                   (storageWith "2025-01-01T00:00:00Z")
                   "2025-06-01T00:00:00Z" "2025-06-02T00:00:00Z" _ _));
    reflexivity.
Defined.

(** A storage that refuses writes keeps what it had. *)
Lemma sync_timestamp_write_failure_keeps_old (ls : Storage) (ts : string) :
  setItem_throws ls = true ->
  getSyncTimestamp (setSyncTimestamp ts ls) = getSyncTimestamp ls.
Proof. intros H. unfold setSyncTimestamp. rewrite H. reflexivity. Qed.

Section Recovery.
Variable Date_getTime : string -> option Z.

(** X2: when no usable Sync Timestamp can be read (nothing stored, an
    empty string stored, or [getItem] throws), a pull that fetches a
    non-empty document applies it, whatever its [updated_at] is and whatever
    the local cells are. *)
Theorem pull_without_timestamp_applies
    (s : State) (i : nat) (b : bool) (d : Document) :
  nth_error (pendingPulls s) i = Some b ->
  truthy (getSyncTimestamp (localStorage s)) = false ->
  size (doc_data d) <> 0 ->
  remote_applied d s (step Date_getTime s (EvFetchDone i (FetchOk (Some d)))).
Proof.
  intros Hi Hts Hne.
  destruct (fetch_done_pending Date_getTime s i b (FetchOk (Some d)) Hi)
    as (Hc & Hd & Hl).
  pose proof (pull_resume_cases d
    (set_pendingPulls (remove_nth i (pendingPulls s)) s)) as H.
  cbv zeta in H.
  assert (Hpos : Nat.ltb 0 (size (doc_data d)) = true) by (apply Nat.ltb_lt; lia).
  rewrite Hpos in H. cbn [andb] in H.
  replace (localStorage (set_pendingPulls (remove_nth i (pendingPulls s)) s))
    with (localStorage s) in H by (destruct s; reflexivity).
  replace (calls (set_pendingPulls (remove_nth i (pendingPulls s)) s))
    with (calls s) in H by (destruct s; reflexivity).
  unfold pull_should_apply in H. rewrite Hts in H. cbn [negb orb] in H.
  unfold remote_applied in *. rewrite Hc, Hl. exact H.
Qed.

(** Field facts for a reply to a fetch. *)
Lemma fetch_done_fields (s : State) (i : nat) (r : FetchResult) :
  let s' := step Date_getTime s (EvFetchDone i r) in
  supabase s' = supabase s /\ user s' = user s /\ year s' = year s
  /\ isPushingRef s' = isPushingRef s
  /\ isFromRealtimeRef s' = isFromRealtimeRef s
  /\ timers s' = timers s /\ pendingPushes s' = pendingPushes s.
Proof.
  cbn [step]. destruct (nth_error (pendingPulls s) i) as [b |]; [| cbn; auto 10].
  unfold pullFromCloud_resume, log.
  destruct r as [[d |] | |];
    [destruct (Nat.ltb _ _); [destruct (pull_should_apply _ _ _) |] | ..];
    destruct b; destruct s; cbn; auto 10.
Qed.

(** X3: when the fetch of the mount pull fails (error reply or rejected
    promise), nothing is applied and the phase is [error], yet the initial
    pull counts as completed: the next edit is pushed once the debounce
    window has passed. *)
Theorem failed_initial_pull_unblocks_auto_push
    (s : State) (u : string) (i : nat) (r : FetchResult)
    (c : Cells) (dt : nat) (now : string) :
  timers_tracked s ->
  supabase s = true -> user s = Some u ->
  isPushingRef s = false -> isFromRealtimeRef s = false ->
  nth_error (pendingPulls s) i = Some true ->
  r = FetchError \/ r = FetchThrow ->
  size c <> 0 -> DEBOUNCE_MS <= dt ->
  nothing_applied s (step Date_getTime s (EvFetchDone i r))
  /\ syncStatus (step Date_getTime s (EvFetchDone i r)) = error
  /\ calls (run Date_getTime s [EvFetchDone i r; EvRender c; EvElapse dt now])
     = calls s ++ [CUpsert u (year s) (Object_fromEntries c) now].
Proof.
  intros Htr Hsb Hu Hip Hfr Hi Hr Hc Hdt.
  destruct (fetch_done_fields s i r) as (F1 & F2 & F3 & F4 & F5 & F6 & F7).
  set (s1 := step Date_getTime s (EvFetchDone i r)) in *.
  assert (H1 : nothing_applied s s1 /\ syncStatus s1 = error
               /\ initialPullDoneRef s1 = true).
  { subst s1. cbn [step]. rewrite Hi. unfold nothing_applied.
    destruct Hr as [-> | ->]; destruct s; cbn; auto 10. }
  destruct H1 as (Hna & Hst & Hpd).
  split; [exact Hna |]. split; [exact Hst |].
  assert (Htr1 : timers_tracked s1) by (apply timers_tracked_step; exact Htr).
  assert (Hrd : ready u s1) by (unfold ready; repeat split; congruence).
  change [EvFetchDone i r; EvRender c; EvElapse dt now]
    with ([EvFetchDone i r] ++ [EvRender c; EvElapse dt now]).
  rewrite run_app.
  change (run Date_getTime s [EvFetchDone i r]) with s1.
  destruct (edit_then_quiet Date_getTime s1 c dt now u Htr1 Hrd Hc Hdt) as (Hq & _).
  rewrite Hq, F3. destruct Hna as (-> & _). reflexivity.
Qed.

End Recovery.

(** ** Pushes in flight, cleared calendars, Sync Now *)

Lemma pushToCloud_start_calls (s : State) (u : string) (y : Z) (now : string) :
  supabase s = true ->
  calls (pushToCloud_start (Some u) y now s)
  = calls s ++ [CUpsert u y (Object_fromEntries (dateCells s)) now].
Proof.
  intros Hsb. unfold pushToCloud_start, log. rewrite Hsb.
  destruct s; reflexivity.
Qed.

Lemma autoPushEffect_pushing (s : State) :
  isPushingRef s = true -> autoPushEffect s = s.
Proof.
  intros H. unfold autoPushEffect. rewrite H.
  destruct (negb (isEnabled s)); [reflexivity |].
  destruct (negb (initialPullDoneRef s)); reflexivity.
Qed.

Lemma set_time_twice (n m : nat) (s : State) :
  set_time n (set_time m s) = set_time n s.
Proof. destruct s; reflexivity. Qed.

Section Composition.
Variable Date_getTime : string -> option Z.

(** Without a pending timer, waiting only moves the clock. *)
Lemma waiting_moves_clock_only (waits : list (nat * string)) (s : State) :
  timers s = [] ->
  exists n, run Date_getTime s (waits_events waits) = set_time n s.
Proof.
  revert s. induction waits as [| [dt now] waits IH]; intros s Ht.
  - exists (time s). destruct s; reflexivity.
  - cbn [waits_events List.map fst snd].
    change (run Date_getTime s (EvElapse dt now :: List.map _ waits))
      with (run Date_getTime (step Date_getTime s (EvElapse dt now)) (waits_events waits)).
    cbn [step]. rewrite (elapse_none s dt now Ht).
    destruct (IH (set_time (time s + dt) s)) as (n & Hn);
      [destruct s; exact Ht |].
    exists n. rewrite Hn. apply set_time_twice.
Qed.

(** X4: when an upsert fails (error reply or rejected promise) and no edit
    is pending, the hook does not try again however long one waits: no call
    leaves it, the stored Sync Timestamp is unchanged, the phase stays
    [error] and the in-flight flag is lowered. *)
Theorem failed_push_is_not_retried
    (s : State) (i : nat) (now : string) (r : UpsertResult)
    (waits : list (nat * string)) :
  nth_error (pendingPushes s) i = Some now ->
  r = UpsertError \/ r = UpsertThrow ->
  timers s = [] ->
  calls (run Date_getTime s (EvUpsertDone i r :: waits_events waits)) = calls s
  /\ localStorage (run Date_getTime s (EvUpsertDone i r :: waits_events waits))
     = localStorage s
  /\ syncStatus (run Date_getTime s (EvUpsertDone i r :: waits_events waits)) = error
  /\ isPushingRef (run Date_getTime s (EvUpsertDone i r :: waits_events waits)) = false.
Proof.
  intros Hi Hr Ht.
  change (run Date_getTime s (EvUpsertDone i r :: waits_events waits))
    with (run Date_getTime (step Date_getTime s (EvUpsertDone i r)) (waits_events waits)).
  set (s1 := step Date_getTime s (EvUpsertDone i r)).
  assert (H1 : timers s1 = [] /\ calls s1 = calls s /\ localStorage s1 = localStorage s
               /\ syncStatus s1 = error /\ isPushingRef s1 = false).
  { subst s1. cbn [step]. rewrite Hi. unfold pushToCloud_resume.
    destruct Hr as [-> | ->]; destruct s; cbn in *; auto 10. }
  destruct H1 as (Ht1 & Hc1 & Hl1 & Hs1 & Hp1).
  destruct (waiting_moves_clock_only waits s1 Ht1) as (n & ->).
  destruct s1; cbn in *. auto.
Qed.

(** X5: an edit rendered while a push is in flight creates no timer, and
    nothing pushes it later: neither waiting, nor the answer to the push in
    flight, nor more waiting sends any call. *)
Theorem edit_during_push_is_dropped
    (s : State) (c : Cells) (i : nat) (r : UpsertResult)
    (waits waits' : list (nat * string)) :
  timers_tracked s -> isPushingRef s = true ->
  calls (run Date_getTime s
           (EvRender c :: waits_events waits
            ++ EvUpsertDone i r :: waits_events waits'))
  = calls s.
Proof.
  intros Htr Hip.
  change (EvRender c :: waits_events waits ++ EvUpsertDone i r :: waits_events waits')
    with ([EvRender c] ++ (waits_events waits ++ [EvUpsertDone i r] ++ waits_events waits')).
  rewrite !run_app.
  change (run Date_getTime s [EvRender c]) with (renderCells c s).
  unfold renderCells.
  pose proof (cleanup_clears s (set_dateCells c s) Htr) as Hclr.
  pose proof (cleanup_fields (set_dateCells c s)) as Hf. cbv zeta in Hf.
  set (X := autoPushEffect_cleanup (set_dateCells c s)) in *.
  assert (Ht : timers X = []) by (apply Hclr; destruct s; reflexivity).
  destruct Hf as (_ & _ & _ & _ & _ & F6 & _ & _ & F9 & _).
  assert (HpX : isPushingRef X = true) by (rewrite F6; destruct s; exact Hip).
  assert (HcX : calls X = calls s) by (rewrite F9; destruct s; reflexivity).
  rewrite (autoPushEffect_pushing X HpX).
  destruct (waiting_moves_clock_only waits X Ht) as (n & ->).
  set (Y := run Date_getTime (set_time n X) [EvUpsertDone i r]).
  assert (HY : timers Y = [] /\ calls Y = calls s).
  { subst Y. cbn [run fold_left step].
    destruct (nth_error (pendingPushes (set_time n X)) i).
    - unfold pushToCloud_resume. destruct r; destruct X; cbn in *; auto.
    - destruct X; cbn in *; auto. }
  destruct HY as (HtY & HcY).
  rewrite (waiting_is_silent Date_getTime waits' Y HtY). exact HcY.
Qed.

(** X6: in every state reached from a mount, at most one debounce timer is
    pending, and none is while sync is disabled. *)
Theorem at_most_one_timer_pending
    (configured : bool) (u : option string) (y : Z) (cells : Cells)
    (ls : Storage) (evs : list Event) :
  length (timers (run Date_getTime (mount configured u y cells ls) evs)) <= 1
  /\ (isEnabled (run Date_getTime (mount configured u y cells ls) evs) = false ->
      timers (run Date_getTime (mount configured u y cells ls) evs) = []).
Proof.
  pose proof (timers_tracked_run Date_getTime evs _
                (timers_tracked_mount configured u y cells ls)) as H.
  unfold timers_tracked in H.
  destruct (timers _) as [| t [| t' tm]]; cbn; [auto | | contradiction].
  split; [lia |]. intros Hd. destruct H as (_ & _ & _ & _ & He & _). congruence.
Qed.

(** X11: rendering an empty calendar (as Clean All does with
    [setDateCells(new Map())]) sends nothing however long one waits, and the
    next pull that fetches a non-empty document applies it, whatever the
    timestamps are. *)
Theorem cleared_state_is_not_pushed_and_comes_back
    (s : State) (c : Cells) (waits : list (nat * string)) :
  timers_tracked s -> size c = 0 ->
  calls (run Date_getTime s (EvRender c :: waits_events waits)) = calls s
  /\ (forall i b d,
        nth_error (pendingPulls s) i = Some b -> size (doc_data d) <> 0 ->
        remote_applied d s
          (run Date_getTime s
             (EvRender c :: waits_events waits ++ [EvFetchDone i (FetchOk (Some d))]))).
Proof.
  intros Htr Hz.
  change (EvRender c :: waits_events waits) with ([EvRender c] ++ waits_events waits).
  rewrite run_app.
  change (run Date_getTime s [EvRender c]) with (renderCells c s).
  unfold renderCells.
  pose proof (cleanup_clears s (set_dateCells c s) Htr) as Hclr.
  pose proof (cleanup_fields (set_dateCells c s)) as Hf. cbv zeta in Hf.
  set (X := autoPushEffect_cleanup (set_dateCells c s)) in *.
  assert (Ht : timers X = []) by (apply Hclr; destruct s; reflexivity).
  destruct Hf as (_ & _ & _ & F4 & _ & _ & _ & _ & F9 & _ & F11 & _ & F13 & _).
  assert (HdX : dateCells X = c) by (rewrite F4; destruct s; reflexivity).
  assert (HcX : calls X = calls s) by (rewrite F9; destruct s; reflexivity).
  assert (HlX : localStorage X = localStorage s) by (rewrite F11; destruct s; reflexivity).
  assert (HpX : pendingPulls X = pendingPulls s) by (rewrite F13; destruct s; reflexivity).
  destruct (autoPushEffect_empty X) as (A1 & A2); [rewrite HdX; exact Hz |].
  set (Y := autoPushEffect X) in *.
  assert (HY : dateCells Y = c /\ localStorage Y = localStorage s
               /\ pendingPulls Y = pendingPulls s).
  { subst Y. unfold autoPushEffect.
    destruct (negb (isEnabled X)); [auto |].
    destruct (negb (initialPullDoneRef X)); [auto |].
    destruct (isPushingRef X); [auto |].
    destruct (isFromRealtimeRef X); [destruct X; cbn in *; auto |].
    rewrite HdX, Hz. cbn. auto. }
  destruct HY as (HdY & HlY & HpY).
  assert (HtY : timers Y = []) by congruence.
  split.
  - rewrite (waiting_is_silent Date_getTime waits Y HtY). congruence.
  - intros i b d Hi Hne.
    change (EvRender c :: waits_events waits ++ [EvFetchDone i (FetchOk (Some d))])
      with ([EvRender c] ++ (waits_events waits ++ [EvFetchDone i (FetchOk (Some d))])).
    rewrite !run_app.
    change (run Date_getTime s [EvRender c]) with Y.
    destruct (waiting_moves_clock_only waits Y HtY) as (n & ->).
    set (W := set_time n Y).
    assert (HW : dateCells W = c /\ localStorage W = localStorage s
                 /\ pendingPulls W = pendingPulls s /\ calls W = calls s).
    { subst W. destruct Y; cbn in *. repeat split; congruence. }
    destruct HW as (HdW & HlW & HpW & HcW).
    change (run Date_getTime W [EvFetchDone i (FetchOk (Some d))])
      with (step Date_getTime W (EvFetchDone i (FetchOk (Some d)))).
    assert (HiW : nth_error (pendingPulls W) i = Some b) by congruence.
    destruct (fetch_done_pending Date_getTime W i b (FetchOk (Some d)) HiW)
      as (Hc & _ & Hl).
    pose proof (pull_resume_cases d
      (set_pendingPulls (remove_nth i (pendingPulls W)) W)) as H.
    cbv zeta in H.
    assert (Hpos : Nat.ltb 0 (size (doc_data d)) = true) by (apply Nat.ltb_lt; lia).
    rewrite Hpos in H. cbn [andb] in H.
    replace (dateCells (set_pendingPulls (remove_nth i (pendingPulls W)) W))
      with (dateCells W) in H by (destruct W; reflexivity).
    replace (localStorage (set_pendingPulls (remove_nth i (pendingPulls W)) W))
      with (localStorage W) in H by (destruct W; reflexivity).
    replace (calls (set_pendingPulls (remove_nth i (pendingPulls W)) W))
      with (calls W) in H by (destruct W; reflexivity).
    unfold pull_should_apply in H. rewrite HdW, Hz in H. cbn [Nat.eqb] in H.
    rewrite orb_true_r in H.
    unfold remote_applied in *. rewrite Hc, Hl.
    destruct H as (H1 & H2). rewrite H1, H2.
    split; [rewrite <- HcW | rewrite <- HlW]; reflexivity.
Qed.

(** X12: Sync Now ([await pullFromCloud(); await pushToCloud()], no render
    in between) sends one fetch and then one upsert, whatever the fetch
    returns (a document, none, an error, a rejection); the upsert carries
    the cells of the last render. *)
Theorem sync_now_pushes_last_rendered_state
    (s : State) (u : string) (r : FetchResult) (now : string) :
  supabase s = true -> user s = Some u ->
  upserts (run Date_getTime s (handleSyncNow r now s))
  = upserts s ++ [CUpsert u (year s) (Object_fromEntries (dateCells s)) now]
  /\ List.filter is_fetch (calls (run Date_getTime s (handleSyncNow r now s)))
     = List.filter is_fetch (calls s) ++ [CFetch u (year s)].
Proof.
  intros Hsb Hu. unfold handleSyncNow. cbn [run fold_left].
  set (s1 := step Date_getTime s EvPull).
  assert (H1 : pendingPulls s1 = pendingPulls s ++ [false]
               /\ calls s1 = calls s ++ [CFetch u (year s)]
               /\ supabase s1 = true /\ user s1 = Some u /\ year s1 = year s
               /\ dateCells s1 = dateCells s).
  { subst s1. cbn [step]. unfold pullFromCloud_start, log. rewrite Hsb, Hu.
    destruct s; cbn in *. auto 10. }
  destruct H1 as (Hp1 & Hc1 & Hsb1 & Hu1 & Hy1 & Hd1).
  set (s2 := step Date_getTime s1 (EvFetchDone (length (pendingPulls s)) r)).
  assert (Hi : nth_error (pendingPulls s1) (length (pendingPulls s)) = Some false).
  { rewrite Hp1. rewrite nth_error_app2 by lia. rewrite Nat.sub_diag. reflexivity. }
  assert (H2 : supabase s2 = true /\ user s2 = Some u /\ year s2 = year s
               /\ dateCells s2 = dateCells s
               /\ (calls s2 = calls s1
                   \/ exists m, calls s2 = calls s1 ++ [CSetDateCells m])).
  { subst s2. cbn [step]. rewrite Hi. unfold pullFromCloud_resume, log.
    destruct r as [[d |] | |];
      [destruct (Nat.ltb _ _); [destruct (pull_should_apply _ _ _) |] | ..];
      destruct s1; cbn in *; subst; repeat split; eauto. }
  destruct H2 as (Hsb2 & Hu2 & Hy2 & Hd2 & Hc2).
  clearbody s2. cbn [step]. rewrite Hu2, Hy2. unfold upserts.
  rewrite (pushToCloud_start_calls s2 u (year s) now Hsb2), Hd2.
  destruct Hc2 as [Hc2 | (m & Hc2)]; rewrite Hc2, Hc1;
    rewrite !List.filter_app; cbn; rewrite ?app_nil_r; auto.
Qed.

End Composition.

(** ** Payloads of the upserts *)

Ltac engine_unfold :=
  unfold renderCells, rerunEffects, autoPushEffect, autoPushEffect_cleanup,
    realtimeEffect, realtimeEffect_cleanup, pullEffect, pullFromCloud_start,
    pullFromCloud_resume, pushToCloud_start, pushToCloud_resume,
    setTimeout_push, clearTimeout, log, isEnabled.

Ltac split_guards :=
  repeat (match goal with
          | |- context [if ?b then _ else _] => is_var b; destruct b
          | |- context [match ?x with Some _ => _ | None => _ end] =>
              is_var x; destruct x
          | |- context [if ?b then _ else _] =>
              lazymatch b with
              | context [if _ then _ else _] => fail
              | context [match _ with Some _ => _ | None => _ end] => fail
              | _ => destruct b
              end
          end; cbn).

(** One effect or callback at a time: unfold it, name the fields, split
    on its guards. *)
Ltac engine_cases s := engine_unfold; destruct s; cbn; split_guards.

Ltac filter_done :=
  rewrite ?List.filter_app; cbn; rewrite ?app_nil_r; auto.

Lemma static_trans (s1 s2 s3 : State) :
  same_static_view s1 s2 -> same_static_view s2 s3 -> same_static_view s1 s3.
Proof.
  unfold same_static_view.
  intros (-> & -> & -> & -> & ->) (-> & -> & -> & -> & ->). auto.
Qed.

Lemma static_realtimeEffect_cleanup s : same_static_view s (realtimeEffect_cleanup s).
Proof. unfold same_static_view, upserts. engine_cases s; repeat split; filter_done. Qed.

Lemma static_autoPushEffect_cleanup s : same_static_view s (autoPushEffect_cleanup s).
Proof. unfold same_static_view, upserts. engine_cases s; repeat split; filter_done. Qed.

Lemma static_pullEffect s : same_static_view s (pullEffect s).
Proof. unfold same_static_view, upserts. engine_cases s; repeat split; filter_done. Qed.

Lemma static_realtimeEffect s : same_static_view s (realtimeEffect s).
Proof. unfold same_static_view, upserts. engine_cases s; repeat split; filter_done. Qed.

Lemma static_autoPushEffect s : same_static_view s (autoPushEffect s).
Proof. unfold same_static_view, upserts. engine_cases s; repeat split; filter_done. Qed.

Lemma static_rerunEffects s : same_static_view s (rerunEffects s).
Proof.
  unfold rerunEffects.
  eapply static_trans; [apply static_realtimeEffect_cleanup |].
  eapply static_trans; [apply static_autoPushEffect_cleanup |].
  eapply static_trans; [apply static_pullEffect |].
  eapply static_trans; [apply static_realtimeEffect |].
  apply static_autoPushEffect.
Qed.

Lemma upserts_rerunEffects (s : State) : upserts (rerunEffects s) = upserts s.
Proof. apply static_rerunEffects. Qed.

Lemma calls_renderCells (c : Cells) (s : State) :
  calls (renderCells c s) = calls s.
Proof.
  unfold renderCells.
  destruct (cleanup_fields (set_dateCells c s)) as (_ & _ & _ & _ & _ & _ & _ & _ & F9 & _).
  transitivity (calls (autoPushEffect_cleanup (set_dateCells c s))).
  - generalize (autoPushEffect_cleanup (set_dateCells c s)). intros X.
    engine_cases X; reflexivity.
  - rewrite F9. destruct s; reflexivity.
Qed.

Lemma upserts_mount configured u y cells ls :
  upserts (mount configured u y cells ls) = [].
Proof.
  unfold mount.
  destruct (static_autoPushEffect (realtimeEffect (pullEffect (initial configured u y cells ls))))
    as (_ & _ & _ & _ & ->).
  destruct (static_realtimeEffect (pullEffect (initial configured u y cells ls)))
    as (_ & _ & _ & _ & ->).
  destruct (static_pullEffect (initial configured u y cells ls))
    as (_ & _ & _ & _ & ->).
  reflexivity.
Qed.

Section Payloads.
Variable Date_getTime : string -> option Z.

(** Unless the host pushes by itself, a step adds at most one upsert, of
    the cells of the last render, and those are not empty. *)
Lemma step_upserts (s : State) (e : Event) :
  timers_tracked s -> is_explicit_push e = false ->
  upserts (step Date_getTime s e) = upserts s
  \/ exists u now,
       upserts (step Date_getTime s e)
       = upserts s ++ [CUpsert u (year s) (Object_fromEntries (dateCells s)) now]
       /\ size (dateCells s) <> 0.
Proof.
  intros Htr Hpush.
  destruct e
    as [c | y | u | dt now | now | | i r | i r | row | su sy snow | su sy];
    cbn [step]; try discriminate.
  - left. unfold upserts. rewrite calls_renderCells. reflexivity.
  - left. destruct (Z.eqb y (year s)); [reflexivity |].
    rewrite upserts_rerunEffects. destruct s; reflexivity.
  - left. assert (H : upserts (rerunEffects (set_user u s)) = upserts s)
      by (rewrite upserts_rerunEffects; destruct s; reflexivity).
    destruct (user s), u; auto.
  - unfold timers_tracked in Htr.
    destruct (timers s) as [| t [| t' tm]] eqn:Ht; [| | contradiction].
    + left. rewrite (elapse_none s dt now Ht). destruct s; reflexivity.
    + destruct (Nat.le_gt_cases (t_deadline t) (time s + dt)) as [Hle | Hgt].
      * rewrite (elapse_fire s dt now t Ht Hle).
        destruct Htr as (_ & _ & Hu & Hy & _ & Hne). rewrite Hu, Hy.
        unfold pushToCloud_start, log, upserts, Object_fromEntries.
        destruct (supabase s) eqn:Hsb; [destruct (user s) as [uid |] eqn:Huid |];
          destruct s; cbn in *; subst; cbn; auto.
        right. exists uid, now. rewrite List.filter_app. cbn. auto.
      * left. rewrite (elapse_wait s dt now t Ht Hgt). destruct s; reflexivity.
  - left. unfold upserts, pullFromCloud_start, log.
    destruct (negb (supabase s)); [reflexivity |].
    destruct (user s); [| reflexivity]. destruct s; cbn. filter_done.
  - left. destruct (nth_error (pendingPushes s) i); [| reflexivity].
    unfold pushToCloud_resume, upserts. destruct r; destruct s; reflexivity.
  - left. destruct (nth_error (pendingPulls s) i) as [b |]; [| reflexivity].
    destruct (pullFromCloud_resume_unhydrated r
                (set_pendingPulls (remove_nth i (pendingPulls s)) s)) as (A1 & _).
    transitivity (upserts (pullFromCloud_resume r
                    (set_pendingPulls (remove_nth i (pendingPulls s)) s))).
    + destruct b; [| reflexivity]. destruct (pullFromCloud_resume r _); reflexivity.
    + rewrite A1. destruct s; reflexivity.
  - left. destruct (channel s) as [ch |]; [| reflexivity].
    apply (onChange_unhydrated Date_getTime ch row s).
  - left. unfold upserts, pullFromCloud_start, log.
    destruct (negb (supabase s)); [reflexivity |].
    destruct su; [| reflexivity]. destruct s; cbn. filter_done.
Qed.

(** X7: from a mount, as long as the host never calls [pushToCloud()]
    itself, every upsert the hook sends carries at least one date cell. *)
Theorem auto_push_never_sends_empty_payload
    (configured : bool) (u : option string) (y : Z) (cells : Cells)
    (ls : Storage) (evs : list Event) :
  forallb (fun e => negb (is_explicit_push e)) evs = true ->
  Forall has_cells (calls (run Date_getTime (mount configured u y cells ls) evs)).
Proof.
  intros Hevs.
  assert (H : Forall has_cells
                (upserts (run Date_getTime (mount configured u y cells ls) evs))).
  { pose proof (timers_tracked_mount configured u y cells ls) as Htr.
    pose proof (upserts_mount configured u y cells ls) as H0.
    assert (Hf : Forall has_cells (upserts (mount configured u y cells ls)))
      by (rewrite H0; constructor).
    clear H0. revert Htr Hf. generalize (mount configured u y cells ls) as s.
    induction evs as [| e evs IH]; intros s Htr Hf; [exact Hf |].
    cbn [forallb] in Hevs. apply andb_prop in Hevs. destruct Hevs as (He & Hevs).
    apply negb_true_iff in He.
    change (run Date_getTime s (e :: evs))
      with (run Date_getTime (step Date_getTime s e) evs).
    apply (IH Hevs); [apply timers_tracked_step; exact Htr |].
    destruct (step_upserts s e Htr He) as [-> | (uid & now & -> & Hne)]; [exact Hf |].
    apply Forall_app. split; [exact Hf |]. constructor; [exact Hne | constructor]. }
  rewrite List.Forall_forall in *. intros c Hin.
  destruct c; try exact I.
  apply (H (CUpsert user_id y0 data updated_at)).
  unfold upserts. apply List.filter_In. split; [exact Hin | reflexivity].
Qed.

End Payloads.

(** ** Phase and sync indicator *)

Lemma phase_frame (s s' : State) :
  same_phase_view s s' -> phase_ok s -> phase_ok s'.
Proof. unfold same_phase_view, phase_ok. intros (-> & -> & ->). auto. Qed.

Lemma phase_pushToCloud_start u y now s :
  phase_ok s -> phase_ok (pushToCloud_start u y now s).
Proof.
  unfold pushToCloud_start, log. intros H.
  destruct (negb (supabase s)); [exact H |]. destruct u; [| exact H].
  destruct s; unfold phase_ok in *; cbn in *.
  repeat split; try discriminate. intros _ Hn.
  apply app_eq_nil in Hn. destruct Hn; discriminate.
Qed.

Lemma phase_pullFromCloud_start b u y s :
  phase_ok s -> phase_ok (pullFromCloud_start b u y s).
Proof.
  unfold pullFromCloud_start, log. intros H.
  destruct (negb (supabase s)); [exact H |]. destruct u; [| exact H].
  destruct s; unfold phase_ok in *; cbn in *.
  repeat split; try discriminate. intros _ Hn.
  apply app_eq_nil in Hn. destruct Hn; discriminate.
Qed.

Lemma phase_pullEffect s : phase_ok s -> phase_ok (pullEffect s).
Proof.
  unfold pullEffect. intros H. destruct (negb (isEnabled s)); [exact H |].
  apply phase_pullFromCloud_start. destruct s; exact H.
Qed.

Lemma phase_view_realtimeEffect_cleanup s :
  same_phase_view s (realtimeEffect_cleanup s).
Proof. unfold same_phase_view. engine_cases s; auto. Qed.

Lemma phase_view_realtimeEffect s : same_phase_view s (realtimeEffect s).
Proof. unfold same_phase_view. engine_cases s; auto. Qed.

Lemma phase_view_autoPushEffect_cleanup s :
  same_phase_view s (autoPushEffect_cleanup s).
Proof. unfold same_phase_view. engine_cases s; auto. Qed.

Lemma phase_view_autoPushEffect s : same_phase_view s (autoPushEffect s).
Proof. unfold same_phase_view. engine_cases s; auto. Qed.

Lemma phase_rerunEffects s : phase_ok s -> phase_ok (rerunEffects s).
Proof.
  intros H. unfold rerunEffects.
  eapply phase_frame; [apply phase_view_autoPushEffect |].
  eapply phase_frame; [apply phase_view_realtimeEffect |].
  apply phase_pullEffect.
  eapply phase_frame; [apply phase_view_autoPushEffect_cleanup |].
  eapply phase_frame; [apply phase_view_realtimeEffect_cleanup |].
  exact H.
Qed.

Lemma phase_fired (now : string) (fired : list Timer) (s : State) :
  phase_ok s ->
  phase_ok (fold_left (fun acc t => pushToCloud_start (t_user t) (t_year t) now acc)
              fired s).
Proof.
  revert s. induction fired as [| t fired IH]; intros s H; [exact H |].
  cbn. apply IH. apply phase_pushToCloud_start. exact H.
Qed.

Lemma phase_mount configured u y cells ls :
  phase_ok (mount configured u y cells ls).
Proof.
  unfold mount.
  eapply phase_frame; [apply phase_view_autoPushEffect |].
  eapply phase_frame; [apply phase_view_realtimeEffect |].
  apply phase_pullEffect. unfold phase_ok, initial. cbn.
  repeat split; discriminate.
Qed.

Section Phase.
Variable Date_getTime : string -> option Z.

Lemma phase_step (s : State) (e : Event) :
  phase_ok s -> phase_ok (step Date_getTime s e).
Proof.
  intros H. destruct e
    as [c | y | u | dt now | now | | i r | i r | row | su sy snow | su sy];
    cbn [step].
  - unfold renderCells.
    eapply phase_frame; [apply phase_view_autoPushEffect |].
    eapply phase_frame; [apply phase_view_autoPushEffect_cleanup |].
    destruct s; exact H.
  - destruct (Z.eqb y (year s)); [exact H |].
    apply phase_rerunEffects. destruct s; exact H.
  - assert (H' : phase_ok (rerunEffects (set_user u s)))
      by (apply phase_rerunEffects; destruct s; exact H).
    destruct (user s), u; auto.
  - unfold elapse. apply phase_fired. destruct s; exact H.
  - apply phase_pushToCloud_start. exact H.
  - apply phase_pullFromCloud_start. exact H.
  - destruct (nth_error (pendingPushes s) i); [| exact H].
    unfold pushToCloud_resume, phase_ok.
    destruct r; destruct s; cbn; repeat split; discriminate.
  - destruct (nth_error (pendingPulls s) i) as [b |]; [| exact H].
    unfold pullFromCloud_resume, log, phase_ok.
    destruct r as [[d |] | |];
      [destruct (Nat.ltb _ _); [destruct (pull_should_apply _ _ _) |] | ..];
      destruct b; destruct s; cbn; repeat split; discriminate.
  - destruct (channel s) as [ch |]; [| exact H].
    destruct (onChange_cases Date_getTime ch row s) as [-> | ->]; [exact H |].
    destruct s; exact H.
  - apply phase_pushToCloud_start. exact H.
  - apply phase_pullFromCloud_start. exact H.
Qed.

Lemma phase_run (evs : list Event) (s : State) :
  phase_ok s -> phase_ok (run Date_getTime s evs).
Proof.
  revert s. induction evs as [| e evs IH]; intros s H; [exact H |].
  change (run Date_getTime s (e :: evs))
    with (run Date_getTime (step Date_getTime s e) evs).
  apply IH. apply phase_step. exact H.
Qed.

(** X13: in every state reached from a mount the phase is never
    [offline], it is [pulling] only while a fetch awaits its answer and
    [pushing] only while an upsert does. *)
Theorem phase_reflects_requests_in_flight
    (configured : bool) (u : option string) (y : Z) (cells : Cells)
    (ls : Storage) (evs : list Event) :
  syncStatus (run Date_getTime (mount configured u y cells ls) evs) <> offline
  /\ (syncStatus (run Date_getTime (mount configured u y cells ls) evs) = pulling ->
      pendingPulls (run Date_getTime (mount configured u y cells ls) evs) <> [])
  /\ (syncStatus (run Date_getTime (mount configured u y cells ls) evs) = pushing ->
      pendingPushes (run Date_getTime (mount configured u y cells ls) evs) <> []).
Proof. apply (phase_run evs). apply phase_mount. Qed.

(** X14: fed with the hook's user and phase, [renderSyncIndicator] shows
    something for every signed-in user in every state reached from a mount,
    always with a tooltip, and shows the syncing icon only while a fetch or
    an upsert awaits its answer. *)
Theorem sync_indicator_is_truthful
    (configured : bool) (u : option string) (y : Z) (cells : Cells)
    (ls : Storage) (evs : list Event) (uid : string) :
  user (run Date_getTime (mount configured u y cells ls) evs) = Some uid ->
  exists ind,
    renderSyncIndicator
      (user (run Date_getTime (mount configured u y cells ls) evs))
      (syncStatus (run Date_getTime (mount configured u y cells ls) evs))
    = Some ind
    /\ tooltipText ind <> ""
    /\ (iconStatus ind = IconSyncing ->
        pendingPulls (run Date_getTime (mount configured u y cells ls) evs) <> []
        \/ pendingPushes (run Date_getTime (mount configured u y cells ls) evs) <> []).
Proof.
  intros Hu.
  destruct (phase_run evs _ (phase_mount configured u y cells ls))
    as (Hoff & Hpull & Hpush).
  rewrite Hu. unfold renderSyncIndicator.
  destruct (syncStatus _) eqn:Hst; cbn; try contradiction;
    eexists; (split; [reflexivity |]); cbn; (split; [discriminate |]);
    intros Hi; try discriminate; auto.
Qed.

End Phase.

(** ** Unconfigured client, subscriptions, own echo *)

Lemma unconfigured_mount u y cells ls :
  unconfigured ls (mount false u y cells ls).
Proof. unfold unconfigured. cbn. auto 10. Qed.

Lemma isEnabled_unconfigured (s : State) : supabase s = false -> isEnabled s = false.
Proof. intros H. unfold isEnabled. rewrite H. reflexivity. Qed.

Lemma unconfigured_autoPushEffect_cleanup ls s :
  unconfigured ls s -> unconfigured ls (autoPushEffect_cleanup s).
Proof.
  unfold unconfigured, autoPushEffect_cleanup, clearTimeout.
  intros (Hsb & Hc & Hst & Hpl & Hps & Ht & Hch & Hl).
  destruct (autoPushCleanup s); [destruct (debounceTimerRef s) |];
    destruct s; cbn in *; subst; auto 10.
Qed.

Lemma unconfigured_rerunEffects ls s :
  unconfigured ls s -> unconfigured ls (rerunEffects s).
Proof.
  intros H. unfold rerunEffects.
  assert (H1 : realtimeEffect_cleanup s = s).
  { unfold realtimeEffect_cleanup. destruct H as (_ & _ & _ & _ & _ & _ & -> & _).
    reflexivity. }
  rewrite H1.
  pose proof (unconfigured_autoPushEffect_cleanup ls s H) as H2.
  set (s2 := autoPushEffect_cleanup s) in *.
  assert (Hsb : supabase s2 = false) by apply H2.
  assert (H3 : pullEffect s2 = s2).
  { unfold pullEffect. rewrite (isEnabled_unconfigured s2 Hsb). reflexivity. }
  assert (H4 : realtimeEffect s2 = s2).
  { unfold realtimeEffect. rewrite Hsb. reflexivity. }
  rewrite H3, H4, (autoPushEffect_disabled s2 (isEnabled_unconfigured s2 Hsb)).
  exact H2.
Qed.

Lemma ChannelName_eqb_refl n : ChannelName_eqb n n = true.
Proof. unfold ChannelName_eqb. rewrite Z.eqb_refl, Nat.eqb_refl. reflexivity. Qed.

Lemma track_filter (cs : list Call) (acc : list ChannelName) :
  fold_left track_channel cs acc
  = fold_left track_channel (List.filter is_channel_call cs) acc.
Proof.
  revert acc. induction cs as [| c cs IH]; intros acc; [reflexivity |].
  destruct c; cbn; apply IH.
Qed.

Lemma ids_filter (cs : list Call) :
  subscribed_ids cs = subscribed_ids (List.filter is_channel_call cs).
Proof.
  unfold subscribed_ids.
  induction cs as [| c cs IH]; [reflexivity |].
  destruct c; cbn; congruence.
Qed.

Lemma channels_frame (s s' : State) :
  same_channel_view s s' -> channels_ok s -> channels_ok s'.
Proof.
  unfold same_channel_view, channels_ok, live_channels.
  intros (Hc & -> & ->).
  rewrite (track_filter (calls s')), (ids_filter (calls s')), Hc.
  rewrite <- track_filter, <- ids_filter. auto.
Qed.

Lemma channel_view_refl s : same_channel_view s s.
Proof. unfold same_channel_view. auto. Qed.

Lemma channel_view_trans s1 s2 s3 :
  same_channel_view s1 s2 -> same_channel_view s2 s3 -> same_channel_view s1 s3.
Proof. unfold same_channel_view. intros (-> & -> & ->) (-> & -> & ->). auto. Qed.

Lemma channel_view_autoPushEffect s : same_channel_view s (autoPushEffect s).
Proof. unfold same_channel_view. engine_cases s; auto. Qed.

Lemma channel_view_autoPushEffect_cleanup s :
  same_channel_view s (autoPushEffect_cleanup s).
Proof. unfold same_channel_view. engine_cases s; auto. Qed.

Lemma channel_view_pullFromCloud_start b u y s :
  same_channel_view s (pullFromCloud_start b u y s).
Proof.
  unfold same_channel_view, pullFromCloud_start, log.
  destruct (negb (supabase s)); [auto |]. destruct u; [| auto].
  destruct s; cbn. repeat split. filter_done.
Qed.

Lemma channel_view_pullEffect s : same_channel_view s (pullEffect s).
Proof.
  unfold pullEffect. destruct (negb (isEnabled s)); [apply channel_view_refl |].
  eapply channel_view_trans; [| apply channel_view_pullFromCloud_start].
  unfold same_channel_view. destruct s; auto.
Qed.

Lemma channel_view_pushToCloud_start u y now s :
  same_channel_view s (pushToCloud_start u y now s).
Proof.
  unfold same_channel_view, pushToCloud_start, log.
  destruct (negb (supabase s)); [auto |]. destruct u; [| auto].
  destruct s; cbn. repeat split. filter_done.
Qed.

Lemma channel_view_fired (now : string) (fired : list Timer) (s : State) :
  same_channel_view s
    (fold_left (fun acc t => pushToCloud_start (t_user t) (t_year t) now acc) fired s).
Proof.
  revert s. induction fired as [| t fired IH]; intros s; [apply channel_view_refl |].
  cbn. eapply channel_view_trans; [apply channel_view_pushToCloud_start | apply IH].
Qed.

Lemma channels_realtimeEffect_cleanup s :
  channels_ok s ->
  channels_ok (realtimeEffect_cleanup s) /\ channel (realtimeEffect_cleanup s) = None.
Proof.
  unfold channels_ok, realtimeEffect_cleanup, log, live_channels.
  intros (Hl & Hi & Hn). destruct (channel s) as [ch |] eqn:Hch.
  - destruct s; cbn in *. subst. split; [| reflexivity].
    rewrite fold_left_app, Hl. cbn. rewrite ChannelName_eqb_refl. cbn.
    unfold subscribed_ids in *. rewrite flat_map_app. cbn. rewrite app_nil_r. auto.
  - rewrite Hch. auto.
Qed.

Lemma channels_realtimeEffect s :
  channels_ok s -> channel s = None -> channels_ok (realtimeEffect s).
Proof.
  unfold channels_ok, realtimeEffect, log, live_channels.
  intros (Hl & Hi & Hn) Hch. rewrite Hch in Hl.
  destruct (negb (supabase s)); [rewrite Hch; auto |].
  destruct (user s) as [uid |]; [| rewrite Hch; auto].
  destruct (negb (isEnabled s)); [rewrite Hch; auto |].
  destruct s; cbn in *. subst.
  rewrite fold_left_app, Hl. cbn. split; [reflexivity |].
  unfold subscribed_ids in *. rewrite flat_map_app. cbn. split.
  - apply Forall_app. split.
    + eapply Forall_impl; [exact Hi |]. cbn. intros; lia.
    + constructor; [lia | constructor].
  - apply NoDup_app. split; [exact Hn |]. split.
    + intros x Hx Hx'. apply list_elem_of_In in Hx, Hx'.
      rewrite List.Forall_forall in Hi. specialize (Hi x Hx).
      destruct Hx' as [<- | []]. lia.
    + apply NoDup_singleton.
Qed.

Lemma channels_rerunEffects s : channels_ok s -> channels_ok (rerunEffects s).
Proof.
  intros H. unfold rerunEffects.
  destruct (channels_realtimeEffect_cleanup s H) as (H1 & Hn1).
  set (s1 := realtimeEffect_cleanup s) in *.
  pose proof (channel_view_autoPushEffect_cleanup s1) as V2.
  set (s2 := autoPushEffect_cleanup s1) in *.
  pose proof (channel_view_pullEffect s2) as V3.
  set (s3 := pullEffect s2) in *.
  eapply channels_frame; [apply channel_view_autoPushEffect |].
  apply channels_realtimeEffect.
  - eapply channels_frame; [exact V3 |].
    eapply channels_frame; [exact V2 |]. exact H1.
  - destruct V2 as (_ & V2 & _). destruct V3 as (_ & V3 & _). congruence.
Qed.

Lemma channels_mount configured u y cells ls :
  channels_ok (mount configured u y cells ls).
Proof.
  unfold mount.
  eapply channels_frame; [apply channel_view_autoPushEffect |].
  pose proof (channel_view_pullEffect (initial configured u y cells ls)) as V.
  apply channels_realtimeEffect.
  - eapply channels_frame; [exact V |].
    unfold channels_ok, initial. cbn. repeat split; constructor.
  - destruct V as (_ & -> & _). reflexivity.
Qed.

Section Channels.
Variable Date_getTime : string -> option Z.

Lemma unconfigured_step (ls : Storage) (s : State) (e : Event) :
  unconfigured ls s -> unconfigured ls (step Date_getTime s e).
Proof.
  intros H. destruct e
    as [c | y | u | dt now | now | | i r | i r | row | su sy snow | su sy];
    cbn [step].
  - unfold renderCells.
    assert (H1 : unconfigured ls (autoPushEffect_cleanup (set_dateCells c s))).
    { apply unconfigured_autoPushEffect_cleanup. destruct s; exact H. }
    rewrite autoPushEffect_disabled; [exact H1 |].
    apply isEnabled_unconfigured. apply H1.
  - destruct (Z.eqb y (year s)); [exact H |].
    apply unconfigured_rerunEffects. destruct s; exact H.
  - assert (H' : unconfigured ls (rerunEffects (set_user u s)))
      by (apply unconfigured_rerunEffects; destruct s; exact H).
    destruct (user s), u; auto.
  - destruct H as (Hsb & Hc & Hst & Hpl & Hps & Ht & Hch & Hl).
    rewrite (elapse_none s dt now Ht). unfold unconfigured.
    destruct s; cbn in *; auto 10.
  - unfold pushToCloud_start. rewrite (proj1 H). exact H.
  - unfold pullFromCloud_start. rewrite (proj1 H). exact H.
  - destruct H as (Hsb & Hc & Hst & Hpl & Hps & Ht & Hch & Hl).
    rewrite Hps. destruct i; cbn; unfold unconfigured; auto 10.
  - destruct H as (Hsb & Hc & Hst & Hpl & Hps & Ht & Hch & Hl).
    rewrite Hpl. destruct i; cbn; unfold unconfigured; auto 10.
  - destruct H as (Hsb & Hc & Hst & Hpl & Hps & Ht & Hch & Hl).
    rewrite Hch. unfold unconfigured; auto 10.
  - unfold pushToCloud_start. rewrite (proj1 H). exact H.
  - unfold pullFromCloud_start. rewrite (proj1 H). exact H.
Qed.

(** X9: a hook mounted without a configured client ([supabase === null])
    never calls anything, whatever happens afterwards, sign-ins included:
    its log stays empty, its phase [idle], [localStorage] untouched. *)
Theorem unconfigured_client_never_calls_out
    (u : option string) (y : Z) (cells : Cells) (ls : Storage)
    (evs : list Event) :
  calls (run Date_getTime (mount false u y cells ls) evs) = []
  /\ syncStatus (run Date_getTime (mount false u y cells ls) evs) = idle
  /\ localStorage (run Date_getTime (mount false u y cells ls) evs) = ls.
Proof.
  assert (H : unconfigured ls (run Date_getTime (mount false u y cells ls) evs)).
  { pose proof (unconfigured_mount u y cells ls) as H.
    revert H. generalize (mount false u y cells ls) as s.
    induction evs as [| e evs IH]; intros s H; [exact H |].
    change (run Date_getTime s (e :: evs))
      with (run Date_getTime (step Date_getTime s e) evs).
    apply IH. apply unconfigured_step. exact H. }
  destruct H as (_ & Hc & Hst & _ & _ & _ & _ & Hl). auto.
Qed.

Lemma channels_step (s : State) (e : Event) :
  channels_ok s -> channels_ok (step Date_getTime s e).
Proof.
  intros H. destruct e
    as [c | y | u | dt now | now | | i r | i r | row | su sy snow | su sy];
    cbn [step].
  - unfold renderCells.
    eapply channels_frame; [apply channel_view_autoPushEffect |].
    eapply channels_frame; [apply channel_view_autoPushEffect_cleanup |].
    destruct s; exact H.
  - destruct (Z.eqb y (year s)); [exact H |].
    apply channels_rerunEffects. destruct s; exact H.
  - assert (H' : channels_ok (rerunEffects (set_user u s)))
      by (apply channels_rerunEffects; destruct s; exact H).
    destruct (user s), u; auto.
  - unfold elapse.
    eapply channels_frame; [apply channel_view_fired |]. destruct s; exact H.
  - eapply channels_frame; [apply channel_view_pushToCloud_start | exact H].
  - eapply channels_frame; [apply channel_view_pullFromCloud_start | exact H].
  - destruct (nth_error (pendingPushes s) i); [| exact H].
    eapply channels_frame; [| exact H].
    unfold same_channel_view, pushToCloud_resume. destruct r; destruct s; cbn; auto.
  - destruct (nth_error (pendingPulls s) i) as [b |]; [| exact H].
    eapply channels_frame; [| exact H].
    unfold same_channel_view, pullFromCloud_resume, log.
    destruct r as [[d |] | |];
      [destruct (Nat.ltb _ _); [destruct (pull_should_apply _ _ _) |] | ..];
      destruct b; destruct s; cbn; repeat split; filter_done.
  - destruct (channel s) as [ch |] eqn:Hch; [| exact H].
    eapply channels_frame; [| exact H].
    destruct (onChange_cases Date_getTime ch row s) as [-> | ->];
      [apply channel_view_refl |].
    unfold same_channel_view, log. destruct s; cbn. repeat split. filter_done.
  - eapply channels_frame; [apply channel_view_pushToCloud_start | exact H].
  - eapply channels_frame; [apply channel_view_pullFromCloud_start | exact H].
Qed.

(** X8: in every state reached from a mount, at most one channel is
    subscribed and not yet removed, and no channel suffix (the value of
    [++channelIdRef.current]) is ever used twice. *)
Theorem one_subscription_at_a_time
    (configured : bool) (u : option string) (y : Z) (cells : Cells)
    (ls : Storage) (evs : list Event) :
  length (live_channels (calls (run Date_getTime (mount configured u y cells ls) evs)))
    <= 1
  /\ NoDup (subscribed_ids (calls (run Date_getTime (mount configured u y cells ls) evs))).
Proof.
  assert (H : channels_ok (run Date_getTime (mount configured u y cells ls) evs)).
  { pose proof (channels_mount configured u y cells ls) as H.
    revert H. generalize (mount configured u y cells ls) as s.
    induction evs as [| e evs IH]; intros s H; [exact H |].
    change (run Date_getTime s (e :: evs))
      with (run Date_getTime (step Date_getTime s e) evs).
    apply IH. apply channels_step. exact H. }
  destruct H as (Hl & _ & Hn). split; [| exact Hn].
  rewrite Hl. destruct (channel _); cbn; lia.
Qed.

(** X10: once the answer to a successful upsert has stored its [now]
    (storage working), a change notification whose [updated_at] denotes the
    instant of [now] changes nothing: the state after it is the state
    before it. *)
Theorem own_push_echo_is_ignored
    (s : State) (i : nat) (now : string) (row : Row) (t : Z) :
  Date_getTime "" = None ->
  nth_error (pendingPushes s) i = Some now ->
  getItem_throws (localStorage s) = false ->
  setItem_throws (localStorage s) = false ->
  Date_getTime now = Some t ->
  Date_getTime (row_updated_at row) = Some t ->
  run Date_getTime s [EvUpsertDone i UpsertOk; EvNotify row]
  = step Date_getTime s (EvUpsertDone i UpsertOk).
Proof.
  intros Hempty Hi Hg Hs Hnow Hrow. cbn [run fold_left].
  set (s1 := step Date_getTime s (EvUpsertDone i UpsertOk)).
  assert (Hts : getSyncTimestamp (localStorage s1) = Some now).
  { subst s1. cbn [step]. rewrite Hi. unfold pushToCloud_resume.
    replace (localStorage _) with (setSyncTimestamp now (localStorage s))
      by (destruct s; reflexivity).
    apply getSyncTimestamp_set; assumption. }
  cbn [step]. destruct (channel s1) as [ch |]; [| reflexivity].
  unfold onChange.
  destruct (negb (Z.eqb (row_year row) (ch_year ch))); [reflexivity |].
  rewrite Hts, (same_instant_true Date_getTime _ _ t Hrow Hnow).
  assert (Hne : now <> "") by (intros ->; congruence).
  rewrite (truthy_Some now Hne). reflexivity.
Qed.

End Channels.

(** ** Changing year or identity with an edit pending *)

Lemma rerunEffects_clears_timer (s0 s : State) :
  timers_tracked s0 ->
  timers s = timers s0 -> debounceTimerRef s = debounceTimerRef s0 ->
  autoPushCleanup s = autoPushCleanup s0 ->
  timers (rerunEffects s) = [].
Proof.
  intros Htr Ht Hr Hc. unfold rerunEffects.
  destruct (realtimeEffect_cleanup_timer_fields s) as (Ht' & Hr' & Hc').
  set (s1 := realtimeEffect_cleanup s) in *.
  assert (H2 : timers (autoPushEffect_cleanup s1) = [])
    by (apply (cleanup_clears s0); congruence).
  set (s2 := autoPushEffect_cleanup s1) in *.
  assert (H3 : timers (pullEffect s2) = []) by (rewrite timers_pullEffect; exact H2).
  assert (H3' : isEnabled (pullEffect s2) = true -> initialPullDoneRef (pullEffect s2) = false).
  { unfold pullEffect, pullFromCloud_start, log, isEnabled.
    destruct (supabase s2) eqn:Hsb; [destruct (user s2) eqn:Hu |];
      destruct s2; cbn in *; subst; cbn; auto; discriminate. }
  set (s3 := pullEffect s2) in *.
  assert (H4 : timers (realtimeEffect s3) = []) by (rewrite timers_realtimeEffect; exact H3).
  assert (H4' : isEnabled (realtimeEffect s3) = true ->
                initialPullDoneRef (realtimeEffect s3) = false).
  { destruct (realtimeEffect_unhydrated s3) as (_ & _ & ->).
    destruct (static_realtimeEffect s3) as (E1 & E2 & _).
    unfold isEnabled in *. rewrite E1, E2. exact H3'. }
  set (s4 := realtimeEffect s3) in *.
  destruct (isEnabled s4) eqn:He.
  - rewrite (autoPushEffect_unhydrated s4 (H4' eq_refl)). exact H4.
  - rewrite (autoPushEffect_disabled s4 He). exact H4.
Qed.

Section Cancellation.
Variable Date_getTime : string -> option Z.

(** X15: a change of year, or of identity, cancels the pending debounce
    timer: whatever was edited in the last half second is not pushed,
    however long one waits afterwards. *)
Theorem year_or_identity_change_cancels_pending_push
    (s : State) (waits : list (nat * string)) :
  timers_tracked s ->
  (forall y, y <> year s ->
     upserts (run Date_getTime s (EvYear y :: waits_events waits)) = upserts s)
  /\ (forall u, (user s <> None \/ u <> None) ->
        upserts (run Date_getTime s (EvAuth u :: waits_events waits)) = upserts s).
Proof.
  intros Htr. split.
  - intros y Hy.
    change (run Date_getTime s (EvYear y :: waits_events waits))
      with (run Date_getTime (step Date_getTime s (EvYear y)) (waits_events waits)).
    cbn [step]. destruct (Z.eqb_spec y (year s)) as [-> | _]; [contradiction |].
    assert (Ht : timers (rerunEffects (set_year y s)) = [])
      by (apply (rerunEffects_clears_timer s); [exact Htr | destruct s; reflexivity ..]).
    unfold upserts at 1. rewrite (waiting_is_silent Date_getTime waits _ Ht).
    fold (upserts (rerunEffects (set_year y s))).
    rewrite upserts_rerunEffects. destruct s; reflexivity.
  - intros u Hu.
    change (run Date_getTime s (EvAuth u :: waits_events waits))
      with (run Date_getTime (step Date_getTime s (EvAuth u)) (waits_events waits)).
    assert (Hstep : step Date_getTime s (EvAuth u) = rerunEffects (set_user u s)).
    { cbn [step]. destruct (user s), u; try reflexivity.
      destruct Hu as [Hu | Hu]; contradiction. }
    rewrite Hstep.
    assert (Ht : timers (rerunEffects (set_user u s)) = [])
      by (apply (rerunEffects_clears_timer s); [exact Htr | destruct s; reflexivity ..]).
    unfold upserts at 1. rewrite (waiting_is_silent Date_getTime waits _ Ht).
    fold (upserts (rerunEffects (set_user u s))).
    rewrite upserts_rerunEffects. destruct s; reflexivity.
Qed.

End Cancellation.

(** ** Back to the pre-hydration phase *)

Lemma isEnabled_static (s s' : State) :
  same_static_view s s' -> isEnabled s' = isEnabled s.
Proof. intros (E1 & E2 & _). unfold isEnabled. rewrite E1, E2. reflexivity. Qed.

(** Line 136: the mount effect resets the flag each time it runs. *)
Lemma pullEffect_resets_flag (s : State) :
  isEnabled s = true -> initialPullDoneRef (pullEffect s) = false.
Proof.
  unfold pullEffect, pullFromCloud_start, log, isEnabled. intros He.
  destruct (supabase s) eqn:Hsb; [destruct (user s) eqn:Hu |];
    destruct s; cbn in *; subst; cbn; auto; discriminate.
Qed.

Lemma rerunEffects_resets_flag (s : State) :
  isEnabled s = true -> initialPullDoneRef (rerunEffects s) = false.
Proof.
  intros He. unfold rerunEffects.
  set (s2 := autoPushEffect_cleanup (realtimeEffect_cleanup s)).
  assert (He2 : isEnabled s2 = true).
  { subst s2. rewrite (isEnabled_static _ _ (static_autoPushEffect_cleanup _)),
      (isEnabled_static _ _ (static_realtimeEffect_cleanup _)). exact He. }
  assert (H3 : initialPullDoneRef (realtimeEffect (pullEffect s2)) = false).
  { destruct (realtimeEffect_unhydrated (pullEffect s2)) as (_ & _ & ->).
    apply pullEffect_resets_flag. exact He2. }
  rewrite (autoPushEffect_unhydrated _ H3). exact H3.
Qed.

Section Hydration.
Variable Date_getTime : string -> option Z.

(** After the effects have run again with sync enabled, the hook is in
    the pre-hydration phase, whatever it was in before. *)
Lemma rerun_unhydrated (s0 s : State) (evs : list Event) :
  timers_tracked s0 ->
  timers s = timers s0 -> debounceTimerRef s = debounceTimerRef s0 ->
  autoPushCleanup s = autoPushCleanup s0 -> upserts s = upserts s0 ->
  isEnabled s = true ->
  before_hydration Date_getTime (rerunEffects s) evs ->
  still_unhydrated s0 (run Date_getTime (rerunEffects s) evs).
Proof.
  intros Htr Ht Hr Hc Hu He Hb.
  destruct (unhydrated_run Date_getTime evs (rerunEffects s)) as (A1 & A2 & A3).
  - apply rerunEffects_resets_flag. exact He.
  - apply (rerunEffects_clears_timer s0); assumption.
  - exact Hb.
  - unfold still_unhydrated. rewrite A1, upserts_rerunEffects. auto.
Qed.

(** X20: the pre-hydration phase.  From a state in which the initial pull
    is not marked as completed and no timer is pending, whatever renders
    with new cells, pauses, notifications, year and identity changes and
    other events follow, as long as no pull started by the mount effect is
    answered and the host does not call [pushToCloud] itself: no upsert is
    sent and no debounce timer is created.  The answer to such a pull ends
    the phase, whatever the answer is.  A change of year with sync enabled,
    or a sign-in, starts the phase again: the flag is reset and the pending
    timer cleared, whatever they were. *)
Theorem edits_wait_for_the_mount_pull (s : State) :
  (initialPullDoneRef s = false -> timers s = [] ->
   forall evs, before_hydration Date_getTime s evs ->
     still_unhydrated s (run Date_getTime s evs))
  /\ (forall i r, nth_error (pendingPulls s) i = Some true ->
        initialPullDoneRef (step Date_getTime s (EvFetchDone i r)) = true)
  /\ (timers_tracked s -> isEnabled s = true ->
      forall y evs, y <> year s ->
        before_hydration Date_getTime (step Date_getTime s (EvYear y)) evs ->
        still_unhydrated s (run Date_getTime s (EvYear y :: evs)))
  /\ (timers_tracked s -> supabase s = true ->
      forall u evs,
        before_hydration Date_getTime (step Date_getTime s (EvAuth (Some u))) evs ->
        still_unhydrated s (run Date_getTime s (EvAuth (Some u) :: evs))).
Proof.
  split; [| split; [| split]].
  - intros Hpd Ht evs Hb. apply unhydrated_run; assumption.
  - intros i r Hi. cbn [step]. rewrite Hi.
    destruct (pullFromCloud_resume r _); reflexivity.
  - intros Htr He y evs Hy.
    change (run Date_getTime s (EvYear y :: evs))
      with (run Date_getTime (step Date_getTime s (EvYear y)) evs).
    cbn [step]. destruct (Z.eqb_spec y (year s)) as [-> | _]; [contradiction |].
    apply rerun_unhydrated; try exact Htr; destruct s; try reflexivity; exact He.
  - intros Htr Hsb u evs.
    change (run Date_getTime s (EvAuth (Some u) :: evs))
      with (run Date_getTime (step Date_getTime s (EvAuth (Some u))) evs).
    assert (Hstep : step Date_getTime s (EvAuth (Some u))
                    = rerunEffects (set_user (Some u) s))
      by (cbn [step]; destruct (user s); reflexivity).
    rewrite Hstep.
    apply rerun_unhydrated; try exact Htr; try (destruct s; reflexivity).
    unfold isEnabled. destruct s; cbn in *. rewrite Hsb. reflexivity.
Qed.

End Hydration.

(** X20 at the data of the tests: an edit before the first reply waits; a
    failed fetch ends the phase; after hydration, an edit followed within
    the window by a change of year is not pushed, nor is an edit made
    after it while the fetch for the new year is unanswered. *)
Lemma edits_wait_for_the_mount_pull_witness :
  still_unhydrated (mounted cellsRed emptyStorage)
    (run IsoDate.getTime (mounted cellsRed emptyStorage)
       [EvRender cellsRedBlue; EvElapse 1000 "2025-06-01T12:00:01.000Z"])
  /\ initialPullDoneRef
       (step IsoDate.getTime (mounted cellsRed emptyStorage) (EvFetchDone 0 FetchError))
     = true
  /\ (initialPullDoneRef editPending = true
      /\ still_unhydrated editPending
           (run IsoDate.getTime editPending
              [EvYear 2026; EvRender cellsRedBlue;
               EvElapse 1000 "2025-06-01T12:00:01.100Z"])).
Proof.
  destruct (edits_wait_for_the_mount_pull IsoDate.getTime
              (mounted cellsRed emptyStorage)) as (Hquiet & Hdone & _).
  destruct (edits_wait_for_the_mount_pull IsoDate.getTime editPending)
    as (_ & _ & Hyear & _).
  split; [| split; [| split]].
  - apply Hquiet; [reflexivity | reflexivity | cbn; auto].
  - apply Hdone. reflexivity.
  - reflexivity.
  - apply Hyear.
    + vm_compute. repeat split; discriminate.
    + reflexivity.
    + vm_compute. discriminate.
    + vm_compute. auto 10.
Defined.

(** ** Load Data *)

Section LoadData.

Context {V : Type}.

Lemma merge_entries_lookup (l : list (string * gmap string V))
    (acc : gmap string (gmap string V)) (k : string) :
  NoDup (l.*1) ->
  fold_left mergeCell l acc !! k
  = match (list_to_map l : gmap string (gmap string V)) !! k with
    | Some c => Some (spread (default ∅ (acc !! k)) c)
    | None => acc !! k
    end.
Proof.
  revert acc. induction l as [| [k0 c0] l IH]; intros acc Hnd.
  - cbn. rewrite lookup_empty. reflexivity.
  - cbn [fold_left]. rewrite fmap_cons in Hnd. apply NoDup_cons in Hnd.
    destruct Hnd as (Hnotin & Hnd). rewrite (IH _ Hnd). cbn [list_to_map foldr].
    unfold mergeCell at 1 2. cbn [fst snd].
    destruct (decide (k = k0)) as [-> | Hne].
    + rewrite (not_elem_of_list_to_map_1 _ _ Hnotin).
      rewrite !lookup_insert_eq. reflexivity.
    + rewrite !(lookup_insert_ne _ k0 k) by congruence. reflexivity.
Qed.

(** What Load Data leaves under each date key. *)
Lemma mergeLoadedCells_lookup (dateCells loaded : gmap string (gmap string V))
    (k : string) :
  mergeLoadedCells dateCells loaded !! k
  = match loaded !! k with
    | Some c => Some (spread (default ∅ (dateCells !! k)) c)
    | None => dateCells !! k
    end.
Proof.
  unfold mergeLoadedCells.
  rewrite merge_entries_lookup by apply NoDup_fst_map_to_list.
  rewrite list_to_map_to_list. reflexivity.
Qed.

(** X16: Load Data keeps every day: the merged calendar has the days of
    the current one and of the file; days absent from the file are
    unchanged; on a day of the file every field of the file wins and every
    field the file does not mention keeps its current value. *)
Theorem load_data_keeps_every_day (dateCells loaded : gmap string (gmap string V)) :
  dom (mergeLoadedCells dateCells loaded) = dom dateCells ∪ dom loaded
  /\ (forall k, loaded !! k = None ->
        mergeLoadedCells dateCells loaded !! k = dateCells !! k)
  /\ (forall k c f v, loaded !! k = Some c -> c !! f = Some v ->
        exists c', mergeLoadedCells dateCells loaded !! k = Some c'
                   /\ c' !! f = Some v)
  /\ (forall k c old f, loaded !! k = Some c -> dateCells !! k = Some old ->
        c !! f = None ->
        exists c', mergeLoadedCells dateCells loaded !! k = Some c'
                   /\ c' !! f = old !! f).
Proof.
  split; [| split; [| split]].
  - apply set_eq. intros k. rewrite elem_of_union, !elem_of_dom.
    rewrite mergeLoadedCells_lookup.
    destruct (loaded !! k) eqn:Hl; split; intros H; eauto.
    + destruct H as [H | H]; [exact H | destruct H; discriminate].
  - intros k Hk. rewrite mergeLoadedCells_lookup, Hk. reflexivity.
  - intros k c f v Hk Hf. rewrite mergeLoadedCells_lookup, Hk.
    eexists. split; [reflexivity |]. unfold spread.
    apply lookup_union_Some_l. exact Hf.
  - intros k c old f Hk Hold Hf. rewrite mergeLoadedCells_lookup, Hk, Hold.
    eexists. split; [reflexivity |]. unfold spread. cbn.
    apply lookup_union_r. exact Hf.
Qed.

(** X17: loading the same file a second time changes nothing. *)
Theorem load_data_twice_is_load_data_once
    (dateCells loaded : gmap string (gmap string V)) :
  mergeLoadedCells (mergeLoadedCells dateCells loaded) loaded
  = mergeLoadedCells dateCells loaded.
Proof.
  apply map_eq. intros k. rewrite !mergeLoadedCells_lookup.
  destruct (loaded !! k) as [c |]; [| reflexivity].
  cbn. unfold spread. f_equal.
  rewrite (assoc_L (∪)), (idemp_L (∪) c). reflexivity.
Qed.

(** X18: loading back what Save Data exported from the current calendar
    ([Object.fromEntries(dateCells)]) leaves the calendar as it is. *)
Theorem load_of_saved_data_changes_nothing
    (dateCells : gmap string (gmap string V)) :
  mergeLoadedCells dateCells dateCells = dateCells.
Proof.
  apply map_eq. intros k. rewrite mergeLoadedCells_lookup.
  destruct (dateCells !! k) as [c |]; [| reflexivity].
  cbn. unfold spread. rewrite (idemp_L (∪) c). reflexivity.
Qed.

End LoadData.

(** ** The further properties on sample inputs *)

Lemma pull_without_timestamp_applies_witness :
  remote_applied docOld (mounted cellsBlue blockedStorage)
    (step IsoDate.getTime (mounted cellsBlue blockedStorage)
       (EvFetchDone 0 (FetchOk (Some docOld)))).
Proof.
  apply (pull_without_timestamp_applies IsoDate.getTime
           (mounted cellsBlue blockedStorage) 0 true docOld).
  - reflexivity.
  - reflexivity.
  - vm_compute. lia.
Defined.

Lemma failed_initial_pull_unblocks_auto_push_witness :
  calls (run IsoDate.getTime (mounted ∅ emptyStorage)
           [EvFetchDone 0 FetchError; EvRender cellsRed;
            EvElapse 600 "2025-06-01T12:00:00.600Z"])
  = calls (mounted ∅ emptyStorage)
    ++ [CUpsert "user-123" 2025 cellsRed "2025-06-01T12:00:00.600Z"].
Proof.
  refine (proj2 (proj2 (failed_initial_pull_unblocks_auto_push IsoDate.getTime
            (mounted ∅ emptyStorage) "user-123" 0 FetchError cellsRed 600
            "2025-06-01T12:00:00.600Z" _ _ _ _ _ _ _ _ _))).
  - vm_compute. exact I.
  - reflexivity.
  - reflexivity.
  - reflexivity.
  - reflexivity.
  - reflexivity.
  - left. reflexivity.
  - vm_compute. lia.
  - vm_compute. lia.
Defined.

Lemma failed_push_is_not_retried_witness :
  calls (run IsoDate.getTime pushInFlight (EvUpsertDone 0 UpsertError :: waits_events aWhile))
  = calls pushInFlight.
Proof.
  refine (proj1 (failed_push_is_not_retried IsoDate.getTime pushInFlight 0
                   "2025-06-01T12:00:00.000Z" UpsertError aWhile _ _ _)).
  - reflexivity.
  - left. reflexivity.
  - reflexivity.
Defined.

Lemma edit_during_push_is_dropped_witness :
  calls (run IsoDate.getTime pushInFlight
           (EvRender cellsRedBlue :: waits_events aWhile
            ++ EvUpsertDone 0 UpsertOk :: waits_events aWhile))
  = calls pushInFlight.
Proof.
  apply (edit_during_push_is_dropped IsoDate.getTime pushInFlight cellsRedBlue
           0 UpsertOk aWhile aWhile).
  - vm_compute. exact I.
  - reflexivity.
Defined.

Lemma cleared_state_is_not_pushed_and_comes_back_witness :
  remote_applied docOld pullRequested
    (run IsoDate.getTime pullRequested
       (EvRender ∅ :: waits_events aWhile ++ [EvFetchDone 0 (FetchOk (Some docOld))])).
Proof.
  refine (proj2 (cleared_state_is_not_pushed_and_comes_back IsoDate.getTime
                   pullRequested ∅ aWhile _ _) 0 false docOld _ _).
  - vm_compute. exact I.
  - reflexivity.
  - reflexivity.
  - vm_compute. lia.
Defined.

Lemma sync_now_pushes_last_rendered_state_witness :
  upserts (run IsoDate.getTime (hydrated cellsBlue (storageWith "2025-01-01T00:00:00Z"))
             (handleSyncNow (FetchOk (Some docNew)) "2025-06-02T00:00:00.000Z"
                (hydrated cellsBlue (storageWith "2025-01-01T00:00:00Z"))))
  = upserts (hydrated cellsBlue (storageWith "2025-01-01T00:00:00Z"))
    ++ [CUpsert "user-123" 2025 cellsBlue "2025-06-02T00:00:00.000Z"].
Proof.
  refine (proj1 (sync_now_pushes_last_rendered_state IsoDate.getTime
                   (hydrated cellsBlue (storageWith "2025-01-01T00:00:00Z"))
                   "user-123" (FetchOk (Some docNew)) "2025-06-02T00:00:00.000Z" _ _)).
  - reflexivity.
  - reflexivity.
Defined.

Lemma auto_push_never_sends_empty_payload_witness :
  Forall has_cells
    (calls (run IsoDate.getTime (mounted ∅ emptyStorage)
              [EvFetchDone 0 (FetchOk None); EvRender cellsRed;
               EvElapse 600 "2025-06-01T12:00:00.600Z"; EvUpsertDone 0 UpsertOk;
               EvRender ∅; EvElapse 600 "2025-06-01T12:00:01.200Z"])).
Proof.
  apply (auto_push_never_sends_empty_payload IsoDate.getTime true
           (Some "user-123") 2025 ∅ emptyStorage).
  reflexivity.
Defined.

Lemma sync_indicator_is_truthful_witness :
  exists ind,
    renderSyncIndicator
      (user (run IsoDate.getTime (mount true (Some "user-123") 2025 ∅ emptyStorage) []))
      (syncStatus (run IsoDate.getTime (mount true (Some "user-123") 2025 ∅ emptyStorage) []))
    = Some ind
    /\ tooltipText ind <> ""
    /\ (iconStatus ind = IconSyncing ->
        pendingPulls (run IsoDate.getTime (mount true (Some "user-123") 2025 ∅ emptyStorage) []) <> []
        \/ pendingPushes (run IsoDate.getTime (mount true (Some "user-123") 2025 ∅ emptyStorage) []) <> []).
Proof.
  apply (sync_indicator_is_truthful IsoDate.getTime true (Some "user-123") 2025
           ∅ emptyStorage [] "user-123").
  reflexivity.
Defined.

Lemma own_push_echo_is_ignored_witness :
  run IsoDate.getTime pushInFlight [EvUpsertDone 0 UpsertOk; EvNotify rowEcho]
  = step IsoDate.getTime pushInFlight (EvUpsertDone 0 UpsertOk).
Proof.
  apply (own_push_echo_is_ignored IsoDate.getTime pushInFlight 0
           "2025-06-01T12:00:00.000Z" rowEcho 1748779200000%Z);
    reflexivity.
Defined.

Lemma year_or_identity_change_cancels_pending_push_witness :
  upserts (run IsoDate.getTime editPending (EvYear 2026 :: waits_events aWhile))
  = upserts editPending.
Proof.
  refine (proj1 (year_or_identity_change_cancels_pending_push IsoDate.getTime
                   editPending aWhile _) 2026%Z _).
  - vm_compute. repeat split; discriminate.
  - vm_compute. discriminate.
Defined.

(** The guard-free twin of the last witness: left alone, the pending edit
    is pushed. *)
Example pending_edit_is_pushed_when_left_alone :
  upserts (run IsoDate.getTime editPending (waits_events aWhile))
  = [CUpsert "user-123" 2025 cellsRed "2025-06-01T12:00:05.000Z"].
Proof. vm_compute. reflexivity. Qed.

Lemma load_data_keeps_every_day_witness :
  exists c', mergeLoadedCells tripDay fileBlueGreen !! "2025-01-01" = Some c'
             /\ c' !! "note" = ({[ "color" := "red"; "note" := "trip" ]} : gmap string string) !! "note".
Proof.
  refine (proj2 (proj2 (proj2 (load_data_keeps_every_day tripDay fileBlueGreen)))
            "2025-01-01" {[ "color" := "blue" ]} {[ "color" := "red"; "note" := "trip" ]}
            "note" _ _ _); reflexivity.
Defined.

(** The merged calendar of the last witness, in full. *)
Example load_data_merges_fields :
  mergeLoadedCells tripDay fileBlueGreen
  = {[ "2025-01-01" := {[ "color" := "blue"; "note" := "trip" ]};
       "2025-01-02" := {[ "color" := "green" ]} ]}.
Proof. vm_compute. reflexivity. Qed.
